(** * Instant Fact-Check Lens: the analysis pipeline, embedded and verified

    The first part embeds the program, module by module:
    - [JS]: the string built-ins the services call
      ([indexOf], [lastIndexOf], [substring], [includes], [trim], ...);
    - [JSON]: the values of [JSON.parse], property reads, truthiness, and
      a parser for the JSON grammar to run the services on sample texts;
    - [GeminiService]: [analyzeContent] (prompt parts, extraction of the
      JSON answer, mapping of errors);
    - [PdfService]: [extractTextFromPdf];
    - [Types]: the records of types.ts;
    - [ReportService]: [generatePdfReport], as the calls it issues on the
      document while it moves the cursor [y];
    - [App]: the session state, [handleSubmit] and [addToHistory].

    The second part holds the vocabulary of the statements ([Text],
    [Schema], [Layout], [Trace], [Pagination]) and sample inputs; the
    third part the properties.

    A JavaScript string is a sequence of UTF-16 code units.  It is modelled
    by a Rocq [string], one character per code unit, which covers the texts
    whose code units are below 256; lengths and indices are then those of
    the program.  The platform and the libraries (the JSON parser, pdf.js,
    jsPDF, the generation service) are parameters of the services; the
    properties hold for every value of these parameters. *)

From Stdlib Require Import ZArith List Bool Lia.
From Stdlib Require Import Ascii String DecimalString.
Import ListNotations.

#[local] Set Warnings "-register-all".

Open Scope Z_scope.
Open Scope string_scope.

(* ================================================================== *)
(** ** JavaScript built-ins used by the services *)
(* ================================================================== *)

Module JS.

(** [`${n}`] for a non-negative integer. *)
Definition string_of_nat (n : nat) : string :=
  NilEmpty.string_of_uint (Nat.to_uint n).

(** [`${z}`] for an integer. *)
Definition string_of_Z (z : Z) : string :=
  NilEmpty.string_of_int (Z.to_int z).

(** [s.length] *)
Definition len (s : string) : Z := Z.of_nat (String.length s).

(** Search of [p] in [s], scanning forward; [i] is the index of the
    head of [s] in the whole text. *)
Fixpoint indexOf_from (i : Z) (s p : string) : Z :=
  if String.prefix p s then i
  else match s with
       | EmptyString => -1
       | String _ s' => indexOf_from (i + 1) s' p
       end.

(** [s.indexOf(p)]: index of the first occurrence, or -1. *)
Definition indexOf (s p : string) : Z := indexOf_from 0 s p.

(** Index of the last occurrence of [p] at or after the head of [s]. *)
Fixpoint lastIndexOf_from (i : Z) (s p : string) : Z :=
  match s with
  | EmptyString => if String.prefix p s then i else -1
  | String _ s' =>
      let later := lastIndexOf_from (i + 1) s' p in
      if Z.eqb later (-1) then (if String.prefix p s then i else -1) else later
  end.

(** [s.lastIndexOf(p)]: index of the last occurrence, or -1. *)
Definition lastIndexOf (s p : string) : Z := lastIndexOf_from 0 s p.

(** [s.includes(p)] *)
Definition includes (s p : string) : bool := negb (Z.eqb (indexOf s p) (-1)).

(** [s.substring(start, end)]: both indices are clamped to
    [0 .. s.length] and swapped when [start > end]. *)
Definition substring (s : string) (start end_ : Z) : string :=
  let clamp i := Z.min (Z.max i 0) (len s) in
  let lo := Z.min (clamp start) (clamp end_) in
  let hi := Z.max (clamp start) (clamp end_) in
  String.substring (Z.to_nat lo) (Z.to_nat (hi - lo)) s.

(** White space and line terminators stripped by [trim], among the code
    units below 256: TAB, LF, VT, FF, CR, SP, NBSP. *)
Definition isWhiteSpace (c : ascii) : bool :=
  let n := nat_of_ascii c in
  (Nat.eqb n 9 || Nat.eqb n 10 || Nat.eqb n 11 || Nat.eqb n 12
   || Nat.eqb n 13 || Nat.eqb n 32 || Nat.eqb n 160)%bool.

Fixpoint trimStart (s : string) : string :=
  match s with
  | EmptyString => EmptyString
  | String c s' => if isWhiteSpace c then trimStart s' else s
  end.

Fixpoint trimEnd (s : string) : string :=
  match s with
  | EmptyString => EmptyString
  | String c s' =>
      match trimEnd s' with
      | EmptyString => if isWhiteSpace c then EmptyString
                       else String c EmptyString
      | t => String c t
      end
  end.

(** [s.trim()] *)
Definition trim (s : string) : string := trimEnd (trimStart s).

(** Truthiness of a string: only the empty string is falsy. *)
Definition truthy (s : string) : bool :=
  match s with EmptyString => false | _ => true end.

(** [items.join(sep)] *)
Fixpoint join (sep : string) (items : list string) : string :=
  match items with
  | [] => ""
  | [x] => x
  | x :: rest => x ++ sep ++ join sep rest
  end.

(** [s.toUpperCase()] on the letters a-z (the verdict names are ASCII). *)
Definition upper (c : ascii) : ascii :=
  let n := nat_of_ascii c in
  if (Nat.leb 97 n && Nat.leb n 122)%bool then ascii_of_nat (n - 32) else c.

Fixpoint toUpperCase (s : string) : string :=
  match s with
  | EmptyString => EmptyString
  | String c s' => String (upper c) (toUpperCase s')
  end.

End JS.

(* ================================================================== *)
(** ** JSON values and [JSON.parse] *)
(* ================================================================== *)

Module JSON.

(** A value returned by [JSON.parse].  A number literal is kept as the
    exact decimal [mantissa * 10 ^ exponent] it denotes; the program's
    Number is the double nearest to it.  The members of an object are
    kept in source order; a repeated key is read at its last member. *)
Inductive json : Type :=
| JNull
| JBool (b : bool)
| JNumber (mantissa exponent : Z)
| JString (s : string)
| JArray (items : list json)
| JObject (members : list (string * json)).

(** The double nearest to a decimal is zero when the decimal is zero or
    at most half the least positive double, [2 ^ -1075]. *)
Definition number_is_zero (m e : Z) : bool :=
  (Z.eqb m 0 || (Z.ltb e 0 && Z.leb (Z.abs m * 2 ^ 1075) (10 ^ (- e))))%bool.

(** ToBoolean: [null], [false], zero and the empty string are falsy,
    every object and array is truthy. *)
Definition truthy (v : json) : bool :=
  match v with
  | JNull => false
  | JBool b => b
  | JNumber m e => negb (number_is_zero m e)
  | JString s => JS.truthy s
  | JArray _ => true
  | JObject _ => true
  end.

(** Truthiness of the result of a property read, [undefined] being
    falsy. *)
Definition truthy_opt (o : option json) : bool :=
  match o with Some v => truthy v | None => false end.

Fixpoint lookup (k : string) (members : list (string * json)) : option json :=
  match members with
  | [] => None
  | (k', v) :: rest =>
      match lookup k rest with
      | Some w => Some w
      | None => if String.eqb k k' then Some v else None
      end
  end.

(** [v.k] for a name [k] that no prototype defines (the program reads
    [claims] and [overall_verdict]): [None] when the read throws a
    TypeError ([v] is [null]), [Some None] when it yields [undefined]. *)
Definition getProp (v : json) (k : string) : option (option json) :=
  match v with
  | JNull => None
  | JObject members => Some (lookup k members)
  | _ => Some None
  end.

(** *** The JSON grammar (ECMA-404), as [JSON.parse] reads it *)

Definition dquote : ascii := ascii_of_nat 34.
Definition backslash : ascii := ascii_of_nat 92.

Definition is_ws (c : ascii) : bool :=
  let n := nat_of_ascii c in
  (Nat.eqb n 32 || Nat.eqb n 9 || Nat.eqb n 10 || Nat.eqb n 13)%bool.

Fixpoint skip_ws (s : string) : string :=
  match s with
  | EmptyString => EmptyString
  | String c s' => if is_ws c then skip_ws s' else s
  end.

Definition digit_of (c : ascii) : option Z :=
  let n := nat_of_ascii c in
  if (Nat.leb 48 n && Nat.leb n 57)%bool then Some (Z.of_nat (n - 48)) else None.

Definition hex_of (c : ascii) : option nat :=
  let n := nat_of_ascii c in
  if (Nat.leb 48 n && Nat.leb n 57)%bool then Some (n - 48)%nat
  else if (Nat.leb 97 n && Nat.leb n 102)%bool then Some (n - 87)%nat
  else if (Nat.leb 65 n && Nat.leb n 70)%bool then Some (n - 55)%nat
  else None.

(** The character a one-letter escape stands for. *)
Definition escape_of (c : ascii) : option ascii :=
  let n := nat_of_ascii c in
  if Nat.eqb n 34 then Some dquote
  else if Nat.eqb n 92 then Some backslash
  else if Nat.eqb n 47 then Some (ascii_of_nat 47)
  else if Nat.eqb n 98 then Some (ascii_of_nat 8)
  else if Nat.eqb n 102 then Some (ascii_of_nat 12)
  else if Nat.eqb n 110 then Some (ascii_of_nat 10)
  else if Nat.eqb n 114 then Some (ascii_of_nat 13)
  else if Nat.eqb n 116 then Some (ascii_of_nat 9)
  else None.

(** The characters of a string literal after its opening quote, up to
    the closing quote.  A [\uXXXX] escape denotes one code unit; the
    strings of this model hold the code units below 256, so an escape
    above that has no value here and is refused like a malformed one. *)
Fixpoint parse_chars (s : string) : option (string * string) :=
  match s with
  | EmptyString => None
  | String c r =>
      if Ascii.eqb c dquote then Some (EmptyString, r)
      else if Ascii.eqb c backslash then
        match r with
        | String e r1 =>
            if Ascii.eqb e "u" then
              match r1 with
              | String h1 (String h2 (String h3 (String h4 r2))) =>
                  match hex_of h1, hex_of h2, hex_of h3, hex_of h4 with
                  | Some 0%nat, Some 0%nat, Some a, Some b =>
                      match parse_chars r2 with
                      | Some (t, rest) =>
                          Some (String (ascii_of_nat (16 * a + b)) t, rest)
                      | None => None
                      end
                  | _, _, _, _ => None
                  end
              | _ => None
              end
            else
              match escape_of e, parse_chars r1 with
              | Some x, Some (t, rest) => Some (String x t, rest)
              | _, _ => None
              end
        | EmptyString => None
        end
      else if Nat.ltb (nat_of_ascii c) 32 then None
      else match parse_chars r with
           | Some (t, rest) => Some (String c t, rest)
           | None => None
           end
  end.

(** A run of digits: its value on top of [acc], its length, the rest. *)
Fixpoint read_digits (acc : Z) (n : nat) (s : string) : Z * nat * string :=
  match s with
  | EmptyString => (acc, n, s)
  | String c r =>
      match digit_of c with
      | Some d => read_digits (acc * 10 + d) (S n) r
      | None => (acc, n, s)
      end
  end.

(** The integer part: a single [0], or a run of digits starting with a
    non-zero digit. *)
Definition read_int (s : string) : option (Z * string) :=
  match s with
  | String c r =>
      match digit_of c with
      | Some 0 => Some (0, r)
      | Some _ => let '(v, _, rest) := read_digits 0 0 s in Some (v, rest)
      | None => None
      end
  | EmptyString => None
  end.

(** Takes the character [c] off the head of [s]. *)
Definition eat (c : ascii) (s : string) : option string :=
  match s with
  | String a r => if Ascii.eqb a c then Some r else None
  | EmptyString => None
  end.

(** The optional fraction: the mantissa extended by the fraction digits
    and the number of those digits. *)
Definition read_frac (m : Z) (s : string) : option (Z * Z * string) :=
  match eat "." s with
  | Some r =>
      let '(v, n, rest) := read_digits m 0 r in
      match n with
      | O => None
      | _ => Some (v, Z.of_nat n, rest)
      end
  | None => Some (m, 0, s)
  end.

(** The digits of an exponent, after its sign. *)
Definition read_exp_digits (neg : bool) (s : string) : option (Z * string) :=
  let '(v, n, rest) := read_digits 0 0 s in
  match n with
  | O => None
  | _ => Some (if neg then - v else v, rest)
  end.

(** The optional exponent. *)
Definition read_exp (s : string) : option (Z * string) :=
  match s with
  | String c r =>
      if (Ascii.eqb c "e" || Ascii.eqb c "E")%bool then
        match eat "+" r, eat "-" r with
        | Some r1, _ => read_exp_digits false r1
        | None, Some r1 => read_exp_digits true r1
        | None, None => read_exp_digits false r
        end
      else Some (0, s)
  | EmptyString => Some (0, s)
  end.

Definition parse_number (s : string) : option (json * string) :=
  let '(neg, s1) := match eat "-" s with
                    | Some r => (true, r)
                    | None => (false, s)
                    end in
  match read_int s1 with
  | None => None
  | Some (i, s2) =>
      match read_frac i s2 with
      | None => None
      | Some (m, k, s3) =>
          match read_exp s3 with
          | None => None
          | Some (e, s4) => Some (JNumber (if neg then - m else m) (e - k), s4)
          end
      end
  end.

(** Removes the literal [p] from the head of [s]. *)
Fixpoint strip (p s : string) : option string :=
  match p, s with
  | EmptyString, _ => Some s
  | String a p', String b s' => if Ascii.eqb a b then strip p' s' else None
  | String _ _, EmptyString => None
  end.

(** A value that starts with a letter or a digit: one of the three
    literal names, or a number. *)
Definition parse_scalar (c : ascii) (t : string) : option (json * string) :=
  if Ascii.eqb c "t" then
    option_map (fun rest => (JBool true, rest)) (strip "true" t)
  else if Ascii.eqb c "f" then
    option_map (fun rest => (JBool false, rest)) (strip "false" t)
  else if Ascii.eqb c "n" then
    option_map (fun rest => (JNull, rest)) (strip "null" t)
  else parse_number t.

(** One value at the head of [s] (after white space), and what follows
    it.  [fuel] bounds the nesting of the recursion. *)
Fixpoint parse_value (fuel : nat) (s : string) : option (json * string) :=
  match fuel with
  | O => None
  | S fuel' =>
      match skip_ws s with
      | EmptyString => None
      | String c r as t =>
          if Ascii.eqb c "{" then
            match eat "}" (skip_ws r) with
            | Some rest => Some (JObject [], rest)
            | None => match parse_members fuel' r with
                      | Some (ms, rest) => Some (JObject ms, rest)
                      | None => None
                      end
            end
          else if Ascii.eqb c "[" then
            match eat "]" (skip_ws r) with
            | Some rest => Some (JArray [], rest)
            | None => match parse_elements fuel' r with
                      | Some (vs, rest) => Some (JArray vs, rest)
                      | None => None
                      end
            end
          else if Ascii.eqb c dquote then
            match parse_chars r with
            | Some (str, rest) => Some (JString str, rest)
            | None => None
            end
          else parse_scalar c t
      end
  end

(** The values of an array after its opening bracket, up to the closing
    bracket. *)
with parse_elements (fuel : nat) (s : string) : option (list json * string) :=
  match fuel with
  | O => None
  | S fuel' =>
      match parse_value fuel' s with
      | None => None
      | Some (v, r) =>
          match eat "]" (skip_ws r), eat "," (skip_ws r) with
          | Some rest, _ => Some ([v], rest)
          | None, Some rest =>
              match parse_elements fuel' rest with
              | Some (vs, rest') => Some (v :: vs, rest')
              | None => None
              end
          | None, None => None
          end
      end
  end

(** The members of an object after its opening brace, up to the closing
    brace. *)
with parse_members (fuel : nat) (s : string) : option (list (string * json) * string) :=
  match fuel with
  | O => None
  | S fuel' =>
      match eat dquote (skip_ws s) with
      | None => None
      | Some r =>
          match parse_chars r with
          | None => None
          | Some (k, r1) =>
              match eat ":" (skip_ws r1) with
              | None => None
              | Some r2 =>
                  match parse_value fuel' r2 with
                  | None => None
                  | Some (v, r3) =>
                      match eat "}" (skip_ws r3), eat "," (skip_ws r3) with
                      | Some rest, _ => Some ([(k, v)], rest)
                      | None, Some rest =>
                          match parse_members fuel' rest with
                          | Some (ms, rest') => Some ((k, v) :: ms, rest')
                          | None => None
                          end
                      | None, None => None
                      end
                  end
              end
          end
      end
  end.

(** [JSON.parse(s)]: one value surrounded by white space; [None] stands
    for the SyntaxError it throws otherwise.  Every call of the
    recursion above happens at a strictly shorter rest of [s] or right
    after a call that did, so twice the length of [s] is fuel enough
    ([parse_fuel_enough] below). *)
Definition parse (s : string) : option json :=
  match parse_value (2 * String.length s + 2) s with
  | Some (v, rest) =>
      match skip_ws rest with
      | EmptyString => Some v
      | _ => None
      end
  | None => None
  end.

(** Source text of a JSON document written with ['] for the double
    quote. *)
Fixpoint text (s : string) : string :=
  match s with
  | EmptyString => EmptyString
  | String c s' => String (if Ascii.eqb c "'" then dquote else c) (text s')
  end.

End JSON.

(* ================================================================== *)
(** ** services/geminiService: [analyzeContent] *)
(* ================================================================== *)

Module GeminiService.
Import JSON.

Inductive Mode : Type := standard | deep.

(** One part of the request: inline binary data with its MIME tag, or
    text. *)
Inductive Part : Type :=
| inlineData (data mimeType : string)
| text (t : string).

Record Request : Type := { model : string; parts : list Part }.

(** What a [throw] inside the inner [try] carries: an [Error] built by
    the program with its message, the SyntaxError of [JSON.parse], or
    the TypeError of a property read on [null]. *)
Inductive exn : Type :=
| Error (message : string)
| SyntaxError
| TypeError.

Definition deepPrefix : string :=
  "CONDUCT A DEEP DIVE ANALYSIS. Search extensively for historical context, scientific consensus, and multiple viewpoints. Be extremely rigorous with evidence selection. ".

Definition noJsonMessage : string :=
  "Response did not contain valid JSON structure.".
Definition missingFieldsMessage : string :=
  "Response JSON missing required fields.".
Definition parseFailureMessage : string :=
  "Failed to parse the fact-check results. The AI model output was not valid JSON.".
Definition emptyResponseMessage : string :=
  "Received empty response from the model.".
Definition apiKeyMessage : string :=
  "API Key is missing. Please ensure process.env.API_KEY is configured.".

(** A non-empty run of characters, none a space or a double quote. *)
Fixpoint urlBody (s : string) : bool :=
  match s with
  | EmptyString => false
  | String c r =>
      (negb (Ascii.eqb c " ") && negb (Ascii.eqb c dquote)
       && match r with EmptyString => true | _ => urlBody r end)%bool
  end.

(** The test of the regular expression of [analyzeContent]: the scheme
    http or https, a colon and two slashes, then, up to the end, one or
    more characters other than a space and a double quote. *)
Definition isUrl (s : string) : bool :=
  match strip "http://" s, strip "https://" s with
  | Some r, _ => urlBody r
  | None, Some r => urlBody r
  | None, None => false
  end.

(** The prompt parts (the [if (imageBase64)] block): an absent or empty
    image string is falsy. *)
Definition buildParts (t : string) (imageBase64 : option string) (mode : Mode)
  : list Part :=
  let promptPrefix := match mode with deep => deepPrefix | standard => "" end in
  match imageBase64 with
  | Some (String _ _ as data) =>
      [ inlineData data "image/jpeg";
        text (promptPrefix ++ "Analyze this image. "
              ++ (if JS.truthy t then "Context: " ++ t else "")) ]
  | _ =>
      if isUrl (JS.trim t)
      then [ text (promptPrefix ++ "Analyze the content at this URL: " ++ t
                   ++ ". Extract claims and verify them.") ]
      else [ text (promptPrefix ++ t) ]
  end.

Definition modelId (mode : Mode) : string :=
  match mode with deep => "gemini-3-pro-preview" | standard => "gemini-2.5-flash" end.

(** The mapping of the outer [catch] from the caught message to the
    message of the error that [analyzeContent] rejects with. *)
Definition userMessage (message : string) : string :=
  if JS.truthy message then
    if JS.includes message "API Key is missing"
    then "API Key configuration error. Please check your environment."
    else if JS.includes message "400"
    then "Request failed (400). Please try different content."
    else if JS.includes message "403"
    then "Permission denied. Please check API key and enabled services."
    else if JS.includes message "404" then "Model or resource not found."
    else if JS.includes message "429"
    then "Too many requests. Please wait a moment."
    else if JS.includes message "SAFETY"
    then "Content blocked due to safety settings."
    else if (JS.includes message "JSON" || JS.includes message "response")%bool
    then message
    else "Analysis failed: " ++ message
  else "An unexpected error occurred during analysis.".

Section Service.

(** The platform's [JSON.parse] ([None]: it throws), the configured
    key, and the generation service ([inl]: the call rejects with an
    error of that message; [inr]: the [text] of the response, which
    may be missing). *)
Variable JSON_parse : string -> option json.
Variable API_KEY : option string.
Variable generateContent : Request -> string + option string.

(** The candidate JSON document: from the first opening brace to the
    last closing brace. *)
Definition jsonString (resultText : string) : string :=
  let firstOpen := JS.indexOf resultText "{" in
  let lastClose := JS.lastIndexOf resultText "}" in
  JS.substring resultText firstOpen (lastClose + 1).

(** The body of the inner [try]. *)
Definition extractJson (resultText : string) : exn + json :=
  let firstOpen := JS.indexOf resultText "{" in
  let lastClose := JS.lastIndexOf resultText "}" in
  if (Z.eqb firstOpen (-1) || Z.eqb lastClose (-1))%bool
  then inl (Error noJsonMessage)
  else
    match JSON_parse (JS.substring resultText firstOpen (lastClose + 1)) with
    | None => inl SyntaxError
    | Some jsonResponse =>
        (* Basic validation *)
        match getProp jsonResponse "claims" with
        | None => inl TypeError
        | Some claims =>
            if negb (truthy_opt claims)
            then inl (Error missingFieldsMessage)
            else
              match getProp jsonResponse "overall_verdict" with
              | None => inl TypeError
              | Some verdict =>
                  if negb (truthy_opt verdict)
                  then inl (Error missingFieldsMessage)
                  else inr jsonResponse
              end
        end
    end.

(** The inner [try ... catch (parseError)]: whatever was thrown is
    logged and replaced by one error. *)
Definition parseResponse (resultText : string) : string + json :=
  match extractJson resultText with
  | inl _ => inl parseFailureMessage
  | inr jsonResponse => inr jsonResponse
  end.

Definition getAiClient : string + string :=
  match API_KEY with
  | Some (String _ _ as apiKey) => inr apiKey
  | _ => inl apiKeyMessage
  end.

(** The body of the outer [try]. *)
Definition analyze (t : string) (imageBase64 : option string) (mode : Mode)
  : string + json :=
  match getAiClient with
  | inl message => inl message
  | inr _ =>
      match generateContent {| model := modelId mode;
                               parts := buildParts t imageBase64 mode |} with
      | inl message => inl message
      | inr (Some (String _ _ as resultText)) => parseResponse resultText
      | inr _ => inl emptyResponseMessage
      end
  end.

(** [analyzeContent]: [inl] is the message of the error it rejects
    with, [inr] the value it resolves to. *)
Definition analyzeContent (t : string) (imageBase64 : option string) (mode : Mode)
  : string + json :=
  match analyze t imageBase64 mode with
  | inl message => inl (userMessage message)
  | inr jsonResponse => inr jsonResponse
  end.

End Service.

End GeminiService.

(* ================================================================== *)
(** ** services/pdfService: [extractTextFromPdf] *)
(* ================================================================== *)

Module PdfService.

(** A browser [File]: its name, its MIME type and its bytes (in
    base64, as [readAsDataURL] gives them). *)
Record File : Type := { name : string; type : string; data : string }.

(** A page as the service reads it: the outcome of
    [page.getTextContent()], which is the [str] of the items of the
    text content, or the message of the error the promise rejects with
    (empty when the error has none). *)
Record PDFPageProxy : Type := { getTextContent : string + list string }.

(** A loaded document as the service reads it: for each page number,
    in page order, the outcome of [pdf.getPage(i)], a page or the
    message of the error the promise rejects with. *)
Record PDFDocument : Type := { pages : list (string + PDFPageProxy) }.

Definition numPages (pdf : PDFDocument) : nat := List.length (pages pdf).

(** [pdf.getPage(i)], pages being numbered from 1; it rejects outside
    [1 .. numPages], and within this range when the page cannot be
    loaded. *)
Definition getPage (pdf : PDFDocument) (i : nat) : string + PDFPageProxy :=
  match i with
  | O => inl "Invalid page request."
  | S j => match nth_error (pages pdf) j with
           | Some outcome => outcome
           | None => inl "Invalid page request."
           end
  end.

Definition LF : string := String (ascii_of_nat 10) EmptyString.

(** The text one page adds to [fullText]. *)
Definition pageBlock (i : nat) (items : list string) : string :=
  "[Page " ++ JS.string_of_nat i ++ "] " ++ JS.join " " items ++ LF.

Definition truncationNotice (maxPages : nat) : string :=
  LF ++ "[...Truncated. Analysis limited to first "
     ++ JS.string_of_nat maxPages ++ " pages...]".

Definition noTextMessage : string :=
  "No text content found in PDF. It might be an image-only scan.".
Definition notLoadedMessage : string :=
  "PDF.js getDocument function not found. The library might not have loaded correctly.".
Definition invalidPdfMessage : string :=
  "Failed to parse PDF file. Ensure the file is a valid PDF.".

(** The [for] loop over the page [numbers], from the text
    accumulated so far. *)
Fixpoint readPages (pdf : PDFDocument) (numbers : list nat) (fullText : string)
  : string + string :=
  match numbers with
  | [] => inr fullText
  | i :: rest =>
      match getPage pdf i with
      | inl message => inl message
      | inr page =>
          match getTextContent page with
          | inl message => inl message
          | inr items => readPages pdf rest (fullText ++ pageBlock i items)
          end
      end
  end.

(** The text of a loaded document (the [try] body after loading). *)
Definition documentText (pdf : PDFDocument) : string + string :=
  (* Limit to first 10 pages *)
  let maxPages := Nat.min (numPages pdf) 10 in
  match readPages pdf (seq 1 maxPages) "" with
  | inl message => inl message
  | inr fullText =>
      let fullText :=
        if Nat.ltb maxPages (numPages pdf)
        then fullText ++ truncationNotice maxPages
        else fullText in
      if negb (JS.truthy (JS.trim fullText))
      then inl noTextMessage
      else inr fullText
  end.

Section Library.

(** The outcome of [file.arrayBuffer()]: the bytes of the file, or the
    message of the error the promise rejects with.  Whether pdf.js
    exposes [getDocument], and the outcome of loading these bytes with
    it ([inl]: the loading task rejects with an error of that
    message).  A message is empty when the error has none. *)
Variable arrayBuffer : File -> string + string.
Variable hasGetDocument : bool.
Variable getDocument : string -> string + PDFDocument.

(** [extractTextFromPdf]: [inl] is the message of the error it
    rejects with, [inr] the text it resolves to. *)
Definition extractTextFromPdf (file : File) : string + string :=
  let attempt :=
    match arrayBuffer file with
    | inl message => inl message
    | inr bytes =>
        if negb hasGetDocument then inl notLoadedMessage
        else match getDocument bytes with
             | inl message => inl message
             | inr pdf => documentText pdf
             end
    end in
  match attempt with
  | inl message =>
      inl (if JS.truthy message then message else invalidPdfMessage)
  | inr fullText => inr fullText
  end.

End Library.

End PdfService.

(* ================================================================== *)
(** ** types.ts *)
(* ================================================================== *)

Module Types.

(** A Number of the response: the decimal [(mantissa, exponent)] of
    the literal it was read from. *)
Definition number : Type := (Z * Z)%type.

Inductive InputType : Type :=
  it_text | it_image | it_video | it_audio | it_pdf | it_url | it_mixed.

Inductive ClaimType : Type := explicit | implicit.

Inductive SourceType : Type :=
  news | research | official | factcheck | video | archive | other.

Inductive Verdict : Type :=
  v_true | v_false | misleading | out_of_context | ai_generated | unknown.

Definition SourceType_name (t : SourceType) : string :=
  match t with
  | news => "news" | research => "research" | official => "official"
  | factcheck => "factcheck" | video => "video" | archive => "archive"
  | other => "other"
  end.

Definition Verdict_name (v : Verdict) : string :=
  match v with
  | v_true => "true" | v_false => "false" | misleading => "misleading"
  | out_of_context => "out_of_context" | ai_generated => "ai_generated"
  | unknown => "unknown"
  end.

Record Evidence : Type := {
  source_title : string;
  source_url : string;
  source_type : SourceType;
  quote : string;
  extracted_text : option string;
  confidence_in_source : number;
  retrieved_at : string
}.

Record Claim : Type := {
  id : string;
  claim_text : string;
  claim_type : ClaimType;
  entities : list string;
  evidence : list Evidence;
  verdict : Verdict;
  verdict_confidence : number;
  reasoning : string;
  suggested_search_queries : list string;
  provenance : list string
}.

Inductive WarningCategory : Type :=
  medical | legal | privacy | violent_content | self_harm | other_category.

Record SafetyWarning : Type := {
  category : WarningCategory;
  message : string;
  recommended_action : string
}.

Record InputSummary : Type := {
  input_type : InputType;
  raw_input_excerpt : string;
  detected_claims_count : number
}.

Record MetaData : Type := {
  search_queries : list string;
  timestamp_utc : string;
  model : string;
  notes : option string;
  vision_note : option string
}.

Record FactCheckResponse : Type := {
  input_summary : InputSummary;
  claims : list Claim;
  overall_verdict : Verdict;
  overall_confidence : number;
  explainable_summary : string;
  suggested_actions : list string;
  safety_warnings : list SafetyWarning;
  meta : MetaData
}.

Inductive Status : Type := idle | analyzing | complete | error.

Record AnalysisState : Type := {
  status : Status;
  data : option FactCheckResponse;
  error_message : option string
}.

End Types.

(* ================================================================== *)
(** ** services/reportService: [generatePdfReport] *)
(* ================================================================== *)

Module ReportService.
Import Types.

Inductive FontStyle : Type := normal | bold | italic.
Record Font : Type := { style : FontStyle; size : Z }.

Inductive Align : Type := left | center.

(** The calls on the document that draw, change page or save.  The
    setters of font and colours are not listed: the font in force is
    the explicit argument of the two measuring functions below, and
    colours are not read back.  [roundedRect] is always called with
    the radii 3, 3 and the style 'FD', [text] with the alignment
    [center] for the footers only. *)
Inductive Call : Type :=
| text (lines : list string) (x y : Z) (align : Align)
| roundedRect (x y w h : Z)
| line (x1 y1 x2 y2 : Z)
| link (x y w h : Z) (url : string)
| addPage
| setPage (i : nat)
| save (filename : string).

(** The two readings of the clock: [new Date().toLocaleString()] for
    the header and [Date.now()] for the file name. *)
Record Clock : Type := { localeString : string; now : Z }.

Definition margin : Z := 20.

Section Document.

(** Page geometry in millimetres, as the document reports it.  The
    cursor [y] only takes integer values, so its comparison with
    [pageHeight - margin] is the comparison with the integer part of
    that bound: [pageHeight] stands for the integer part of the
    height (297 for A4).  Horizontal measures are only handed on to
    the document. *)
Variable pageWidth pageHeight : Z.

(** [doc.splitTextToSize] and [doc.getTextWidth] under a given font. *)
Variable splitTextToSize : Font -> string -> Z -> list string.
Variable getTextWidth : Font -> string -> Z.

(** Renderings of Numbers: [`${Math.round(x * 100)}`] and [`${n}`]. *)
Variable percent : number -> string.
Variable show : number -> string.

(** The mark printed before each source title. *)
Variable bullet : string.

Definition contentWidth : Z := pageWidth - margin * 2.

(** A step of the layout: from the cursor [y] to a result, the new
    cursor and the calls issued meanwhile. *)
Definition M (A : Type) : Type := Z -> (A * Z) * list Call.

Definition ret {A : Type} (a : A) : M A := fun y => ((a, y), []).

Definition bind {A B : Type} (m : M A) (k : A -> M B) : M B :=
  fun y =>
    let '((a, y1), out1) := m y in
    let '((b, y2), out2) := k a y1 in
    ((b, y2), (out1 ++ out2)%list).

Notation "m ;; k" := (bind m (fun _ => k))
  (at level 61, right associativity).

(** [y += dy] *)
Definition advance (dy : Z) : M unit := fun y => ((tt, y + dy), []).

(** A call whose arguments are computed from the cursor. *)
Definition doc (c : Z -> Call) : M unit := fun y => ((tt, y), [c y]).

Definition when (b : bool) (m : M unit) : M unit :=
  if b then m else ret tt.

Fixpoint forEach {A : Type} (f : A -> M unit) (l : list A) : M unit :=
  match l with
  | [] => ret tt
  | a :: rest => f a ;; forEach f rest
  end.

(** Helper to check for new page *)
Definition checkPageBreak (heightNeeded : Z) : M bool :=
  fun y =>
    if y + heightNeeded >? pageHeight - margin
    then ((true, 20), [addPage])
    else ((false, y), []).

Definition one (s : string) : list string := [s].
Definition lines_height (ls : list string) (pitch : Z) : Z :=
  Z.of_nat (List.length ls) * pitch.

Definition header (clock : Clock) : M unit :=
  doc (fun y => text (one "Instant Fact-Check Lens") margin y left) ;;
  advance 10 ;;
  doc (fun y => text (one ("Generated on " ++ localeString clock)) margin y left) ;;
  advance 15.

Definition summaryBox (data : FactCheckResponse) : M unit :=
  doc (fun y => roundedRect margin y contentWidth 35) ;;
  doc (fun y => text (one "Overall Verdict:") (margin + 5) (y + 10) left) ;;
  doc (fun y => text (one (JS.toUpperCase (Verdict_name (overall_verdict data))))
                     (margin + 45) (y + 10) left) ;;
  doc (fun y => text (one ("AI Confidence: " ++ percent (overall_confidence data) ++ "%"))
                     (margin + 5) (y + 20) left) ;;
  doc (fun y => text (one ("Claims Analyzed: "
                           ++ show (detected_claims_count (input_summary data))))
                     (margin + 60) (y + 20) left) ;;
  advance 45.

Definition summaryText (data : FactCheckResponse) : M unit :=
  doc (fun y => text (one "Executive Summary") margin y left) ;;
  advance 8 ;;
  let summaryLines :=
    splitTextToSize {| style := normal; size := 11 |}
                    (explainable_summary data) contentWidth in
  doc (fun y => text summaryLines margin y left) ;;
  advance (lines_height summaryLines 6 + 10).

Definition quoteLine (q : string) : string :=
  "  " ++ String JSON.dquote (JS.substring q 0 100)
       ++ (if JS.len q >? 100 then "..." else "")
       ++ String JSON.dquote "".

Definition evidenceLine (ev : Evidence) : M unit :=
  checkPageBreak 15 ;;
  let linkText :=
    bullet ++ " " ++ source_title ev
           ++ " (" ++ SourceType_name (source_type ev) ++ ")" in
  doc (fun y => text (one linkText) (margin + 8) y left) ;;
  let linkWidth := getTextWidth {| style := normal; size := 9 |} linkText in
  doc (fun y => link (margin + 8) (y - 4) linkWidth 5 (source_url ev)) ;;
  advance 5 ;;
  when (JS.truthy (quote ev))
       (doc (fun y => text (one (quoteLine (quote ev))) (margin + 8) y left) ;;
        advance 5).

Definition evidenceBlock (evs : list Evidence) : M unit :=
  checkPageBreak 30 ;;
  doc (fun y => text (one "Evidence / Proofs:") (margin + 5) y left) ;;
  advance 6 ;;
  forEach evidenceLine evs ;;
  advance 5.

(** The body of [data.claims.forEach((claim, idx) => ...)]. *)
Definition claimBlock (entry : nat * Claim) : M unit :=
  let '(idx, claim) := entry in
  checkPageBreak 50 ;;
  doc (fun y => line margin y (pageWidth - margin) y) ;;
  advance 5 ;;
  let claimTitle :=
    "Claim " ++ JS.string_of_nat (idx + 1) ++ ": "
             ++ JS.toUpperCase (Verdict_name (verdict claim)) in
  doc (fun y => text (one claimTitle) margin y left) ;;
  advance 7 ;;
  let claimTextLines :=
    splitTextToSize {| style := italic; size := 11 |}
      (String JSON.dquote (claim_text claim ++ String JSON.dquote ""))
      (contentWidth - 5) in
  doc (fun y => text claimTextLines (margin + 5) y left) ;;
  advance (lines_height claimTextLines 6 + 5) ;;
  checkPageBreak 20 ;;
  doc (fun y => text (one "Analysis:") (margin + 5) y left) ;;
  advance 5 ;;
  let reasoningLines :=
    splitTextToSize {| style := normal; size := 10 |}
                    (reasoning claim) (contentWidth - 10) in
  doc (fun y => text reasoningLines (margin + 5) y left) ;;
  advance (lines_height reasoningLines 5 + 8) ;;
  when (negb (Nat.eqb (List.length (evidence claim)) 0))
       (evidenceBlock (evidence claim)) ;;
  advance 5.

Definition detailedAnalysis (data : FactCheckResponse) : M unit :=
  checkPageBreak 20 ;;
  doc (fun y => text (one "Detailed Claims Analysis") margin y left) ;;
  advance 10 ;;
  forEach claimBlock
          (combine (seq 0 (List.length (claims data))) (claims data)).

(** Everything the report lays out with the cursor. *)
Definition body (clock : Clock) (data : FactCheckResponse) : M unit :=
  header clock ;; summaryBox data ;; summaryText data ;;
  detailedAnalysis data.

(** The calls of the body, the cursor starting at 20. *)
Definition bodyCalls (clock : Clock) (data : FactCheckResponse) : list Call :=
  snd (body clock data 20).

(** [doc.getNumberOfPages()] after the given calls: the document
    starts with one page. *)
Definition numberOfPages (calls : list Call) : nat :=
  S (List.length (filter (fun c => match c with addPage => true | _ => false end)
                         calls)).

Definition footer (totalPages i : nat) : list Call :=
  [ setPage i;
    text (one ("Page " ++ JS.string_of_nat i ++ " of "
               ++ JS.string_of_nat totalPages
               ++ " - Generated by Instant Fact-Check Lens"))
         (pageWidth / 2) (pageHeight - 10) center ].

(** [generatePdfReport]: the calls it issues on a fresh document. *)
Definition generatePdfReport (clock : Clock) (data : FactCheckResponse)
  : list Call :=
  let laid := bodyCalls clock data in
  let totalPages := numberOfPages laid in
  (laid
     ++ flat_map (footer totalPages) (seq 1 totalPages)
     ++ [ save ("FactCheck-Report-" ++ JS.string_of_Z (now clock) ++ ".pdf") ])%list.

End Document.

End ReportService.

(* ================================================================== *)
(** ** App: session state, [handleSubmit], [addToHistory] *)
(* ================================================================== *)

Module App.
Import PdfService.

Record HistoryItem : Type := {
  id : string;
  query : string;
  date : Z;
  verdict : Types.Verdict;
  confidence : Types.number
}.

(** The state of the component that the handlers read and write, and
    the item ['factCheckHistory'] of the local storage ([None]: not
    set). *)
Record App : Type := {
  inputText : string;
  selectedImage : option File;
  selectedPdf : option File;
  state : Types.AnalysisState;
  analysisMode : GeminiService.Mode;
  history : list HistoryItem;
  storage : option (list HistoryItem)
}.

Definition setState (s : Types.AnalysisState) (app : App) : App :=
  {| inputText := inputText app; selectedImage := selectedImage app;
     selectedPdf := selectedPdf app; state := s;
     analysisMode := analysisMode app; history := history app;
     storage := storage app |}.

Definition setHistory (h : list HistoryItem) (app : App) : App :=
  {| inputText := inputText app; selectedImage := selectedImage app;
     selectedPdf := selectedPdf app; state := state app;
     analysisMode := analysisMode app; history := h;
     storage := storage app |}.

Definition setStorage (h : list HistoryItem) (app : App) : App :=
  {| inputText := inputText app; selectedImage := selectedImage app;
     selectedPdf := selectedPdf app; state := state app;
     analysisMode := analysisMode app; history := history app;
     storage := Some h |}.

Definition setInputText (t : string) (app : App) : App :=
  {| inputText := t; selectedImage := selectedImage app;
     selectedPdf := selectedPdf app; state := state app;
     analysisMode := analysisMode app; history := history app;
     storage := storage app |}.

Definition setAnalysisMode (m : GeminiService.Mode) (app : App) : App :=
  {| inputText := inputText app; selectedImage := selectedImage app;
     selectedPdf := selectedPdf app; state := state app;
     analysisMode := m; history := history app;
     storage := storage app |}.

Definition setMedia (image pdf : option File) (app : App) : App :=
  {| inputText := inputText app; selectedImage := image;
     selectedPdf := pdf; state := state app;
     analysisMode := analysisMode app; history := history app;
     storage := storage app |}.

(** [{ status: 'idle', data: null }] *)
Definition idleState : Types.AnalysisState :=
  {| Types.status := Types.idle; Types.data := None;
     Types.error_message := None |}.

Definition analyzingState : Types.AnalysisState :=
  {| Types.status := Types.analyzing; Types.data := None;
     Types.error_message := None |}.

Definition completeState (result : Types.FactCheckResponse) : Types.AnalysisState :=
  {| Types.status := Types.complete; Types.data := Some result;
     Types.error_message := None |}.

Definition errorState (message : string) : Types.AnalysisState :=
  {| Types.status := Types.error; Types.data := None;
     Types.error_message := Some message |}.

(** The component as it mounts. *)
Definition initial (stored : option (list HistoryItem)) : App :=
  {| inputText := ""; selectedImage := None; selectedPdf := None;
     state := idleState; analysisMode := GeminiService.standard;
     history := []; storage := stored |}.

(** The label kept for a query. *)
Definition queryLabel (q : string) : string :=
  if JS.len q >? 60 then JS.substring q 0 60 ++ "..." else q.

(** [addToHistory(query, result)], called from a render whose
    [history] was [captured]; [clock_id] and [clock_date] are its two
    readings of [Date.now()]. *)
Definition newItem (clock_id clock_date : Z) (q : string)
           (result : Types.FactCheckResponse) : HistoryItem :=
  {| id := JS.string_of_Z clock_id;
     query := queryLabel q;
     date := clock_date;
     verdict := Types.overall_verdict result;
     confidence := Types.overall_confidence result |}.

Definition addToHistory (captured : list HistoryItem) (clock_id clock_date : Z)
           (q : string) (result : Types.FactCheckResponse) (app : App) : App :=
  let newHistory := firstn 10 (newItem clock_id clock_date q result :: captured) in
  setStorage newHistory (setHistory newHistory app).

Definition handleImageSelect (file : File) (app : App) : App :=
  setMedia (Some file) None app.

Definition handlePdfSelect (file : File) (app : App) : App :=
  if negb (String.eqb (type file) "application/pdf") then app
  else setMedia None (Some file) app.

Definition removeMedia (app : App) : App := setMedia None None app.

Definition clearAll (app : App) : App :=
  setState idleState (removeMedia (setInputText "" app)).

(** [s.split(c)] *)
Fixpoint split (c : ascii) (s : string) : list string :=
  match s with
  | EmptyString => [EmptyString]
  | String a r =>
      if Ascii.eqb a c then EmptyString :: split c r
      else match split c r with
           | first :: rest => String a first :: rest
           | [] => [String a EmptyString]
           end
  end.

(** The data URL that [readAsDataURL] produces for a file. *)
Definition dataURL (file : File) : string :=
  "data:" ++ type file ++ ";base64," ++ data file.

Section Services.

(** The collaborators awaited by [handleSubmit]: the PDF service, the
    analysis service (seen through its TypeScript type), and whether
    the reader fails on a file.  [inl] carries the message of the
    rejection, empty when the rejection has none. *)
Variable extractTextFromPdf : File -> string + string.
Variable analyzeContent :
  string -> option string -> GeminiService.Mode
  -> string + Types.FactCheckResponse.
Variable readerFails : File -> bool.

(** [fileToBase64]: what follows the first comma of the data URL. *)
Definition fileToBase64 (file : File) : string + option string :=
  if readerFails file then inl ""
  else inr (nth_error (split "," (dataURL file)) 1).

(** The arguments [handleSubmit] passes to [analyzeContent], or the
    message of the error thrown before the call. *)
Definition analysisArguments (app : App)
  : string + (string * option string * GeminiService.Mode) :=
  let finalInputText := inputText app in
  let afterPdf :=
    match selectedPdf app with
    | Some pdf =>
        match extractTextFromPdf pdf with
        | inl message => inl ("Failed to read PDF file: " ++ message)
        | inr pdfText =>
            inr ((if JS.truthy finalInputText
                  then finalInputText ++ LF ++ LF else "")
                 ++ "PDF CONTENT:" ++ LF ++ pdfText)
        end
    | None => inr finalInputText
    end in
  match afterPdf with
  | inl message => inl message
  | inr finalInputText =>
      match selectedImage app with
      | Some image =>
          match fileToBase64 image with
          | inl message => inl message
          | inr base64Image =>
              inr (finalInputText, base64Image, analysisMode app)
          end
      | None => inr (finalInputText, None, analysisMode app)
      end
  end.

(** The outcome of the [try] body of [handleSubmit] up to the result
    of the analysis. *)
Definition analysisOutcome (app : App) : string + Types.FactCheckResponse :=
  match analysisArguments app with
  | inl message => inl message
  | inr (finalInputText, base64Image, mode) =>
      analyzeContent finalInputText base64Image mode
  end.

(** The guard of [handleSubmit]. *)
Definition nothingToSubmit (app : App) : bool :=
  (negb (JS.truthy (JS.trim (inputText app)))
   && match selectedImage app with None => true | Some _ => false end
   && match selectedPdf app with None => true | Some _ => false end)%bool.

(** [handleSubmit] up to its first [await]: [None] when it returns at
    the guard. *)
Definition handleSubmit_begin (app : App) : option App :=
  if nothingToSubmit app then None
  else Some (setState analyzingState app).

Definition historyLabel (app : App) : string :=
  match selectedPdf app with
  | Some pdf => name pdf
  | None =>
      if JS.truthy (inputText app) then inputText app
      else match selectedImage app with
           | Some _ => "Image Analysis"
           | None => "Unknown"
           end
  end.

(** [handleSubmit] after its awaits.  [captured] is the component as
    the call saw it (the values its closure reads), [app] the
    component when the awaited promises settle. *)
Definition handleSubmit_end (captured : App) (clock_id clock_date : Z)
           (app : App) : App :=
  match analysisOutcome captured with
  | inr result =>
      setState (completeState result)
        (addToHistory (history captured) clock_id clock_date
                      (historyLabel captured) result app)
  | inl message =>
      setState (errorState (if JS.truthy message then message
                            else "An unexpected error occurred. Please try again."))
               app
  end.

(** The handlers that run to their end at once. *)
Inductive handler : App -> App -> Prop :=
| on_input t app : handler app (setInputText t app)
| on_mode m app : handler app (setAnalysisMode m app)
| on_image file app : handler app (handleImageSelect file app)
| on_pdf file app : handler app (handlePdfSelect file app)
| on_removeMedia app : handler app (removeMedia app)
| on_clearAll app : handler app (clearAll app)
| on_logo app : handler app (setState idleState app)
| on_dismissError app : handler app (setState idleState app)
| on_newSearch app : handler app (setState idleState app)
| on_loadHistory h app : storage app = Some h -> handler app (setHistory h app)
| on_clearHistory app : handler app (setHistory [] app).

(** The session: the component, and the calls of [handleSubmit] that
    are at their awaits, each with the component as the call saw it. *)
Record Session : Type := { current : App; awaiting : list App }.

(** One event of the session: a handler runs, a submission starts, or
    the promises awaited by a submission settle. *)
Inductive step : Session -> Session -> Prop :=
| step_handler app app' calls :
    handler app app' ->
    step {| current := app; awaiting := calls |}
         {| current := app'; awaiting := calls |}
| step_submit app app' calls :
    handleSubmit_begin app = Some app' ->
    step {| current := app; awaiting := calls |}
         {| current := app'; awaiting := app :: calls |}
| step_settle captured clock_id clock_date app before after :
    step {| current := app; awaiting := before ++ captured :: after |}
         {| current := handleSubmit_end captured clock_id clock_date app;
            awaiting := before ++ after |}.

(** The states the session can be in. *)
Inductive reachable : Session -> Prop :=
| reachable_initial stored :
    reachable {| current := initial stored; awaiting := [] |}
| reachable_step s s' : reachable s -> step s s' -> reachable s'.

End Services.

End App.

(* ================================================================== *)
(** ** Vocabulary of the statements and sample inputs *)
(* ================================================================== *)

Module Text.

(** The character [c] occurs in [s]. *)
Fixpoint occurs (c : ascii) (s : string) : bool :=
  match s with
  | EmptyString => false
  | String a r => (Ascii.eqb a c || occurs c r)%bool
  end.

(** Number of occurrences of [c] in [s]. *)
Fixpoint count (c : ascii) (s : string) : nat :=
  match s with
  | EmptyString => O
  | String a r => ((if Ascii.eqb a c then 1 else 0) + count c r)%nat
  end.

(** As many opening as closing braces. *)
Definition balanced (s : string) : bool :=
  Nat.eqb (count "{" s) (count "}" s).

(** [n] copies of [c]. *)
Fixpoint repeat (c : ascii) (n : nat) : string :=
  match n with
  | O => EmptyString
  | S k => String c (repeat c k)
  end.

Definition newline : string := String (ascii_of_nat 10) EmptyString.

(** What one page is to contribute: its marker with the page number in
    decimal, its items separated by single spaces, a line feed. *)
Definition block (i : nat) (items : list string) : string :=
  "[Page " ++ NilEmpty.string_of_uint (Nat.to_uint i) ++ "] "
           ++ String.concat " " items ++ newline.

(** The blocks of pages with the items [ps], numbered upwards from
    [i]. *)
Fixpoint pagesText (i : nat) (ps : list (list string)) : string :=
  match ps with
  | [] => ""
  | items :: rest => block i items ++ pagesText (S i) rest
  end.

Definition truncated : string :=
  newline ++ "[...Truncated. Analysis limited to first 10 pages...]".

(** Page [i] of the document can be read, and its text content has the
    items [items]. *)
Definition reads (pdf : PdfService.PDFDocument) (i : nat) (items : list string)
  : Prop :=
  exists page,
    PdfService.getPage pdf i = inr page
    /\ PdfService.getTextContent page = inr items.

(** Reading page [i] fails with [message], at [getPage] or at
    [getTextContent]. *)
Definition fails (pdf : PdfService.PDFDocument) (i : nat) (message : string)
  : Prop :=
  PdfService.getPage pdf i = inl message
  \/ exists page,
       PdfService.getPage pdf i = inr page
       /\ PdfService.getTextContent page = inl message.

End Text.

Module Fuel.
Import JSON.

(** A run of a parser with fuel [m] that finds a value consumes input
    and is repeated by every run with fuel above twice the length of the
    input. *)
Definition value_ok (m : nat) : Prop :=
  forall s v r,
    parse_value m s = Some (v, r) ->
    (String.length r < String.length s)%nat
    /\ forall n, (2 * String.length s + 1 <= n)%nat -> parse_value n s = Some (v, r).

Definition elements_ok (m : nat) : Prop :=
  forall s vs r,
    parse_elements m s = Some (vs, r) ->
    (String.length r < String.length s)%nat
    /\ forall n, (2 * String.length s + 2 <= n)%nat -> parse_elements n s = Some (vs, r).

Definition members_ok (m : nat) : Prop :=
  forall s ms r,
    parse_members m s = Some (ms, r) ->
    (String.length r < String.length s)%nat
    /\ forall n, (2 * String.length s + 1 <= n)%nat -> parse_members n s = Some (ms, r).

End Fuel.

Module Schema.
Import JSON.

(** The two fields that the basic validation of [analyzeContent] reads
    are present and truthy. *)
Definition requiredFieldsPresent (v : json) : bool :=
  match getProp v "claims", getProp v "overall_verdict" with
  | Some claims, Some verdict => (truthy_opt claims && truthy_opt verdict)%bool
  | _, _ => false
  end.

(** The rule of the response schema (hard rule 2 of the system
    instruction): a claim has a verdict of ["unknown"] or an evidence
    list that is not empty. *)
Definition claim_has_evidence (claim : json) : bool :=
  match getProp claim "verdict" with
  | Some (Some (JString "unknown")) => true
  | _ => match getProp claim "evidence" with
         | Some (Some (JArray (_ :: _))) => true
         | _ => false
         end
  end.

(** Every claim of the result keeps the rule. *)
Definition evidence_invariant (result : json) : bool :=
  match getProp result "claims" with
  | Some (Some (JArray claims)) => forallb claim_has_evidence claims
  | _ => true
  end.

(** The shape of the states of the session: a result is held exactly
    in the [complete] state. *)
Definition dataOnlyWhenComplete (s : Types.AnalysisState) : Prop :=
  Types.data s <> None <-> Types.status s = Types.complete.

End Schema.

Module Samples.
Import JSON GeminiService.

(** A minimal answer of the model. *)
Definition answerText : string :=
  JSON.text "{'claims':[],'overall_verdict':'unknown'}".

Definition answer : json :=
  JObject [("claims", JArray []); ("overall_verdict", JString "unknown")].

(** The answer inside a markdown fence, after a word of prose. *)
Definition fencedAnswer : string :=
  "Sure! ```json" ++ PdfService.LF ++ answerText ++ PdfService.LF ++ "```".

(** Prose with braces of its own before the answer. *)
Definition bracedProse : string := "Result {as requested}: ".

(** An answer whose only claim is judged false on no evidence. *)
Definition unsupportedText : string :=
  JSON.text
    "{'claims':[{'id':'c1','verdict':'false','evidence':[]}],'overall_verdict':'false'}".

Definition unsupported : json :=
  JObject
    [("claims",
      JArray [JObject [("id", JString "c1"); ("verdict", JString "false");
                       ("evidence", JArray [])]]);
     ("overall_verdict", JString "false")].

(** A PNG picked in the file dialog, which accepts every image type. *)
Definition pngFile : PdfService.File :=
  {| PdfService.name := "chart.png"; PdfService.type := "image/png";
     PdfService.data := "iVBORw0KGgo=" |}.

Definition pngSubmission : App.App :=
  App.handleImageSelect pngFile (App.initial None).

(** A page that loads and has the given items. *)
Definition page (items : list string) : string + PdfService.PDFPageProxy :=
  inr {| PdfService.getTextContent := inr items |}.

(** The bytes of a file that can be read. *)
Definition bytes (file : PdfService.File) : string + string :=
  inr (PdfService.data file).

(** A scanned page: one page without any text item. *)
Definition scan : PdfService.PDFDocument :=
  {| PdfService.pages := [page []] |}.

Definition scanFile : PdfService.File :=
  {| PdfService.name := "scan.pdf"; PdfService.type := "application/pdf";
     PdfService.data := "JVBERi0=" |}.

(** Twelve pages of one to three items, some of them empty or of
    several words; the eleventh page cannot be loaded. *)
Definition twelvePages : PdfService.PDFDocument :=
  {| PdfService.pages :=
       [ page ["Annual"; "report"; "2024"]; page ["two"]; page [];
         page ["4.1"; ""; "Results"]; page ["five"; "V"]; page ["six"];
         page ["seven"; "of twelve"]; page ["eight"]; page ["nine"; "IX"];
         page ["ten"; "X"; "10"]; inl "Page 11 is damaged.";
         page ["twelve"] ] |}.

(** Three pages, the second of which has several items. *)
Definition threePages : PdfService.PDFDocument :=
  {| PdfService.pages :=
       [ page ["Title"]; page ["Dear"; "reader,"; "welcome."];
         page ["The"; "end"] ] |}.

(** Three pages whose second page loads but has no readable text
    content. *)
Definition brokenSecondPage : PdfService.PDFDocument :=
  {| PdfService.pages :=
       [ page ["Title"];
         inr {| PdfService.getTextContent := inl "Bad XRef entry." |};
         page ["The"; "end"] ] |}.

End Samples.

Module Layout.
Import ReportService.

(** The height at which a call starts drawing; [None] for the calls
    that draw nothing. *)
Definition top (c : Call) : option Z :=
  match c with
  | text _ _ y _ => Some y
  | roundedRect _ y _ _ => Some y
  | line _ y1 _ _ => Some y1
  | link _ y _ _ _ => Some y
  | addPage | setPage _ | save _ => None
  end.

(** A call that draws starts at or above [pageHeight - margin]. *)
Definition within (pageHeight : Z) (c : Call) : Prop :=
  match top c with
  | Some y => y <= pageHeight - margin
  | None => True
  end.

(** Every new page is opened right before a call that draws at the
    top margin: the block that did not fit is the first content of the
    page. *)
Fixpoint breaksLeadBlocks (calls : list Call) : Prop :=
  match calls with
  | [] => True
  | addPage :: rest =>
      match rest with
      | c :: _ => top c = Some 20
      | [] => False
      end /\ breaksLeadBlocks rest
  | _ :: rest => breaksLeadBlocks rest
  end.

Definition isBreak (c : Call) : bool :=
  match c with addPage => true | _ => false end.

(** A call without its printed text and file name: what is left is
    where it draws, on how many lines, and the page changes. *)
Definition layoutOf (c : Call) : Call :=
  match c with
  | text ls x y a => text (map (fun _ => "") ls) x y a
  | save _ => save ""
  | _ => c
  end.

(** The calls of a stretch of the layout all start within the page
    and its page breaks lead their blocks. *)
Definition laidOut (pageHeight : Z) (out : list Call) : Prop :=
  Forall (within pageHeight) out /\ breaksLeadBlocks out.

(** From a cursor that satisfies [P], the step [m] issues calls that
    are laid out and leaves a cursor that satisfies [Q]. *)
Definition triple {A : Type} (pageHeight : Z)
           (P : Z -> Prop) (m : M A) (Q : Z -> Prop) : Prop :=
  forall y, P y -> laidOut pageHeight (snd (m y)) /\ Q (snd (fst (m y))).

End Layout.

Module ReportSamples.
Import Types ReportService.

(** A stand-in for [doc.splitTextToSize] that breaks the text at line
    feeds only, as the document does for lines that fit the width. *)
Fixpoint splitAtBreaks (line text : string) : list string :=
  match text with
  | EmptyString => [line]
  | String c rest =>
      if Ascii.eqb c (ascii_of_nat 10) then line :: splitAtBreaks "" rest
      else splitAtBreaks (line ++ String c "") rest
  end.

Definition split (_ : Font) (t : string) (_ : Z) : list string :=
  splitAtBreaks "" t.

Definition width (_ : Font) (t : string) : Z := 2 * JS.len t.

(** Integer Numbers print as their mantissa. *)
Definition show (n : number) : string := JS.string_of_Z (fst n).

(** [n] lines of one letter each. *)
Fixpoint letters (n : nat) : string :=
  match n with
  | O => "a"
  | S k => "a" ++ PdfService.LF ++ letters k
  end.

Definition source : Evidence :=
  {| source_title := "Agency report"; source_url := "https://example.org/r";
     source_type := official; quote := "No such effect was found.";
     extracted_text := None; confidence_in_source := (9, -1);
     retrieved_at := "2025-01-01T00:00:00Z" |}.

Definition claim (lines : nat) : Claim :=
  {| id := "c1"; claim_text := "The claim."; claim_type := explicit;
     entities := []; evidence := [source; source]; verdict := v_false;
     verdict_confidence := (9, -1); reasoning := letters lines;
     suggested_search_queries := []; provenance := [] |}.

Definition result (summary : string) (cs : list Claim) : FactCheckResponse :=
  {| input_summary := {| input_type := it_text; raw_input_excerpt := "";
                         detected_claims_count := (Z.of_nat (List.length cs), 0) |};
     claims := cs; overall_verdict := v_false; overall_confidence := (9, -1);
     explainable_summary := summary; suggested_actions := [];
     safety_warnings := [];
     meta := {| search_queries := []; timestamp_utc := "";
                model := "gemini-2.5-flash"; notes := None;
                vision_note := None |} |}.

(** Four claims of two lines of reasoning: the report takes two pages. *)
Definition fourClaims : FactCheckResponse :=
  result "Short summary." [claim 1; claim 1; claim 1; claim 1].

(** A summary of forty lines and no claim. *)
Definition longSummary : FactCheckResponse := result (letters 39) [].

Definition morning : Clock := {| localeString := "1/2/2026, 9:00:00 AM"; now := 1767344400000 |}.

(** The report on an A4 page. *)
Definition a4Body (data : FactCheckResponse) : list Call :=
  bodyCalls 210 297 split width (fun _ => "90") show "*" morning data.

End ReportSamples.

Module SessionSamples.
Import App.

(** Collaborators that succeed: the analysis answers with a result of
    four claims. *)
Definition pdfText (_ : PdfService.File) : string + string :=
  inr ("[Page 1] text" ++ PdfService.LF).
Definition analysis (_ : string) (_ : option string) (_ : GeminiService.Mode)
  : string + Types.FactCheckResponse :=
  inr ReportSamples.fourClaims.
Definition readerWorks (_ : PdfService.File) : bool := false.

(** A query of 61 characters, typed into a fresh session. *)
Definition longQuery : string := Text.repeat "q" 61.
Definition typed : App := setInputText longQuery (initial None).

(** The session after that query was submitted and answered. *)
Definition answered : App :=
  handleSubmit_end pdfText analysis readerWorks typed 1767344400000 1767344400001
                   (setState analyzingState typed).

(** An entry of an earlier day, and stored histories of ten and of
    eleven entries, the newest first. *)
Definition earlier (n : nat) : HistoryItem :=
  {| id := JS.string_of_nat n; query := "query " ++ JS.string_of_nat n;
     date := Z.of_nat n; verdict := Types.v_true; confidence := (9, -1) |}.

Definition tenEntries : list HistoryItem := map earlier (rev (seq 1 10)).
Definition elevenEntries : list HistoryItem := map earlier (rev (seq 1 11)).

(** A component that mounted on a stored history and loaded it. *)
Definition loaded (stored : list HistoryItem) : App :=
  setHistory stored (initial (Some stored)).

(** A short query typed on a full history, and the component when the
    answer arrives. *)
Definition asked : App := setInputText "Is the moon landing fake?" (loaded tenEntries).
Definition askedAnswered : App :=
  handleSubmit_end pdfText analysis readerWorks asked 1767344400000 1767344400001
                   (setState analyzingState asked).

(** Two submissions that overlap: [first] is submitted, the logo is
    clicked while it is analyzed, [second] is typed and submitted, then
    both are answered, in the order they were sent. *)
Definition first : App := setInputText "first" (initial None).
Definition second : App :=
  setInputText "second" (setState idleState (setState analyzingState first)).
Definition bothAnswered : App :=
  handleSubmit_end pdfText analysis readerWorks second 3 4
    (handleSubmit_end pdfText analysis readerWorks first 1 2
       (setState analyzingState second)).

End SessionSamples.

(* ================================================================== *)
(** ** Further handlers of App and the result components *)
(* ================================================================== *)

Module AppEvents.
Import PdfService App.

Definition LOADING_STEPS : list string :=
  [ "Scanning content structure...";
    "Extracting factual claims...";
    "Cross-referencing reputable sources...";
    "Analyzing visual evidence...";
    "Synthesizing final verdict..." ].

(** The update of the loading step at each tick of the interval. *)
Definition nextLoadingStep (prev : nat) : nat :=
  if Nat.ltb prev (List.length LOADING_STEPS - 1) then (prev + 1)%nat else prev.

(** The loading step after [n] ticks; it is set to 0 when the analysis
    starts. *)
Fixpoint loadingStepAfter (n : nat) : nat :=
  match n with
  | O => O
  | S k => nextLoadingStep (loadingStepAfter k)
  end.

(** How the list of steps shows the step [idx]. *)
Inductive StepLook : Type := isActive | isCompleted | isPending.

Definition stepLook (loadingStepIndex idx : nat) : StepLook :=
  if Nat.eqb idx loadingStepIndex then isActive
  else if Nat.ltb idx loadingStepIndex then isCompleted
  else isPending.

Definition stepLooks (loadingStepIndex : nat) : list StepLook :=
  map (stepLook loadingStepIndex) (seq 0 (List.length LOADING_STEPS)).

(** The [onresult] handler of the speech recognition. *)
Definition onresult (transcript : string) (app : App) : App :=
  setInputText (inputText app
                ++ (if JS.truthy (inputText app) then " " else "")
                ++ transcript) app.

(** The input after the transcripts [ts] were dictated in turn. *)
Fixpoint dictate (ts : list string) (app : App) : App :=
  match ts with
  | [] => app
  | transcript :: rest => dictate rest (onresult transcript app)
  end.

(** [handleDrop]: [files] are the files of the data transfer,
    [droppedText] its plain text. *)
Definition handleDrop (files : list File) (droppedText : string) (app : App) : App :=
  let text_only :=
    if JS.truthy droppedText then setInputText droppedText app else app in
  match files with
  | file :: _ =>
      if String.prefix "image/" (type file) then handleImageSelect file app
      else if String.eqb (type file) "application/pdf" then handlePdfSelect file app
      else text_only
  | [] => text_only
  end.

(** Successive analyses that succeed, each submitted once the one before
    has settled: every call of [addToHistory] reads the history the call
    before left.  An entry is the two clock readings, the query and the
    result. *)
Fixpoint recordAll (entries : list (Z * Z * string * Types.FactCheckResponse))
         (app : App) : App :=
  match entries with
  | [] => app
  | (clock_id, clock_date, q, result) :: rest =>
      recordAll rest (addToHistory (history app) clock_id clock_date q result app)
  end.

Definition itemOf (entry : Z * Z * string * Types.FactCheckResponse) : HistoryItem :=
  let '(clock_id, clock_date, q, result) := entry in
  newItem clock_id clock_date q result.

(** Every character of the text is white space. *)
Fixpoint blank (s : string) : bool :=
  match s with
  | EmptyString => true
  | String c r => (JS.isWhiteSpace c && blank r)%bool
  end.

(** At most one file is attached, and an attached PDF is declared as
    one by its type. *)
Definition oneAttachment (app : App) : Prop :=
  (selectedImage app = None \/ selectedPdf app = None)
  /\ (forall pdf, selectedPdf app = Some pdf -> type pdf = "application/pdf").

(** The history shown has at most ten entries, or it is the stored
    list as it was loaded. *)
Definition historyKept (app : App) : Prop :=
  (List.length (history app) <= 10)%nat
  \/ storage app = Some (history app).

End AppEvents.

Module Components.

(** constants.ts *)
Definition VERDICT_COLORS : list (string * string) :=
  [ ("true", "bg-green-100 text-green-800 border-green-200");
    ("false", "bg-red-100 text-red-800 border-red-200");
    ("misleading", "bg-amber-100 text-amber-800 border-amber-200");
    ("out_of_context", "bg-purple-100 text-purple-800 border-purple-200");
    ("ai_generated", "bg-pink-100 text-pink-800 border-pink-200");
    ("unknown", "bg-gray-100 text-gray-800 border-gray-200") ].

Definition VERDICT_LABELS : list (string * string) :=
  [ ("true", "Verified True");
    ("false", "False");
    ("misleading", "Misleading");
    ("out_of_context", "Out of Context");
    ("ai_generated", "AI Generated");
    ("unknown", "Unverified") ].

Inductive Icon : Type := ShieldCheck | ShieldAlert | AlertTriangle | HelpCircle | Bot.

(** The value of [table[key]]: a string of the table, a member that the
    table inherits from its prototype (a function or an object, which is
    truthy), or [undefined]. *)
Inductive Member : Type :=
| own (value : string)
| inheritedMember (key : string)
| undefined.

Fixpoint ownMember (table : list (string * string)) (key : string) : option string :=
  match table with
  | [] => None
  | (k, v) :: rest => if String.eqb k key then Some v else ownMember rest key
  end.

Section VerdictBadge.

(** The names that every object inherits ([constructor], [toString],
    ...). *)
Variable inherited : string -> bool.

Definition member (table : list (string * string)) (key : string) : Member :=
  match ownMember table key with
  | Some v => own v
  | None => if inherited key then inheritedMember key else undefined
  end.

(** [a || b] *)
Definition orElse (a b : Member) : Member :=
  match a with
  | own v => if JS.truthy v then a else b
  | inheritedMember _ => a
  | undefined => b
  end.

(** The colours, the label and the icon of [VerdictBadge] for the
    verdict it is given, a string at run time. *)
Definition colorClass (verdict : string) : Member :=
  orElse (member VERDICT_COLORS verdict) (member VERDICT_COLORS "unknown").

Definition label (verdict : string) : Member :=
  orElse (member VERDICT_LABELS verdict) (own "Unknown").

Definition icon (verdict : string) : Icon :=
  if String.eqb verdict "true" then ShieldCheck
  else if String.eqb verdict "false" then ShieldAlert
  else if String.eqb verdict "misleading" then AlertTriangle
  else if String.eqb verdict "out_of_context" then AlertTriangle
  else if String.eqb verdict "ai_generated" then Bot
  else HelpCircle.

End VerdictBadge.

(** ResultsDisplay: [action.replace(/_/g, ' ')] *)
Fixpoint spaced (action : string) : string :=
  match action with
  | EmptyString => EmptyString
  | String c r => String (if Ascii.eqb c "_" then " "%char else c) (spaced r)
  end.

End Components.

Module Trace.
Import ReportService.

(** What a call contributes to a reading of the calls: the target of a
    link, the page a [setPage] goes to, and the call without its
    vertical position (a page break contributes nothing to the last). *)
Definition linkTarget (c : Call) : list string :=
  match c with link _ _ _ _ url => [url] | _ => [] end.

Definition pageTarget (c : Call) : list nat :=
  match c with setPage i => [i] | _ => [] end.

Definition unplaced (c : Call) : list Call :=
  match c with
  | text ls x _ a => [text ls x 0 a]
  | roundedRect x _ w h => [roundedRect x 0 w h]
  | line x1 _ x2 _ => [line x1 0 x2 0]
  | link x _ w h url => [link x 0 w h url]
  | addPage => []
  | setPage i => [setPage i]
  | save name => [save name]
  end.

(** From any cursor, the step [m] issues calls whose reading by [f] is
    [l]. *)
Definition yields {A X : Type} (f : Call -> list X) (m : M A) (l : list X) : Prop :=
  forall y, flat_map f (snd (m y)) = l.

(** From any two cursors, the steps [m1] and [m2] issue calls with the
    same reading by [f]. *)
Definition alike {A B X : Type} (f : Call -> list X) (m1 : M A) (m2 : M B) : Prop :=
  forall y1 y2, flat_map f (snd (m1 y1)) = flat_map f (snd (m2 y2)).

(** A call that draws does so at or below the top margin; the rectangle
    of a link starts 4 above the line of its text. *)
Definition belowTop (c : Call) : Prop :=
  match c with
  | text _ _ y _ => 20 <= y
  | roundedRect _ y _ _ => 20 <= y
  | line _ y1 _ y2 => 20 <= y1 /\ 20 <= y2
  | link _ y _ _ _ => 16 <= y
  | addPage | setPage _ | save _ => True
  end.

(** From a cursor at or below the top margin, the step [m] issues calls
    that satisfy [G] and leaves the cursor at or below the top margin. *)
Definition keeps {A : Type} (G : Call -> Prop) (m : M A) : Prop :=
  forall y, 20 <= y -> Forall G (snd (m y)) /\ 20 <= snd (fst (m y)).

End Trace.

Module Pagination.
Import Types ReportService Layout.

(** A block of the report as the paginator of the specification sees
    it: the reserve that the check before it asks for, its calls from
    the cursor it starts at, and the advance of the cursor from its
    start to the next check. *)
Record Block : Type := {
  reserve : Z;
  draw : Z -> list Call;
  height : Z
}.

(** The paginator in the words of the specification, with the reserve
    in the place of the height of the block: a running cursor [y];
    before a block is written, if [y + reserve] exceeds
    [pageHeight - margin], a new page is started and [y] is reset to
    the top margin; the block is then written from [y]. *)
Fixpoint paginate (pageHeight : Z) (blocks : list Block) (y : Z) : list Call :=
  match blocks with
  | [] => []
  | b :: rest =>
      if y + reserve b >? pageHeight - margin
      then (addPage :: draw b 20 ++ paginate pageHeight rest (20 + height b))%list
      else (draw b y ++ paginate pageHeight rest (y + height b))%list
  end.

(** The cursor that the paginator leaves. *)
Fixpoint cursorAfter (pageHeight : Z) (blocks : list Block) (y : Z) : Z :=
  match blocks with
  | [] => y
  | b :: rest =>
      if y + reserve b >? pageHeight - margin
      then cursorAfter pageHeight rest (20 + height b)
      else cursorAfter pageHeight rest (y + height b)
  end.

(** The step [m] of the layout does what the paginator does on
    [blocks], from any cursor. *)
Definition runs (pageHeight : Z) (m : M unit) (blocks : list Block) : Prop :=
  forall y,
    snd (m y) = paginate pageHeight blocks y
    /\ snd (fst (m y)) = cursorAfter pageHeight blocks y.

(** The first call of the block draws at the cursor, and the block
    opens no page. *)
Definition headedAtCursor (b : Block) : Prop :=
  forall y,
    (exists c rest, draw b y = c :: rest /\ top c = Some y)
    /\ Forall (fun c => isBreak c = false) (draw b y).

(** The space left after the last block of a stretch counts in the
    advance of that block. *)
Definition followedBy (dy : Z) (b : Block) : Block :=
  {| reserve := reserve b; draw := draw b; height := height b + dy |}.

Fixpoint thenAdvance (dy : Z) (blocks : list Block) : list Block :=
  match blocks with
  | [] => []
  | [b] => [followedBy dy b]
  | b :: rest => b :: thenAdvance dy rest
  end.

Section Body.

Variable pageWidth : Z.
Variable splitTextToSize : Font -> string -> Z -> list string.
Variable getTextWidth : Font -> string -> Z.
Variable percent show : number -> string.
Variable bullet : string.

(** The code before the first check (the header, the verdict box and
    the executive summary) run from the top margin: its calls, and the
    cursor it leaves. *)
Definition beforeChecks (clock : Clock) (data : FactCheckResponse) : M unit :=
  bind (header clock)
       (fun _ => bind (summaryBox pageWidth percent show data)
                      (fun _ => summaryText pageWidth splitTextToSize data)).

Definition firstPage (clock : Clock) (data : FactCheckResponse) : list Call :=
  snd (beforeChecks clock data 20).

Definition summaryEnd (clock : Clock) (data : FactCheckResponse) : Z :=
  snd (fst (beforeChecks clock data 20)).

(** The five kinds of blocks that follow a check. *)
Definition sectionHeading : Block :=
  {| reserve := 20;
     draw := fun y => [text (one "Detailed Claims Analysis") margin y left];
     height := 10 |}.

Definition claimHeader (entry : nat * Claim) : Block :=
  let '(idx, claim) := entry in
  let claimTitle :=
    "Claim " ++ JS.string_of_nat (idx + 1) ++ ": "
             ++ JS.toUpperCase (Verdict_name (verdict claim)) in
  let claimTextLines :=
    splitTextToSize {| style := italic; size := 11 |}
      (String JSON.dquote (claim_text claim ++ String JSON.dquote ""))
      (contentWidth pageWidth - 5) in
  {| reserve := 50;
     draw := fun y =>
       [ line margin y (pageWidth - margin) y;
         text (one claimTitle) margin (y + 5) left;
         text claimTextLines (margin + 5) (y + 5 + 7) left ];
     height := 5 + 7 + (lines_height claimTextLines 6 + 5) |}.

Definition reasoningParagraph (claim : Claim) : Block :=
  let reasoningLines :=
    splitTextToSize {| style := normal; size := 10 |}
                    (reasoning claim) (contentWidth pageWidth - 10) in
  {| reserve := 20;
     draw := fun y =>
       [ text (one "Analysis:") (margin + 5) y left;
         text reasoningLines (margin + 5) (y + 5) left ];
     height := 5 + (lines_height reasoningLines 5 + 8) |}.

Definition evidenceHeading : Block :=
  {| reserve := 30;
     draw := fun y => [text (one "Evidence / Proofs:") (margin + 5) y left];
     height := 6 |}.

Definition evidenceEntry (ev : Evidence) : Block :=
  let linkText :=
    bullet ++ " " ++ source_title ev
           ++ " (" ++ SourceType_name (source_type ev) ++ ")" in
  let linkWidth := getTextWidth {| style := normal; size := 9 |} linkText in
  {| reserve := 15;
     draw := fun y =>
       (text (one linkText) (margin + 8) y left
        :: link (margin + 8) (y - 4) linkWidth 5 (source_url ev)
        :: (if JS.truthy (quote ev)
            then [text (one (quoteLine (quote ev))) (margin + 8) (y + 5) left]
            else []))%list;
     height := 5 + (if JS.truthy (quote ev) then 5 else 0) |}.

(** The blocks of the body after the summary, in the order they are
    written: the section heading; then for each claim its header, its
    reasoning paragraph and, when it has evidence, the evidence heading
    and one block for each evidence entry. *)
Definition evidenceBlocks (evs : list Evidence) : list Block :=
  thenAdvance 5 (evidenceHeading :: map evidenceEntry evs).

Definition claimBlocks (entry : nat * Claim) : list Block :=
  thenAdvance 5
    (claimHeader entry
     :: reasoningParagraph (snd entry)
     :: (if Nat.eqb (List.length (evidence (snd entry))) 0 then []
         else evidenceBlocks (evidence (snd entry)))).

Definition bodyBlocks (data : FactCheckResponse) : list Block :=
  sectionHeading
  :: flat_map claimBlocks
       (combine (seq 0 (List.length (claims data))) (claims data)).

End Body.

(** The reserves of the checks, in the order in which the checks are
    passed: 20 before the section heading; for each claim 50 before its
    header and 20 before its reasoning paragraph; for a claim that has
    evidence, 30 before the evidence heading and 15 before each evidence
    entry. *)
Definition reserves (data : FactCheckResponse) : list Z :=
  20 :: flat_map (fun claim =>
                    50 :: 20
                    :: (if Nat.eqb (List.length (evidence claim)) 0 then []
                        else 30 :: map (fun _ => 15) (evidence claim)))
                 (claims data).

End Pagination.

(* ================================================================== *)
(** * Properties *)
(* ================================================================== *)

(** ** Strings *)

Section StringFacts.

Lemma length_append (a b : string) :
  String.length (a ++ b) = (String.length a + String.length b)%nat.
Proof. induction a as [|c a IH]; simpl; [reflexivity | now rewrite IH]. Qed.

Lemma append_assoc (a b c : string) : (a ++ b) ++ c = a ++ (b ++ c).
Proof. induction a as [|x a IH]; simpl; [reflexivity | now rewrite IH]. Qed.

Lemma append_empty_r (a : string) : a ++ "" = a.
Proof. induction a as [|x a IH]; simpl; [reflexivity | now rewrite IH]. Qed.

Lemma prefix_char_head (c a : ascii) (r : string) :
  String.prefix (String c "") (String a r) = Ascii.eqb a c.
Proof.
  simpl. destruct (ascii_dec c a) as [->|Hne].
  - rewrite Ascii.eqb_refl. destruct r; reflexivity.
  - symmetry. apply Ascii.eqb_neq. congruence.
Qed.

(** The first occurrence of a character that the text before it does
    not contain. *)
Lemma indexOf_from_first (c : ascii) (pre rest : string) (i : Z) :
  Text.occurs c pre = false ->
  JS.indexOf_from i (pre ++ String c rest) (String c "")
  = i + JS.len pre.
Proof.
  revert i. induction pre as [|a pre IH]; intros i Hpre.
  - cbn [append JS.indexOf_from]. rewrite prefix_char_head, Ascii.eqb_refl.
    unfold JS.len. simpl. lia.
  - cbn [Text.occurs] in Hpre. apply Bool.orb_false_iff in Hpre as [Ha Hpre].
    cbn [append JS.indexOf_from]. rewrite prefix_char_head, Ha.
    rewrite IH by assumption. unfold JS.len. cbn [String.length]. lia.
Qed.

(** Without the character, the search fails. *)
Lemma indexOf_from_absent (c : ascii) (s : string) (i : Z) :
  Text.occurs c s = false -> JS.indexOf_from i s (String c "") = -1.
Proof.
  revert i. induction s as [|a s IH]; intros i Hs.
  - reflexivity.
  - cbn [Text.occurs] in Hs. apply Bool.orb_false_iff in Hs as [Ha Hs].
    cbn [JS.indexOf_from]. rewrite prefix_char_head, Ha. now apply IH.
Qed.

Lemma lastIndexOf_from_absent (c : ascii) (s : string) (i : Z) :
  Text.occurs c s = false -> JS.lastIndexOf_from i s (String c "") = -1.
Proof.
  revert i. induction s as [|a s IH]; intros i Hs.
  - reflexivity.
  - cbn [Text.occurs] in Hs. apply Bool.orb_false_iff in Hs as [Ha Hs].
    cbn [JS.lastIndexOf_from]. rewrite IH by assumption.
    rewrite prefix_char_head, Ha. reflexivity.
Qed.

(** The last occurrence of a character that the text after it does not
    contain. *)
Lemma lastIndexOf_from_last (c : ascii) (s post : string) (i : Z) :
  0 <= i ->
  Text.occurs c post = false ->
  JS.lastIndexOf_from i (s ++ String c post) (String c "")
  = i + JS.len s.
Proof.
  revert i. induction s as [|a s IH]; intros i Hi Hpost.
  - cbn [append JS.lastIndexOf_from].
    rewrite lastIndexOf_from_absent by assumption.
    rewrite prefix_char_head, Ascii.eqb_refl. unfold JS.len. simpl. lia.
  - cbn [append JS.lastIndexOf_from].
    rewrite IH by (assumption || lia).
    assert (H : Z.eqb (i + 1 + JS.len s) (-1) = false)
      by (apply Z.eqb_neq; unfold JS.len; lia).
    rewrite H. unfold JS.len. cbn [String.length]. lia.
Qed.

Lemma substring_middle (pre mid post : string) :
  String.substring (String.length pre) (String.length mid) (pre ++ mid ++ post)
  = mid.
Proof.
  induction pre as [|a pre IH]; cbn [String.length append String.substring].
  - induction mid as [|b mid IHm]; cbn [String.length append String.substring].
    + destruct post; reflexivity.
    + now rewrite IHm.
  - exact IH.
Qed.

(** [substring] between the ends of a middle part returns it. *)
Lemma JS_substring_middle (pre mid post : string) :
  JS.substring (pre ++ mid ++ post) (JS.len pre) (JS.len pre + JS.len mid) = mid.
Proof.
  unfold JS.substring, JS.len. rewrite !length_append.
  set (p := String.length pre). set (m := String.length mid).
  set (q := String.length post).
  replace (Z.to_nat _) with p by lia.
  replace (Z.to_nat _) with m by lia.
  apply substring_middle.
Qed.

Lemma trimEnd_head (c : ascii) (s : string) :
  JS.isWhiteSpace c = false -> JS.trimEnd (String c s) <> "".
Proof.
  intros Hc. cbn [JS.trimEnd]. destruct (JS.trimEnd s); [rewrite Hc|]; discriminate.
Qed.

(** A text that starts with a visible character does not trim to the
    empty string. *)
Lemma trim_visible_head (c : ascii) (s : string) :
  JS.isWhiteSpace c = false -> JS.truthy (JS.trim (String c s)) = true.
Proof.
  intros Hc. unfold JS.trim. cbn [JS.trimStart]. rewrite Hc.
  pose proof (trimEnd_head c s Hc) as H.
  destruct (JS.trimEnd (String c s)); [congruence | reflexivity].
Qed.

End StringFacts.

(** ** The fuel of the JSON parser *)

Section ParserFuel.
Import JSON Fuel.

Lemma skip_ws_length (s : string) :
  (String.length (skip_ws s) <= String.length s)%nat.
Proof.
  induction s as [|c s IH]; cbn [skip_ws String.length]; [lia|].
  destruct (is_ws c); cbn [String.length]; lia.
Qed.

Lemma eat_length (c : ascii) (s r : string) :
  eat c s = Some r -> String.length s = S (String.length r).
Proof.
  destruct s as [|a s]; cbn [eat]; [discriminate|].
  destruct (Ascii.eqb a c); [|discriminate]. now intros [= ->].
Qed.

Lemma strip_length (p s r : string) :
  strip p s = Some r ->
  String.length s = (String.length p + String.length r)%nat.
Proof.
  revert s. induction p as [|a p IH]; intros s; cbn [strip].
  - now intros [= ->].
  - destruct s as [|b s]; [discriminate|].
    destruct (Ascii.eqb a b); [|discriminate].
    intros H. cbn [String.length]. now rewrite (IH s H).
Qed.

Lemma parse_chars_shorter (n : nat) :
  forall s t r,
    (String.length s <= n)%nat ->
    parse_chars s = Some (t, r) -> (String.length r < String.length s)%nat.
Proof.
  induction n as [|n IH]; intros s t r Hn Hparse.
  - destruct s; [discriminate | cbn in Hn; lia].
  - destruct s as [|c s]; [discriminate|]. cbn [String.length] in Hn.
    cbn [parse_chars] in Hparse.
    destruct (Ascii.eqb c dquote).
    { injection Hparse as _ <-. cbn [String.length]. lia. }
    destruct (Ascii.eqb c backslash).
    { destruct s as [|e r1]; [discriminate|].
      destruct (Ascii.eqb e "u").
      - destruct r1 as [|h1 [|h2 [|h3 [|h4 r2]]]]; try discriminate.
        destruct (hex_of h1) as [[|?]|]; try discriminate.
        destruct (hex_of h2) as [[|?]|]; try discriminate.
        destruct (hex_of h3) as [a|]; try discriminate.
        destruct (hex_of h4) as [b|]; try discriminate.
        destruct (parse_chars r2) as [[t' rest]|] eqn:Hrest; [|discriminate].
        injection Hparse as _ <-.
        assert (String.length rest < String.length r2)%nat
          by (apply (IH r2 t' rest); [cbn [String.length] in Hn; lia | exact Hrest]).
        cbn [String.length]. lia.
      - destruct (escape_of e); [|discriminate].
        destruct (parse_chars r1) as [[t' rest]|] eqn:Hrest; [|discriminate].
        injection Hparse as _ <-.
        assert (String.length rest < String.length r1)%nat
          by (apply (IH r1 t' rest); [cbn [String.length] in Hn; lia | exact Hrest]).
        cbn [String.length]. lia. }
    destruct (Nat.ltb (nat_of_ascii c) 32); [discriminate|].
    destruct (parse_chars s) as [[t' rest]|] eqn:Hrest; [|discriminate].
    injection Hparse as _ <-.
    assert (String.length rest < String.length s)%nat
      by (apply (IH s t' rest); [lia | exact Hrest]).
    cbn [String.length]. lia.
Qed.

Lemma parse_chars_length (s t r : string) :
  parse_chars s = Some (t, r) -> (String.length r < String.length s)%nat.
Proof. apply (parse_chars_shorter (String.length s)). lia. Qed.

Lemma read_digits_length (s : string) :
  forall acc n v k r,
    read_digits acc n s = (v, k, r) -> (String.length r <= String.length s)%nat.
Proof.
  induction s as [|c s IH]; intros acc n v k r; cbn [read_digits].
  - intros [= _ _ <-]. lia.
  - destruct (digit_of c).
    + intros H. apply IH in H. cbn [String.length]. lia.
    + intros [= _ _ <-]. lia.
Qed.

Lemma read_int_length (s r : string) (i : Z) :
  read_int s = Some (i, r) -> (String.length r < String.length s)%nat.
Proof.
  destruct s as [|c s]; cbn [read_int]; [discriminate|].
  destruct (digit_of c) as [d|] eqn:Hd; [|discriminate].
  destruct d.
  - intros [= _ <-]. cbn [String.length]. lia.
  - cbn [read_digits]. rewrite Hd.
    destruct (read_digits _ _ s) as [[v k] rest] eqn:Hrest.
    intros [= _ <-]. apply read_digits_length in Hrest. cbn [String.length]. lia.
  - cbn [read_digits]. rewrite Hd.
    destruct (read_digits _ _ s) as [[v k] rest] eqn:Hrest.
    intros [= _ <-]. apply read_digits_length in Hrest. cbn [String.length]. lia.
Qed.

Lemma read_frac_length (m v k : Z) (s r : string) :
  read_frac m s = Some (v, k, r) -> (String.length r <= String.length s)%nat.
Proof.
  unfold read_frac. destruct (eat "." s) as [r0|] eqn:Heat.
  - apply eat_length in Heat.
    destruct (read_digits m 0 r0) as [[v' n] rest] eqn:Hrest.
    apply read_digits_length in Hrest.
    destruct n; [discriminate|]. intros [= _ _ <-]. lia.
  - intros [= _ _ <-]. lia.
Qed.

Lemma read_exp_digits_length (neg : bool) (s r : string) (e : Z) :
  read_exp_digits neg s = Some (e, r) -> (String.length r <= String.length s)%nat.
Proof.
  unfold read_exp_digits.
  destruct (read_digits 0 0 s) as [[v n] rest] eqn:Hrest.
  apply read_digits_length in Hrest.
  destruct n; [discriminate|]. intros [= _ <-]. lia.
Qed.

Lemma read_exp_length (s r : string) (e : Z) :
  read_exp s = Some (e, r) -> (String.length r <= String.length s)%nat.
Proof.
  destruct s as [|c s]; cbn [read_exp]; [intros [= _ <-]; lia|].
  destruct (Ascii.eqb c "e" || Ascii.eqb c "E")%bool; [|intros [= _ <-]; lia].
  destruct (eat "+" s) as [r1|] eqn:Hplus.
  { apply eat_length in Hplus. intros H. apply read_exp_digits_length in H.
    cbn [String.length]. lia. }
  destruct (eat "-" s) as [r1|] eqn:Hminus.
  { apply eat_length in Hminus. intros H. apply read_exp_digits_length in H.
    cbn [String.length]. lia. }
  intros H. apply read_exp_digits_length in H. cbn [String.length]. lia.
Qed.

Lemma parse_number_length (s r : string) (v : json) :
  parse_number s = Some (v, r) -> (String.length r < String.length s)%nat.
Proof.
  unfold parse_number.
  assert (Hsign : forall neg s1,
             match eat "-" s with Some r0 => (true, r0) | None => (false, s) end
             = (neg, s1) -> (String.length s1 <= String.length s)%nat).
  { intros neg s1. destruct (eat "-" s) as [r0|] eqn:Heat.
    - apply eat_length in Heat. intros [= _ <-]. lia.
    - intros [= _ <-]. lia. }
  destruct (match eat "-" s with Some r0 => (true, r0) | None => (false, s) end)
    as [neg s1] eqn:Hs1.
  specialize (Hsign neg s1 eq_refl).
  destruct (read_int s1) as [[i s2]|] eqn:Hint; [|discriminate].
  apply read_int_length in Hint.
  destruct (read_frac i s2) as [[[m k] s3]|] eqn:Hfrac; [|discriminate].
  apply read_frac_length in Hfrac.
  destruct (read_exp s3) as [[e s4]|] eqn:Hexp; [|discriminate].
  apply read_exp_length in Hexp.
  intros [= _ <-]. lia.
Qed.

Lemma parse_scalar_length (c : ascii) (t r : string) (v : json) :
  parse_scalar c t = Some (v, r) -> (String.length r < String.length t)%nat.
Proof.
  unfold parse_scalar.
  destruct (Ascii.eqb c "t").
  { destruct (strip "true" t) as [rest|] eqn:H; [|discriminate].
    apply strip_length in H. cbn [option_map]. intros [= _ <-].
    cbn [String.length] in H. lia. }
  destruct (Ascii.eqb c "f").
  { destruct (strip "false" t) as [rest|] eqn:H; [|discriminate].
    apply strip_length in H. cbn [option_map]. intros [= _ <-].
    cbn [String.length] in H. lia. }
  destruct (Ascii.eqb c "n").
  { destruct (strip "null" t) as [rest|] eqn:H; [|discriminate].
    apply strip_length in H. cbn [option_map]. intros [= _ <-].
    cbn [String.length] in H. lia. }
  apply parse_number_length.
Qed.


Lemma value_step (m : nat) :
  elements_ok m -> members_ok m -> value_ok (S m).
Proof.
  intros IHe IHm s v r H. cbn [parse_value] in H.
  pose proof (skip_ws_length s) as Hws.
  destruct (skip_ws s) as [|c r0] eqn:Hskip; [discriminate|].
  cbn [String.length] in Hws.
  pose proof (skip_ws_length r0) as Hws0.
  destruct (Ascii.eqb c "{") eqn:Hobj.
  { destruct (eat "}" (skip_ws r0)) as [rest|] eqn:Hclose.
    - injection H as <- <-. apply eat_length in Hclose as Hlen. split; [lia|].
      intros [|n] Hn; [lia|]. cbn [parse_value]. now rewrite Hskip, Hobj, Hclose.
    - destruct (parse_members m r0) as [[ms rest]|] eqn:Hms; [|discriminate].
      injection H as <- <-. destruct (IHm r0 ms rest Hms) as [Hlen Hfuel].
      split; [lia|]. intros [|n] Hn; [lia|]. cbn [parse_value].
      rewrite Hskip, Hobj, Hclose, Hfuel by lia. reflexivity. }
  destruct (Ascii.eqb c "[") eqn:Harr.
  { destruct (eat "]" (skip_ws r0)) as [rest|] eqn:Hclose.
    - injection H as <- <-. apply eat_length in Hclose as Hlen. split; [lia|].
      intros [|n] Hn; [lia|]. cbn [parse_value].
      now rewrite Hskip, Hobj, Harr, Hclose.
    - destruct (parse_elements m r0) as [[vs rest]|] eqn:Hvs; [|discriminate].
      injection H as <- <-. destruct (IHe r0 vs rest Hvs) as [Hlen Hfuel].
      split; [lia|]. intros [|n] Hn; [lia|]. cbn [parse_value].
      rewrite Hskip, Hobj, Harr, Hclose, Hfuel by lia. reflexivity. }
  destruct (Ascii.eqb c dquote) eqn:Hstr.
  { destruct (parse_chars r0) as [[str rest]|] eqn:Hchars; [|discriminate].
    injection H as <- <-. apply parse_chars_length in Hchars as Hlen.
    split; [lia|]. intros [|n] Hn; [lia|]. cbn [parse_value].
    now rewrite Hskip, Hobj, Harr, Hstr, Hchars. }
  apply parse_scalar_length in H as Hlen. cbn [String.length] in Hlen.
  split; [lia|]. intros [|n] Hn; [lia|]. cbn [parse_value].
  now rewrite Hskip, Hobj, Harr, Hstr.
Qed.

Lemma elements_step (m : nat) :
  value_ok m -> elements_ok m -> elements_ok (S m).
Proof.
  intros IHv IHe s vs r H. cbn [parse_elements] in H.
  destruct (parse_value m s) as [[v r0]|] eqn:Hv; [|discriminate].
  destruct (IHv s v r0 Hv) as [Hlen0 Hfuel0].
  pose proof (skip_ws_length r0) as Hws.
  destruct (eat "]" (skip_ws r0)) as [rest|] eqn:Hclose.
  - injection H as <- <-. apply eat_length in Hclose as Hlen. split; [lia|].
    intros [|n] Hn; [lia|]. cbn [parse_elements].
    rewrite Hfuel0 by lia. now rewrite Hclose.
  - destruct (eat "," (skip_ws r0)) as [rest|] eqn:Hcomma; [|discriminate].
    apply eat_length in Hcomma as Hlen.
    destruct (parse_elements m rest) as [[vs' rest']|] eqn:Hvs; [|discriminate].
    injection H as <- <-. destruct (IHe rest vs' rest' Hvs) as [Hlen' Hfuel].
    split; [lia|]. intros [|n] Hn; [lia|]. cbn [parse_elements].
    rewrite Hfuel0 by lia. rewrite Hclose, Hcomma, Hfuel by lia. reflexivity.
Qed.

Lemma members_step (m : nat) :
  value_ok m -> members_ok m -> members_ok (S m).
Proof.
  intros IHv IHm s ms r H. cbn [parse_members] in H.
  pose proof (skip_ws_length s) as Hws.
  destruct (eat dquote (skip_ws s)) as [r0|] eqn:Hquote; [|discriminate].
  apply eat_length in Hquote as Hlen0.
  destruct (parse_chars r0) as [[k r1]|] eqn:Hkey; [|discriminate].
  apply parse_chars_length in Hkey as Hlen1.
  pose proof (skip_ws_length r1) as Hws1.
  destruct (eat ":" (skip_ws r1)) as [r2|] eqn:Hcolon; [|discriminate].
  apply eat_length in Hcolon as Hlen2.
  destruct (parse_value m r2) as [[v r3]|] eqn:Hv; [|discriminate].
  destruct (IHv r2 v r3 Hv) as [Hlen3 Hfuel3].
  pose proof (skip_ws_length r3) as Hws3.
  destruct (eat "}" (skip_ws r3)) as [rest|] eqn:Hclose.
  - injection H as <- <-. apply eat_length in Hclose as Hlen. split; [lia|].
    intros [|n] Hn; [lia|]. cbn [parse_members].
    rewrite Hquote, Hkey, Hcolon, Hfuel3 by lia. now rewrite Hclose.
  - destruct (eat "," (skip_ws r3)) as [rest|] eqn:Hcomma; [|discriminate].
    apply eat_length in Hcomma as Hlen.
    destruct (parse_members m rest) as [[ms' rest']|] eqn:Hms; [|discriminate].
    injection H as <- <-. destruct (IHm rest ms' rest' Hms) as [Hlen' Hfuel].
    split; [lia|]. intros [|n] Hn; [lia|]. cbn [parse_members].
    rewrite Hquote, Hkey, Hcolon, Hfuel3 by lia.
    rewrite Hclose, Hcomma, Hfuel by lia. reflexivity.
Qed.

Lemma parse_fuel (m : nat) : value_ok m /\ elements_ok m /\ members_ok m.
Proof.
  induction m as [|m (IHv & IHe & IHm)].
  - split; [|split]; intros s x r Hzero; discriminate Hzero.
  - split; [now apply value_step|].
    split; [now apply elements_step | now apply members_step].
Qed.

(** A value found with some fuel is found by [JSON.parse]. *)
Theorem parse_fuel_enough (n : nat) (s : string) (v : json) (rest : string) :
  parse_value n s = Some (v, rest) ->
  parse_value (2 * String.length s + 2) s = Some (v, rest).
Proof.
  intros Hfound. destruct (parse_fuel n) as (Hv & _ & _).
  destruct (Hv s v rest Hfound) as [_ Hfuel]. apply Hfuel. lia.
Qed.


(** A text that [JSON.parse] refuses is refused whatever the fuel. *)
Corollary parse_refuses_for_any_fuel (s : string) :
  JSON.parse s = None ->
  forall n v rest,
    parse_value n s = Some (v, rest) -> skip_ws rest <> "".
Proof.
  unfold JSON.parse. intros Hnone n v rest Hfound.
  rewrite (parse_fuel_enough n s v rest Hfound) in Hnone.
  destruct (skip_ws rest); [discriminate | discriminate].
Qed.

End ParserFuel.


(** ** The extraction step of [analyzeContent] *)

Section Extraction.
Import JSON GeminiService Schema.

Variable JSON_parse : string -> option json.

(** Where the two searches land when the object is delimited by the
    first opening and the last closing brace of the text. *)
Lemma delimiters_found (pre inner post : string) :
  Text.occurs "{" pre = false ->
  Text.occurs "}" post = false ->
  let resultText := pre ++ String "{" (inner ++ "}") ++ post in
  JS.indexOf resultText "{" = JS.len pre
  /\ JS.lastIndexOf resultText "}" + 1
     = JS.len pre + JS.len (String "{" (inner ++ "}")).
Proof.
  intros Hpre Hpost resultText. subst resultText. split.
  - unfold JS.indexOf. cbn [append].
    rewrite indexOf_from_first by assumption. lia.
  - unfold JS.lastIndexOf.
    replace (pre ++ String "{" (inner ++ "}") ++ post)
      with ((pre ++ String "{" inner) ++ String "}" post).
    + rewrite lastIndexOf_from_last by (assumption || lia).
      unfold JS.len. cbn [String.length]. rewrite !length_append.
      cbn [String.length]. lia.
    + rewrite append_assoc. cbn [append]. now rewrite append_assoc.
Qed.

Lemma jsonString_delimited (pre inner post : string) :
  Text.occurs "{" pre = false ->
  Text.occurs "}" post = false ->
  jsonString (pre ++ String "{" (inner ++ "}") ++ post)
  = String "{" (inner ++ "}").
Proof.
  intros Hpre Hpost.
  destruct (delimiters_found pre inner post Hpre Hpost) as [Hfirst Hlast].
  unfold jsonString. rewrite Hfirst, Hlast. apply JS_substring_middle.
Qed.

(** What the [try] body does once a candidate has been parsed. *)
Lemma extractJson_parsed (resultText : string) (v : json) :
  JS.indexOf resultText "{" <> -1 ->
  JS.lastIndexOf resultText "}" <> -1 ->
  JSON_parse (jsonString resultText) = Some v ->
  extractJson JSON_parse resultText
  = if requiredFieldsPresent v then inr v
    else match v with
         | JNull => inl TypeError
         | _ => inl (Error missingFieldsMessage)
         end.
Proof.
  intros Hfirst Hlast Hparse. unfold extractJson.
  apply Z.eqb_neq in Hfirst. apply Z.eqb_neq in Hlast.
  rewrite Hfirst, Hlast. cbn [orb].
  unfold jsonString in Hparse. rewrite Hparse.
  unfold requiredFieldsPresent.
  destruct v; cbn [getProp truthy_opt negb andb]; try reflexivity.
  destruct (truthy_opt (lookup "claims" members)); cbn [negb andb];
    [ destruct (truthy_opt (lookup "overall_verdict" members)) | ];
    reflexivity.
Qed.

(** C1 (as amended).  When the text before the object holds no opening
    brace and the text after it no closing brace, the candidate cut from
    the first opening to the last closing brace is the object's own
    text, parsing the candidate gives the object, and the object is
    what the extraction returns once it has the two required fields. *)
Theorem extraction_recovers_delimited_object
        (pre inner post : string) (v : json) :
  Text.occurs "{" pre = false ->
  Text.occurs "}" post = false ->
  JSON_parse (String "{" (inner ++ "}")) = Some v ->
  let resultText := pre ++ String "{" (inner ++ "}") ++ post in
  jsonString resultText = String "{" (inner ++ "}")
  /\ JSON_parse (jsonString resultText) = Some v
  /\ (requiredFieldsPresent v = true ->
      parseResponse JSON_parse resultText = inr v).
Proof.
  intros Hpre Hpost Hparse resultText.
  pose proof (jsonString_delimited pre inner post Hpre Hpost) as Hcut.
  destruct (delimiters_found pre inner post Hpre Hpost) as [Hfirst Hlast].
  fold resultText in Hcut, Hfirst, Hlast.
  split; [exact Hcut|]. split; [now rewrite Hcut|].
  intros Hfields. unfold parseResponse.
  rewrite (extractJson_parsed resultText v).
  - now rewrite Hfields.
  - rewrite Hfirst. unfold JS.len. lia.
  - unfold JS.len in Hlast. cbn [String.length] in Hlast. lia.
  - now rewrite Hcut.
Qed.

(** C2 (as amended).  A text without an opening brace, or without a
    closing brace, makes the [try] body throw the error of the missing
    JSON structure, and the extraction returns no value. *)
Theorem missing_brace_is_rejected (resultText : string) :
  Text.occurs "{" resultText = false \/ Text.occurs "}" resultText = false ->
  extractJson JSON_parse resultText = inl (Error noJsonMessage)
  /\ forall v, parseResponse JSON_parse resultText <> inr v.
Proof.
  intros Habsent.
  assert (Hthrow : extractJson JSON_parse resultText = inl (Error noJsonMessage)).
  { unfold extractJson, JS.indexOf, JS.lastIndexOf.
    destruct Habsent as [Hopen | Hclose].
    - now rewrite (indexOf_from_absent "{" resultText 0 Hopen).
    - rewrite (lastIndexOf_from_absent "}" resultText 0 Hclose).
      now rewrite Bool.orb_true_r. }
  split; [exact Hthrow|]. intros v. unfold parseResponse.
  now rewrite Hthrow.
Qed.

(** C3 (as amended).  The [try] body returns a value exactly when both
    braces were found, the candidate parsed to that value, and the
    value has a truthy [claims] and a truthy [overall_verdict]; nothing
    else of the value is read. *)
Theorem validation_reads_two_fields (resultText : string) (v : json) :
  extractJson JSON_parse resultText = inr v
  <-> (JS.indexOf resultText "{" <> -1
       /\ JS.lastIndexOf resultText "}" <> -1
       /\ JSON_parse (jsonString resultText) = Some v
       /\ requiredFieldsPresent v = true).
Proof.
  split.
  - unfold extractJson, jsonString, requiredFieldsPresent.
    destruct (Z.eqb (JS.indexOf resultText "{") (-1)) eqn:Hfirst;
      [discriminate|].
    destruct (Z.eqb (JS.lastIndexOf resultText "}") (-1)) eqn:Hlast;
      [discriminate|].
    cbn [orb]. apply Z.eqb_neq in Hfirst. apply Z.eqb_neq in Hlast.
    destruct (JSON_parse _) as [w|] eqn:Hparse; [|discriminate].
    destruct (getProp w "claims") as [claims|] eqn:Hclaims; [|discriminate].
    destruct (truthy_opt claims) eqn:Hc; cbn [negb]; [|discriminate].
    destruct (getProp w "overall_verdict") as [verdict|] eqn:Hverdict;
      [|discriminate].
    destruct (truthy_opt verdict) eqn:Hv; cbn [negb]; [|discriminate].
    intros [= <-]. rewrite Hclaims, Hverdict, Hc, Hv.
    repeat split; assumption.
  - intros (Hfirst & Hlast & Hparse & Hfields).
    rewrite (extractJson_parsed resultText v Hfirst Hlast Hparse).
    now rewrite Hfields.
Qed.

(** X7.  Whatever the [try] body throws, the caller of [analyzeContent]
    sees the one message of the inner [catch]. *)
Lemma extraction_failures_share_one_message
      (key : string) (generateContent : Request -> string + option string)
      (t : string) (imageBase64 : option string) (mode : Mode)
      (resultText : string) (e : exn) :
  key <> "" -> resultText <> "" ->
  generateContent {| model := modelId mode;
                     parts := buildParts t imageBase64 mode |}
  = inr (Some resultText) ->
  extractJson JSON_parse resultText = inl e ->
  analyzeContent JSON_parse (Some key) generateContent t imageBase64 mode
  = inl parseFailureMessage.
Proof.
  intros Hkey Htext Hgen Hthrow.
  unfold analyzeContent, analyze, getAiClient.
  destruct key as [|k key]; [congruence|]. rewrite Hgen.
  destruct resultText as [|c resultText]; [congruence|].
  unfold parseResponse. rewrite Hthrow. reflexivity.
Qed.

(** The inline part carries one constant tag. *)
Lemma inline_tag_is_constant (t : string) (imageBase64 : option string)
      (mode : Mode) (d m : string) :
  In (inlineData d m) (buildParts t imageBase64 mode) -> m = "image/jpeg".
Proof.
  unfold buildParts.
  destruct imageBase64 as [[|c s]|];
    try (destruct (isUrl (JS.trim t)); cbn [In]; intros [H|[]]; discriminate).
  cbn [In]. intros [H|[H|[]]]; [now inversion H | discriminate].
Qed.

End Extraction.

(** The answer of the specification's scenario, fenced in markdown, is
    recovered. *)
Lemma extraction_recovers_delimited_object_witness :
  Text.occurs "{" ("Sure! ```json" ++ PdfService.LF) = false
  /\ GeminiService.parseResponse JSON.parse Samples.fencedAnswer
     = inr Samples.answer.
Proof.
  split; [reflexivity|].
  apply (extraction_recovers_delimited_object JSON.parse
           ("Sure! ```json" ++ PdfService.LF)
           (JSON.text "'claims':[],'overall_verdict':'unknown'")
           (PdfService.LF ++ "```") Samples.answer);
    reflexivity.
Defined.

(** C1, as stated, fails: prose with braces of its own moves the first
    opening brace, the candidate is no longer the object and does not
    parse. *)
Lemma braces_in_prose_defeat_extraction :
  JSON.parse Samples.bracedProse = None
  /\ JSON.parse Samples.answerText = Some Samples.answer
  /\ GeminiService.jsonString (Samples.bracedProse ++ Samples.answerText)
     <> Samples.answerText
  /\ GeminiService.extractJson JSON.parse
       (Samples.bracedProse ++ Samples.answerText)
     = inl GeminiService.SyntaxError
  /\ GeminiService.parseResponse JSON.parse
       (Samples.bracedProse ++ Samples.answerText)
     = inl GeminiService.parseFailureMessage.
Proof. repeat split; try reflexivity. vm_compute. discriminate. Qed.

(** A text with no brace at all is rejected. *)
Lemma missing_brace_is_rejected_witness :
  Text.occurs "{" "I could not verify this claim." = false
  /\ GeminiService.extractJson JSON.parse "I could not verify this claim."
     = inl (GeminiService.Error GeminiService.noJsonMessage).
Proof.
  split; [reflexivity|].
  apply (missing_brace_is_rejected JSON.parse "I could not verify this claim.").
  left. reflexivity.
Defined.

(** C2, as stated, fails: a text with one closing brace too many is
    accepted, and one with an opening brace too many is refused by the
    parser, not by the check of the braces. *)
Lemma unbalanced_braces_pass_the_check :
  Text.balanced ("}" ++ Samples.answerText) = false
  /\ GeminiService.parseResponse JSON.parse ("}" ++ Samples.answerText)
     = inr Samples.answer
  /\ Text.balanced ("{" ++ Samples.answerText) = false
  /\ GeminiService.extractJson JSON.parse ("{" ++ Samples.answerText)
     = inl GeminiService.SyntaxError.
Proof. repeat split; reflexivity. Qed.

(** C3, as stated, fails: an answer with a claim judged false on no
    evidence breaks the rule of the schema and is returned to the caller
    as it is. *)
Lemma unsupported_verdict_is_returned :
  Schema.evidence_invariant Samples.unsupported = false
  /\ GeminiService.analyzeContent JSON.parse (Some "key")
       (fun _ => inr (Some Samples.unsupportedText))
       "Is the moon landing fake?" None GeminiService.standard
     = inr Samples.unsupported.
Proof. split; reflexivity. Qed.

(** ** [extractTextFromPdf] *)

Section PdfText.
Import PdfService.

Lemma join_concat (sep : string) (items : list string) :
  JS.join sep items = String.concat sep items.
Proof.
  induction items as [|x rest IH]; [reflexivity|].
  cbn [JS.join String.concat]. destruct rest; [reflexivity | now rewrite IH].
Qed.

Lemma pageBlock_block (i : nat) (items : list string) :
  pageBlock i items = Text.block i items.
Proof. unfold pageBlock, Text.block. now rewrite join_concat. Qed.

Lemma reads_one (pdf : PDFDocument) (i : nat) (page : PDFPageProxy)
      (items items' : list string) :
  getPage pdf i = inr page -> getTextContent page = inr items ->
  Text.reads pdf i items' -> items' = items.
Proof.
  intros Hpage Hitems (page' & Hpage' & Hitems'). congruence.
Qed.

(** The loop over consecutive page numbers ends with a text exactly
    when each of these pages can be read; the text is then what was
    accumulated before, followed by the blocks of the pages in order. *)
Lemma readPages_resolves (pdf : PDFDocument) (n i : nat) (acc fullText : string) :
  readPages pdf (seq i n) acc = inr fullText
  <-> exists ps,
        Forall2 (Text.reads pdf) (seq i n) ps
        /\ fullText = acc ++ Text.pagesText i ps.
Proof.
  revert i acc. induction n as [|n IH]; intros i acc; cbn [seq readPages].
  - split.
    + intros [= <-]. exists []. split; [constructor|].
      cbn. now rewrite append_empty_r.
    + intros (ps & Hall & ->). inversion Hall. cbn. now rewrite append_empty_r.
  - destruct (getPage pdf i) as [message|page] eqn:Hpage.
    { split; [discriminate|]. intros (ps & Hall & _).
      inversion Hall as [|? items ? ? (page & Hpage' & _)]. congruence. }
    destruct (getTextContent page) as [message|items] eqn:Hitems.
    { split; [discriminate|]. intros (ps & Hall & _).
      inversion Hall as [|? items ? ? (page' & Hpage' & Hitems')]. congruence. }
    rewrite IH. split.
    + intros (ps & Hall & ->). exists (items :: ps). split.
      * constructor; [now exists page | exact Hall].
      * cbn [Text.pagesText].
        now rewrite (pageBlock_block i items), (append_assoc acc).
    + intros (ps & Hall & ->).
      inversion Hall as [|? items' ? ps' Hread Hrest]; subst.
      pose proof (reads_one pdf i page items items' Hpage Hitems Hread) as ->.
      exists ps'. split; [exact Hrest|].
      cbn [Text.pagesText].
        now rewrite (pageBlock_block i items), (append_assoc acc).
Qed.

(** The loop fails exactly at the first page that cannot be read, with
    the message of this failure. *)
Lemma readPages_rejects (pdf : PDFDocument) (n i : nat) (acc message : string) :
  readPages pdf (seq i n) acc = inl message
  <-> exists k ps,
        (k < n)%nat
        /\ Forall2 (Text.reads pdf) (seq i k) ps
        /\ Text.fails pdf (i + k) message.
Proof.
  revert i acc. induction n as [|n IH]; intros i acc; cbn [seq readPages].
  - split; [discriminate | intros (k & _ & Hk & _); lia].
  - assert (Hfirst : forall k ps,
               Forall2 (Text.reads pdf) (seq i (S k)) ps ->
               exists page items,
                 getPage pdf i = inr page /\ getTextContent page = inr items).
    { intros k ps Hall. cbn [seq] in Hall.
      inversion Hall as [|? items ? ? (page & Hp & Hi)]. now exists page, items. }
    destruct (getPage pdf i) as [cause|page] eqn:Hpage.
    { split.
      - intros [= <-]. exists 0%nat, []. split; [lia|]. split; [constructor|].
        rewrite Nat.add_0_r. now left.
      - intros ([|k] & ps & _ & Hall & Hfail).
        + rewrite Nat.add_0_r in Hfail.
          destruct Hfail as [Hfail | (page & Hp & _)]; congruence.
        + destruct (Hfirst k ps Hall) as (page & items & Hp & _). congruence. }
    destruct (getTextContent page) as [cause|items] eqn:Hitems.
    { split.
      - intros [= <-]. exists 0%nat, []. split; [lia|]. split; [constructor|].
        rewrite Nat.add_0_r. right. now exists page.
      - intros ([|k] & ps & _ & Hall & Hfail).
        + rewrite Nat.add_0_r in Hfail.
          destruct Hfail as [Hfail | (page' & Hp & Hi)]; congruence.
        + destruct (Hfirst k ps Hall) as (page' & items & Hp & Hi). congruence. }
    rewrite IH. split.
    + intros (k & ps & Hk & Hall & Hfail). exists (S k), (items :: ps).
      split; [lia|]. split.
      * cbn [seq]. constructor; [now exists page | exact Hall].
      * now rewrite Nat.add_succ_r.
    + intros ([|k] & ps & Hk & Hall & Hfail).
      * rewrite Nat.add_0_r in Hfail.
        destruct Hfail as [Hfail | (page' & Hp & Hi)]; congruence.
      * cbn [seq] in Hall. inversion Hall as [|? items' ? ps' _ Hrest]; subst.
        exists k, ps'. split; [lia|]. split; [exact Hrest|].
        now rewrite Nat.add_succ_r in Hfail.
Qed.

Lemma pagesText_visible (items : list string) (rest : list (list string))
      (tail : string) :
  JS.truthy (JS.trim (Text.pagesText 1 (items :: rest) ++ tail)) = true.
Proof.
  cbn [Text.pagesText]. unfold Text.block. cbn [append].
  now apply trim_visible_head.
Qed.

Lemma truncationNotice_ten : truncationNotice 10 = Text.truncated.
Proof. reflexivity. Qed.

(** The text of a loaded document: it has one exactly when the
    document has a page and each of its first ten pages can be read,
    and it is then the blocks of these pages, followed by the notice
    when pages were left out.  The test for an empty text never fires
    on a document that has a page. *)
Lemma documentText_resolves (pdf : PDFDocument) (fullText : string) :
  documentText pdf = inr fullText
  <-> (0 < numPages pdf)%nat
      /\ exists ps,
           Forall2 (Text.reads pdf) (seq 1 (Nat.min (numPages pdf) 10)) ps
           /\ fullText
              = Text.pagesText 1 ps
                ++ (if Nat.ltb 10 (numPages pdf) then Text.truncated else "").
Proof.
  unfold documentText.
  destruct (readPages pdf (seq 1 (Nat.min (numPages pdf) 10)) "")
    as [cause|loopText] eqn:Hloop.
  { split; [discriminate|]. intros (_ & ps & Hall & _).
    assert (Hok : readPages pdf (seq 1 (Nat.min (numPages pdf) 10)) ""
                  = inr ("" ++ Text.pagesText 1 ps))
      by (apply readPages_resolves; now exists ps).
    congruence. }
  pose proof Hloop as Hps. apply readPages_resolves in Hps.
  destruct Hps as (ps & Hall & ->). cbn [append].
  assert (Hsame : forall ps',
             Forall2 (Text.reads pdf) (seq 1 (Nat.min (numPages pdf) 10)) ps' ->
             Text.pagesText 1 ps' = Text.pagesText 1 ps).
  { intros ps' Hall'.
    assert (Hok : readPages pdf (seq 1 (Nat.min (numPages pdf) 10)) ""
                  = inr ("" ++ Text.pagesText 1 ps'))
      by (apply readPages_resolves; now exists ps').
    rewrite Hloop in Hok. now injection Hok as <-. }
  destruct (Nat.eq_dec (numPages pdf) 0) as [Hzero|Hpos].
  - rewrite Hzero in *. cbn [Nat.min seq] in Hall. inversion Hall; subst.
    cbn. split; [discriminate | intros [Hlt _]; lia].
  - assert (Hhead : exists items rest, ps = items :: rest).
    { destruct (Nat.min (numPages pdf) 10) as [|m] eqn:Hmin; [lia|].
      cbn [seq] in Hall. inversion Hall; subst. now eexists _, _. }
    destruct Hhead as (items & rest & ->).
    assert (Hnotice : (if Nat.ltb (Nat.min (numPages pdf) 10) (numPages pdf)
                       then Text.pagesText 1 (items :: rest)
                            ++ truncationNotice (Nat.min (numPages pdf) 10)
                       else Text.pagesText 1 (items :: rest))
                      = Text.pagesText 1 (items :: rest)
                        ++ (if Nat.ltb 10 (numPages pdf)
                            then Text.truncated else "")).
    { destruct (Nat.ltb_spec 10 (numPages pdf)) as [Hmany|Hfew].
      - replace (Nat.min (numPages pdf) 10) with 10%nat by lia.
        assert (Hlt : Nat.ltb 10 (numPages pdf) = true) by (apply Nat.ltb_lt; lia).
        now rewrite Hlt, truncationNotice_ten.
      - replace (Nat.min (numPages pdf) 10) with (numPages pdf) by lia.
        now rewrite Nat.ltb_irrefl, append_empty_r. }
    rewrite Hnotice, pagesText_visible. cbn [negb]. split.
    + intros [= <-]. split; [lia|]. now exists (items :: rest).
    + intros (_ & ps' & Hall' & ->). now rewrite (Hsame ps' Hall').
Qed.

(** A loaded document has no text in two cases: it has no page, and
    the test for an empty text fires; or one of its first ten pages
    cannot be read, and the message is the one of the first such
    failure. *)
Lemma documentText_rejects (pdf : PDFDocument) (message : string) :
  documentText pdf = inl message
  <-> (numPages pdf = 0%nat /\ message = noTextMessage)
      \/ exists k ps,
           (k < Nat.min (numPages pdf) 10)%nat
           /\ Forall2 (Text.reads pdf) (seq 1 k) ps
           /\ Text.fails pdf (S k) message.
Proof.
  destruct (documentText pdf) as [cause|fullText] eqn:Htext.
  - unfold documentText in Htext.
    destruct (readPages pdf (seq 1 (Nat.min (numPages pdf) 10)) "")
      as [cause'|loopText] eqn:Hloop.
    + injection Htext as <-. split.
      * intros [= <-]. right. now apply readPages_rejects in Hloop.
      * intros [[Hzero _] | Hfail].
        -- rewrite Hzero in Hloop. discriminate Hloop.
        -- apply (readPages_rejects pdf _ 1 "") in Hfail. congruence.
    + destruct (Nat.eq_dec (numPages pdf) 0) as [Hzero|Hpos].
      * rewrite Hzero in *. cbn in Hloop. injection Hloop as <-.
        cbn in Htext. injection Htext as <-. split.
        -- intros [= <-]. now left.
        -- intros [[_ ->] | (k & _ & Hk & _)]; [reflexivity | cbn in Hk; lia].
      * exfalso.
        assert (Hok : exists t, documentText pdf = inr t).
        { apply readPages_resolves in Hloop. destruct Hloop as (ps & Hall & _).
          eexists. apply documentText_resolves. split; [lia|].
          exists ps. split; [exact Hall | reflexivity]. }
        destruct Hok as (t & Hok). unfold documentText in Hok.
        rewrite Hloop in Hok. congruence.
  - split; [discriminate|]. intros [[Hzero _] | Hfail].
    + apply documentText_resolves in Htext. lia.
    + unfold documentText in Htext.
      apply (readPages_rejects pdf _ 1 "") in Hfail. now rewrite Hfail in Htext.
Qed.

(** The test for an empty text fires on the document without pages, and
    on no document that has a page. *)
Lemma noText_only_without_pages (pdf : PDFDocument) :
  (numPages pdf = 0%nat -> documentText pdf = inl noTextMessage)
  /\ ((0 < numPages pdf)%nat ->
      forall ps,
        Forall2 (Text.reads pdf) (seq 1 (Nat.min (numPages pdf) 10)) ps ->
        exists fullText, documentText pdf = inr fullText).
Proof.
  split.
  - intros Hzero. apply documentText_rejects. now left.
  - intros Hpos ps Hall. eexists. apply documentText_resolves.
    split; [exact Hpos|]. exists ps. split; [exact Hall | reflexivity].
Qed.

Variable arrayBuffer : File -> string + string.
Variable getDocument : string -> string + PDFDocument.

(** C5.  For a document of more than ten pages the service returns a
    text exactly when each of the pages 1 to 10 can be read, whatever
    the pages after the tenth are; the text is then the blocks of the
    pages 1 to 10 in ascending order, each the marker [[Page N]], the
    items of the page separated by single spaces and a line feed,
    followed by the truncation notice. *)
Theorem pdf_text_covers_first_ten_pages
        (file : File) (bytes : string) (pdf : PDFDocument) (fullText : string) :
  arrayBuffer file = inr bytes ->
  getDocument bytes = inr pdf ->
  (10 < numPages pdf)%nat ->
  extractTextFromPdf arrayBuffer true getDocument file = inr fullText
  <-> exists ps,
        Forall2 (Text.reads pdf) (seq 1 10) ps
        /\ fullText = Text.pagesText 1 ps ++ Text.truncated.
Proof.
  intros Hbytes Hload Hmany. unfold extractTextFromPdf.
  rewrite Hbytes. cbn [negb]. rewrite Hload.
  assert (Hmin : Nat.min (numPages pdf) 10 = 10%nat) by lia.
  assert (Hlt : Nat.ltb 10 (numPages pdf) = true) by (apply Nat.ltb_lt; lia).
  destruct (documentText pdf) as [cause|t] eqn:Htext.
  - split; [discriminate|]. intros (ps & Hall & _).
    assert (Hok : documentText pdf
                  = inr (Text.pagesText 1 ps
                         ++ (if Nat.ltb 10 (numPages pdf)
                             then Text.truncated else ""))).
    { apply documentText_resolves. split; [lia|]. exists ps.
      rewrite Hmin. now split. }
    congruence.
  - apply documentText_resolves in Htext.
    destruct Htext as (_ & ps & Hall & ->). rewrite Hmin in Hall.
    rewrite Hlt. split.
    + intros [= <-]. now exists ps.
    + intros (ps' & Hall' & ->). do 2 f_equal.
      assert (H1 : readPages pdf (seq 1 10) "" = inr ("" ++ Text.pagesText 1 ps))
        by (apply readPages_resolves; now exists ps).
      assert (H2 : readPages pdf (seq 1 10) "" = inr ("" ++ Text.pagesText 1 ps'))
        by (apply readPages_resolves; now exists ps').
      rewrite H1 in H2. now injection H2.
Qed.

End PdfText.

(** A document of twelve pages whose eleventh page is damaged: the
    ten blocks of the pages 1 to 10 and the notice. *)
Lemma pdf_text_covers_first_ten_pages_witness :
  (10 < PdfService.numPages Samples.twelvePages)%nat
  /\ PdfService.extractTextFromPdf Samples.bytes true
       (fun _ => inr Samples.twelvePages) Samples.scanFile
     = inr ("[Page 1] Annual report 2024" ++ Text.newline
            ++ "[Page 2] two" ++ Text.newline
            ++ "[Page 3] " ++ Text.newline
            ++ "[Page 4] 4.1  Results" ++ Text.newline
            ++ "[Page 5] five V" ++ Text.newline
            ++ "[Page 6] six" ++ Text.newline
            ++ "[Page 7] seven of twelve" ++ Text.newline
            ++ "[Page 8] eight" ++ Text.newline
            ++ "[Page 9] nine IX" ++ Text.newline
            ++ "[Page 10] ten X 10" ++ Text.newline
            ++ Text.newline
            ++ "[...Truncated. Analysis limited to first 10 pages...]").
Proof.
  assert (Hmany : (10 < PdfService.numPages Samples.twelvePages)%nat)
    by (cbn; lia).
  split; [exact Hmany|].
  apply (proj2 (pdf_text_covers_first_ten_pages Samples.bytes
                  (fun _ => inr Samples.twelvePages) Samples.scanFile
                  (PdfService.data Samples.scanFile) Samples.twelvePages _
                  eq_refl eq_refl Hmany)).
  exists [ ["Annual"; "report"; "2024"]; ["two"]; []; ["4.1"; ""; "Results"];
           ["five"; "V"]; ["six"]; ["seven"; "of twelve"]; ["eight"];
           ["nine"; "IX"]; ["ten"; "X"; "10"] ].
  split; [|reflexivity].
  repeat (constructor; [eexists; split; reflexivity|]). constructor.
Defined.

(** C4 at a scanned page.  Its text is empty, yet the service resolves:
    the page marker alone keeps the test for an empty text from firing. *)
Lemma image_only_scan_resolves :
  JS.trim (JS.join " " []) = ""
  /\ PdfService.extractTextFromPdf Samples.bytes true
       (fun _ => inr Samples.scan) Samples.scanFile
     = inr ("[Page 1] " ++ PdfService.LF).
Proof. split; reflexivity. Qed.

(** ** [generatePdfReport] *)

Section LayoutRules.
Import ReportService Layout.

Variable pageHeight : Z.

Lemma breaksLeadBlocks_app (a b : list Call) :
  breaksLeadBlocks a -> breaksLeadBlocks b -> breaksLeadBlocks (a ++ b).
Proof.
  intros Ha Hb. induction a as [|c a IH]; [exact Hb|].
  destruct c; cbn [app breaksLeadBlocks] in *; try (now apply IH).
  destruct Ha as [Hnext Ha]. split; [|now apply IH].
  destruct a; [contradiction | exact Hnext].
Qed.

Lemma laidOut_app (a b : list Call) :
  laidOut pageHeight a -> laidOut pageHeight b -> laidOut pageHeight (a ++ b).
Proof.
  intros [Ha1 Ha2] [Hb1 Hb2]. split.
  - apply Forall_app. now split.
  - now apply breaksLeadBlocks_app.
Qed.

Lemma laidOut_nil : laidOut pageHeight [].
Proof. split; [constructor | exact I]. Qed.

Lemma laidOut_one (c : Call) :
  within pageHeight c -> isBreak c = false -> laidOut pageHeight [c].
Proof.
  intros Hc Hb. split; [now repeat constructor|].
  destruct c; cbn in *; (exact I || discriminate).
Qed.

Lemma triple_weaken {A : Type} (P Q R : Z -> Prop) (m : M A) :
  triple pageHeight P m Q -> (forall y, Q y -> R y) -> triple pageHeight P m R.
Proof. intros Hm HQR y Hy. destruct (Hm y Hy). split; auto. Qed.

Lemma triple_strengthen {A : Type} (P P' Q : Z -> Prop) (m : M A) :
  triple pageHeight P' m Q -> (forall y, P y -> P' y) -> triple pageHeight P m Q.
Proof. intros Hm HPP y Hy. apply Hm. auto. Qed.

Lemma triple_ret {A : Type} (P : Z -> Prop) (a : A) :
  triple pageHeight P (ret a) P.
Proof. intros y Hy. split; [apply laidOut_nil | exact Hy]. Qed.

Lemma triple_bind {A B : Type} (P Q R : Z -> Prop) (m : M A) (k : A -> M B) :
  triple pageHeight P m Q ->
  (forall a, triple pageHeight Q (k a) R) ->
  triple pageHeight P (bind m k) R.
Proof.
  intros Hm Hk y Hy. unfold bind.
  specialize (Hm y Hy). destruct (m y) as [[a y1] out1]. cbn [fst snd] in Hm.
  destruct Hm as [Hout1 Hy1]. specialize (Hk a y1 Hy1).
  destruct (k a y1) as [[b y2] out2]. cbn [fst snd] in *.
  destruct Hk as [Hout2 Hy2]. split; [now apply laidOut_app | exact Hy2].
Qed.

Lemma triple_advance (P : Z -> Prop) (dy : Z) :
  triple pageHeight P (advance dy) (fun y => P (y - dy)).
Proof.
  intros y Hy. split; [apply laidOut_nil|]. cbn.
  now replace (y + dy - dy) with y by lia.
Qed.

Lemma triple_doc (P : Z -> Prop) (c : Z -> Call) :
  (forall y, P y -> within pageHeight (c y) /\ isBreak (c y) = false) ->
  triple pageHeight P (doc c) P.
Proof.
  intros Hc y Hy. destruct (Hc y Hy). split; [now apply laidOut_one | exact Hy].
Qed.

Lemma triple_when (P Q : Z -> Prop) (b : bool) (m : M unit) :
  triple pageHeight P m Q -> (forall y, P y -> Q y) ->
  triple pageHeight P (when b m) Q.
Proof.
  intros Hm HPQ. destruct b; [exact Hm|].
  apply triple_weaken with (Q := P); [apply triple_ret | exact HPQ].
Qed.

Lemma triple_forEach {A : Type} (I : Z -> Prop) (f : A -> M unit) (l : list A) :
  (forall a, triple pageHeight I (f a) I) ->
  triple pageHeight I (forEach f l) I.
Proof.
  intros Hf. induction l as [|a l IH]; cbn [forEach].
  - apply triple_ret.
  - eapply triple_bind; [apply Hf | intros _; exact IH].
Qed.

(** A guarded block: the check, then a call drawn at the cursor.  The
    call starts within the page, at the top margin when the check
    broke the page, and the rest runs with the reserve still free. *)
Lemma triple_guard {A : Type} (P R : Z -> Prop) (heightNeeded : Z)
      (c : Z -> Call) (k : unit -> M A) :
  0 <= heightNeeded ->
  20 + heightNeeded <= pageHeight - margin ->
  (forall y, top (c y) = Some y) ->
  (forall u, triple pageHeight
                    (fun y => y + heightNeeded <= pageHeight - margin) (k u) R) ->
  triple pageHeight P
         (bind (checkPageBreak pageHeight heightNeeded)
               (fun _ => bind (doc c) k)) R.
Proof.
  intros Hpos Hroom Htop Hk y _. unfold bind, checkPageBreak, doc.
  assert (Hdraw : forall y', isBreak (c y') = false).
  { intros y'. specialize (Htop y'). now destruct (c y'). }
  destruct (y + heightNeeded >? pageHeight - margin) eqn:Hcmp.
  - specialize (Hk tt 20 Hroom). destruct (k tt 20) as [[b y2] out2].
    cbn [fst snd] in *. destruct Hk as [[Hin Hbr] Hy2].
    split; [|exact Hy2]. split.
    + constructor; [exact I|]. constructor; [|exact Hin].
      unfold within. rewrite Htop. lia.
    + cbn [app breaksLeadBlocks]. rewrite Htop. split; [reflexivity|].
      pose proof (Hdraw 20) as Hd. destruct (c 20); cbn in Hd;
        (exact Hbr || discriminate).
  - assert (Hfit : y + heightNeeded <= pageHeight - margin)
      by (rewrite Z.gtb_ltb in Hcmp; apply Z.ltb_ge in Hcmp; exact Hcmp).
    specialize (Hk tt y Hfit). destruct (k tt y) as [[b y2] out2].
    cbn [fst snd] in *. destruct Hk as [[Hin Hbr] Hy2].
    split; [|exact Hy2]. split.
    + cbn [app]. constructor; [|exact Hin]. unfold within. rewrite Htop. lia.
    + cbn [app]. pose proof (Hdraw y) as Hd. destruct (c y); cbn in Hd;
        (exact Hbr || discriminate).
Qed.

End LayoutRules.

Section Report.
Import Types ReportService Layout.

Variable pageWidth pageHeight : Z.
Variable splitTextToSize : Font -> string -> Z -> list string.
Variable getTextWidth : Font -> string -> Z.
Variable percent show : number -> string.
Variable bullet : string.

(** The page is tall enough for the fixed first blocks (the summary
    text starts at 98) and for the largest reserve below the top
    margin. *)
Hypothesis tall : 118 <= pageHeight.

Local Abbreviation triple := (Layout.triple pageHeight).
Local Abbreviation anywhere := (fun _ : Z => True).

Ltac drawn :=
  let y := fresh "y" in
  let Hy := fresh "Hy" in
  intros y Hy; cbv beta in Hy; split;
  [ unfold within; cbn [top]; unfold margin in *; lia | reflexivity ].

Ltac layout_step :=
  first
    [ eapply triple_guard;
      [ lia | unfold margin; lia | intros; reflexivity | intros _ ]
    | eapply triple_bind; [ apply triple_advance | intros _ ]
    | eapply triple_bind; [ apply triple_doc; drawn | intros _ ] ].

Ltac finish := intros; exact I.

Lemma evidenceLine_laidOut (ev : Evidence) :
  triple anywhere (evidenceLine pageHeight getTextWidth bullet ev) anywhere.
Proof.
  unfold evidenceLine. cbv zeta. repeat layout_step.
  apply triple_when; [|finish].
  layout_step.
  eapply triple_weaken; [apply triple_advance | finish].
Qed.

Lemma evidenceBlock_laidOut (evs : list Evidence) :
  triple anywhere (evidenceBlock pageHeight getTextWidth bullet evs) anywhere.
Proof.
  unfold evidenceBlock. repeat layout_step.
  eapply triple_bind.
  - eapply triple_strengthen with (P' := anywhere); [|finish].
    apply triple_forEach. intros ev. apply evidenceLine_laidOut.
  - intros _. eapply triple_weaken; [apply triple_advance | finish].
Qed.

Lemma claimBlock_laidOut (entry : nat * Claim) :
  triple anywhere
         (claimBlock pageWidth pageHeight splitTextToSize getTextWidth bullet entry)
         anywhere.
Proof.
  destruct entry as [idx claim]. unfold claimBlock. cbv zeta.
  repeat layout_step.
  eapply triple_bind.
  - apply triple_when with (Q := anywhere); [|finish].
    eapply triple_strengthen; [apply evidenceBlock_laidOut | finish].
  - intros _. eapply triple_weaken; [apply triple_advance | finish].
Qed.

Lemma detailedAnalysis_laidOut (data : FactCheckResponse) :
  triple anywhere
         (detailedAnalysis pageWidth pageHeight splitTextToSize getTextWidth
                           bullet data)
         anywhere.
Proof.
  unfold detailedAnalysis. repeat layout_step.
  eapply triple_strengthen with (P' := anywhere); [|finish].
  apply triple_forEach. intros entry. apply claimBlock_laidOut.
Qed.

Lemma body_laidOut (clock : Clock) (data : FactCheckResponse) :
  triple (fun y => y = 20)
         (body pageWidth pageHeight splitTextToSize getTextWidth percent show
               bullet clock data)
         anywhere.
Proof.
  unfold body, header, summaryBox, summaryText. cbv zeta.
  eapply triple_bind; [repeat layout_step; apply triple_advance | intros _].
  eapply triple_bind; [repeat layout_step; apply triple_advance | intros _].
  eapply triple_bind; [repeat layout_step; apply triple_advance | intros _].
  eapply triple_strengthen; [apply detailedAnalysis_laidOut | finish].
Qed.

(** The calls of the body: the two lines of the header, then calls
    that do not depend on the clock. *)
Lemma bodyCalls_header (clock : Clock) (data : FactCheckResponse) :
  bodyCalls pageWidth pageHeight splitTextToSize getTextWidth percent show
            bullet clock data
  = text (one "Instant Fact-Check Lens") margin 20 left
    :: text (one ("Generated on " ++ localeString clock)) margin 30 left
    :: snd (bind (summaryBox pageWidth percent show data)
                 (fun _ => bind (summaryText pageWidth splitTextToSize data)
                    (fun _ => detailedAnalysis pageWidth pageHeight
                                splitTextToSize getTextWidth bullet data))
                 45).
Proof.
  unfold bodyCalls, body, header.
  set (rest := bind (summaryBox pageWidth percent show data) _).
  unfold bind at 1 2 3 4. unfold doc, advance. cbn [fst snd app].
  change (20 + 10 + 15) with 45. change (20 + 10) with 30.
  destruct (rest 45) as [[u y] out]. reflexivity.
Qed.

(** The report is its body followed by the footer stamps and the save:
    calls that open no page and draw, if at all, at [pageHeight - 10]. *)
Lemma report_is_body_then_stamps (clock : Clock) (data : FactCheckResponse) :
  exists stamps,
    generatePdfReport pageWidth pageHeight splitTextToSize getTextWidth
                      percent show bullet clock data
    = (bodyCalls pageWidth pageHeight splitTextToSize getTextWidth percent
                 show bullet clock data ++ stamps)%list
    /\ Forall (fun c => isBreak c = false
                        /\ (top c = None \/ top c = Some (pageHeight - 10)))
              stamps.
Proof.
  eexists. split; [reflexivity|].
  apply Forall_app. split.
  - apply Forall_flat_map, Forall_forall. intros i _. unfold footer.
    constructor; [split; [reflexivity | left; reflexivity]|].
    constructor; [split; [reflexivity | right; reflexivity]|]. constructor.
  - constructor; [split; [reflexivity | left; reflexivity] | constructor].
Qed.

(** C7.  Two runs on the same result, page geometry and measuring
    functions, under any two readings of the clock, issue calls that
    agree on everything but the printed text and the file name: the
    same blocks at the same heights, the same page breaks, the same
    footers. *)
Theorem layout_ignores_the_clock (clock1 clock2 : Clock)
        (data : FactCheckResponse) :
  map layoutOf
      (generatePdfReport pageWidth pageHeight splitTextToSize getTextWidth
                         percent show bullet clock1 data)
  = map layoutOf
        (generatePdfReport pageWidth pageHeight splitTextToSize getTextWidth
                           percent show bullet clock2 data).
Proof.
  unfold generatePdfReport. cbv zeta. rewrite !bodyCalls_header.
  unfold numberOfPages. cbn [filter]. rewrite !map_app.
  cbn [map layoutOf one]. reflexivity.
Qed.

End Report.

Section Paginator.
Import Types ReportService Layout Pagination.

Variable pageWidth : Z.
Variable splitTextToSize : Font -> string -> Z -> list string.
Variable getTextWidth : Font -> string -> Z.
Variable percent show : number -> string.
Variable bullet : string.

Lemma thenAdvance_reserves (dy : Z) (blocks : list Block) :
  map reserve (thenAdvance dy blocks) = map reserve blocks.
Proof.
  induction blocks as [|b [|b' rest] IH]; try reflexivity.
  change (thenAdvance dy (b :: b' :: rest)) with (b :: thenAdvance dy (b' :: rest)).
  cbn [map]. now rewrite IH.
Qed.

Lemma thenAdvance_Forall (P : Block -> Prop) (dy : Z) (blocks : list Block) :
  (forall b, P b -> P (followedBy dy b)) ->
  Forall P blocks -> Forall P (thenAdvance dy blocks).
Proof.
  intros Hstep Hall. induction blocks as [|b [|b' rest] IH].
  - constructor.
  - inversion Hall; subst. constructor; [now apply Hstep | constructor].
  - change (thenAdvance dy (b :: b' :: rest))
      with (b :: thenAdvance dy (b' :: rest)).
    inversion Hall; subst. constructor; [assumption | now apply IH].
Qed.

Lemma followedBy_headed (dy : Z) (b : Block) :
  headedAtCursor b -> headedAtCursor (followedBy dy b).
Proof. intros Hb y. exact (Hb y). Qed.

Section OnePage.

Variable pageHeight : Z.

Local Abbreviation runs := (Pagination.runs pageHeight).
Local Abbreviation paginate := (Pagination.paginate pageHeight).
Local Abbreviation cursorAfter := (Pagination.cursorAfter pageHeight).
Local Abbreviation checkPageBreak := (ReportService.checkPageBreak pageHeight).

Lemma paginate_app (a b : list Block) (y : Z) :
  paginate (a ++ b) y = (paginate a y ++ paginate b (cursorAfter a y))%list
  /\ cursorAfter (a ++ b) y = cursorAfter b (cursorAfter a y).
Proof.
  revert y. induction a as [|c a IH]; intros y; [now split|].
  cbn [List.app Pagination.paginate Pagination.cursorAfter].
  destruct (y + reserve c >? pageHeight - margin).
  - destruct (IH (20 + height c)) as [-> ->].
    split; [|reflexivity]. cbn [List.app]. now rewrite app_assoc.
  - destruct (IH (y + height c)) as [-> ->].
    split; [|reflexivity]. now rewrite app_assoc.
Qed.

Lemma paginate_thenAdvance (dy : Z) (blocks : list Block) (y : Z) :
  blocks <> [] ->
  paginate (thenAdvance dy blocks) y = paginate blocks y
  /\ cursorAfter (thenAdvance dy blocks) y = cursorAfter blocks y + dy.
Proof.
  intros Hsome. revert y. induction blocks as [|b [|b' rest] IH]; intros y.
  - now contradiction Hsome.
  - cbn [thenAdvance Pagination.paginate Pagination.cursorAfter followedBy
             reserve draw height].
    destruct (y + reserve b >? pageHeight - margin); split;
      (reflexivity || lia).
  - change (thenAdvance dy (b :: b' :: rest))
      with (b :: thenAdvance dy (b' :: rest)).
    cbn [Pagination.paginate Pagination.cursorAfter].
    destruct (y + reserve b >? pageHeight - margin).
    + destruct (IH ltac:(discriminate) (20 + height b)) as [-> ->]. now split.
    + destruct (IH ltac:(discriminate) (y + height b)) as [-> ->]. now split.
Qed.

Lemma runs_ext (m m' : M unit) (blocks : list Block) :
  (forall y, m y = m' y) -> runs m' blocks -> runs m blocks.
Proof. intros Hsame Hrun y. rewrite Hsame. apply Hrun. Qed.

Lemma runs_ret : runs (ret tt) [].
Proof. intros y. split; reflexivity. Qed.

Lemma runs_bind (m1 m2 : M unit) (b1 b2 : list Block) :
  runs m1 b1 -> runs m2 b2 -> runs (bind m1 (fun _ => m2)) (b1 ++ b2).
Proof.
  intros H1 H2 y. unfold bind. destruct (H1 y) as [Hout1 Hy1].
  destruct (m1 y) as [[u y1] out1]. cbn [fst snd] in *. subst.
  destruct (H2 (cursorAfter b1 y)) as [Hout2 Hy2].
  destruct (m2 (cursorAfter b1 y)) as [[v y2] out2]. cbn [fst snd] in *. subst.
  destruct (paginate_app b1 b2 y) as [-> ->]. now split.
Qed.

Lemma runs_forEach {A : Type} (f : A -> M unit) (g : A -> list Block)
      (l : list A) :
  (forall a, runs (f a) (g a)) -> runs (forEach f l) (flat_map g l).
Proof.
  intros Hf. induction l as [|a l IH]; cbn [forEach flat_map].
  - apply runs_ret.
  - now apply runs_bind.
Qed.

Lemma runs_forEach_each {A : Type} (f : A -> M unit) (g : A -> Block)
      (l : list A) :
  (forall a, runs (f a) [g a]) -> runs (forEach f l) (map g l).
Proof.
  intros Hf. induction l as [|a l IH]; cbn [forEach map].
  - apply runs_ret.
  - change (g a :: map g l) with ([g a] ++ map g l)%list. now apply runs_bind.
Qed.

Lemma runs_advance (m : M unit) (dy : Z) (blocks : list Block) :
  blocks <> [] ->
  runs m blocks -> runs (bind m (fun _ => advance dy)) (thenAdvance dy blocks).
Proof.
  intros Hsome Hrun y. unfold bind, advance. destruct (Hrun y) as [Hout Hy].
  destruct (m y) as [[u y1] out1]. cbn [fst snd] in *. subst.
  destruct (paginate_thenAdvance dy blocks y Hsome) as [-> ->].
  now rewrite app_nil_r.
Qed.

(** A check followed by the code of a block is the paginator on that
    block: the code draws the calls of the block from the cursor the
    check leaves, and advances by the height of the block. *)
Lemma runs_block (b : Block) (m : M unit) :
  (forall y, snd (m y) = draw b y /\ snd (fst (m y)) = y + height b) ->
  runs (bind (checkPageBreak (reserve b)) (fun _ => m)) [b].
Proof.
  intros Hm y. unfold bind, ReportService.checkPageBreak.
  cbn [Pagination.paginate Pagination.cursorAfter].
  destruct (y + reserve b >? pageHeight - margin).
  - destruct (Hm 20) as [Hout Hy]. destruct (m 20) as [[u y1] out1].
    cbn [fst snd] in *. subst. now rewrite app_nil_r.
  - destruct (Hm y) as [Hout Hy]. destruct (m y) as [[u y1] out1].
    cbn [fst snd] in *. subst. now rewrite app_nil_r.
Qed.

Lemma evidenceLine_runs (ev : Evidence) :
  runs (evidenceLine pageHeight getTextWidth bullet ev)
       [evidenceEntry getTextWidth bullet ev].
Proof.
  apply (runs_block (evidenceEntry getTextWidth bullet ev)).
  intros y. unfold bind, doc, advance, when, evidenceEntry.
  cbn [draw height fst snd List.app].
  destruct (JS.truthy (quote ev)); cbn [ret fst snd List.app];
    split; (reflexivity || lia).
Qed.

Lemma evidenceBlock_runs (evs : list Evidence) :
  runs (evidenceBlock pageHeight getTextWidth bullet evs)
       (evidenceBlocks getTextWidth bullet evs).
Proof.
  apply runs_ext
    with (m' := bind (bind (bind (checkPageBreak 30)
                              (fun _ => bind (doc (fun y =>
                                   text (one "Evidence / Proofs:")
                                        (margin + 5) y left))
                                 (fun _ => advance 6)))
                        (fun _ => forEach (evidenceLine pageHeight getTextWidth
                                                        bullet) evs))
                     (fun _ => advance 5)).
  - intros y. unfold evidenceBlock, bind, ReportService.checkPageBreak, doc, advance.
    destruct (y + 30 >? pageHeight - margin); cbn [fst snd List.app];
      destruct (forEach _ _ _) as [[u y1] out1]; reflexivity.
  - unfold evidenceBlocks. apply runs_advance; [discriminate|].
    change (evidenceHeading :: map (evidenceEntry getTextWidth bullet) evs)
      with ([evidenceHeading] ++ map (evidenceEntry getTextWidth bullet) evs)%list.
    apply runs_bind.
    + apply (runs_block evidenceHeading). intros y. split; reflexivity.
    + apply runs_forEach_each. exact evidenceLine_runs.
Qed.

Lemma claimBlock_runs (entry : nat * Claim) :
  runs (claimBlock pageWidth pageHeight splitTextToSize getTextWidth bullet entry)
       (claimBlocks pageWidth splitTextToSize getTextWidth bullet entry).
Proof.
  destruct entry as [idx claim].
  set (claimTitle := "Claim " ++ JS.string_of_nat (idx + 1) ++ ": "
                     ++ JS.toUpperCase (Verdict_name (verdict claim))).
  set (claimTextLines :=
         splitTextToSize {| style := italic; size := 11 |}
           (String JSON.dquote (claim_text claim ++ String JSON.dquote ""))
           (contentWidth pageWidth - 5)).
  set (reasoningLines :=
         splitTextToSize {| style := normal; size := 10 |}
                         (reasoning claim) (contentWidth pageWidth - 10)).
  set (evidencePart :=
         when (negb (Nat.eqb (List.length (evidence claim)) 0))
              (evidenceBlock pageHeight getTextWidth bullet (evidence claim))).
  set (headerPart :=
         bind (doc (fun y => line margin y (pageWidth - margin) y))
           (fun _ => bind (advance 5)
           (fun _ => bind (doc (fun y => text (one claimTitle) margin y left))
           (fun _ => bind (advance 7)
           (fun _ => bind (doc (fun y => text claimTextLines (margin + 5) y left))
           (fun _ => advance (lines_height claimTextLines 6 + 5))))))).
  set (reasoningPart :=
         bind (doc (fun y => text (one "Analysis:") (margin + 5) y left))
           (fun _ => bind (advance 5)
           (fun _ => bind (doc (fun y => text reasoningLines (margin + 5) y left))
           (fun _ => advance (lines_height reasoningLines 5 + 8))))).
  apply runs_ext
    with (m' := bind (bind (bind (checkPageBreak 50) (fun _ => headerPart))
                        (fun _ => bind (bind (checkPageBreak 20)
                                             (fun _ => reasoningPart))
                                       (fun _ => evidencePart)))
                     (fun _ => advance 5)).
  - intros y. unfold claimBlock. cbv zeta.
    fold claimTitle claimTextLines reasoningLines evidencePart.
    unfold headerPart, reasoningPart, bind, ReportService.checkPageBreak,
      doc, advance.
    destruct (y + 50 >? pageHeight - margin); cbn [fst snd List.app];
      match goal with
      | |- context [if ?c then _ else _] => destruct c
      end; cbn [fst snd List.app];
      destruct (evidencePart _) as [[u y1] out1]; reflexivity.
  - unfold claimBlocks. apply runs_advance; [discriminate|].
    change (claimHeader pageWidth splitTextToSize (idx, claim)
            :: reasoningParagraph pageWidth splitTextToSize (snd (idx, claim))
            :: ?rest)
      with ([claimHeader pageWidth splitTextToSize (idx, claim)]
            ++ [reasoningParagraph pageWidth splitTextToSize claim] ++ rest)%list.
    apply runs_bind; [|apply runs_bind].
    + apply (runs_block (claimHeader pageWidth splitTextToSize (idx, claim))).
      intros y. split; [reflexivity|].
      unfold headerPart, bind, doc, advance. cbn [fst snd claimHeader height].
      fold claimTextLines. lia.
    + apply (runs_block (reasoningParagraph pageWidth splitTextToSize claim)).
      intros y. split; [reflexivity|].
      unfold reasoningPart, bind, doc, advance.
      cbn [fst snd reasoningParagraph height]. fold reasoningLines. lia.
    + unfold evidencePart. cbn [snd].
      destruct (Nat.eqb (List.length (evidence claim)) 0); cbn [negb when].
      * apply runs_ret.
      * apply evidenceBlock_runs.
Qed.

Lemma detailedAnalysis_runs (data : FactCheckResponse) :
  runs (detailedAnalysis pageWidth pageHeight splitTextToSize getTextWidth
                         bullet data)
       (bodyBlocks pageWidth splitTextToSize getTextWidth bullet data).
Proof.
  apply runs_ext
    with (m' := bind (bind (checkPageBreak 20)
                        (fun _ => bind (doc (fun y =>
                             text (one "Detailed Claims Analysis") margin y left))
                           (fun _ => advance 10)))
                     (fun _ => forEach
                                 (claimBlock pageWidth pageHeight splitTextToSize
                                             getTextWidth bullet)
                                 (combine (seq 0 (List.length (claims data)))
                                          (claims data)))).
  - intros y. unfold detailedAnalysis, bind, ReportService.checkPageBreak,
      doc, advance.
    destruct (y + 20 >? pageHeight - margin); cbn [fst snd List.app];
      destruct (forEach _ _ _) as [[u y1] out1]; reflexivity.
  - unfold bodyBlocks.
    change (sectionHeading :: ?rest) with ([sectionHeading] ++ rest)%list.
    apply runs_bind.
    + apply (runs_block sectionHeading). intros y. split; reflexivity.
    + apply runs_forEach. exact claimBlock_runs.
Qed.

Lemma calls_bind (m k : M unit) (y : Z) :
  snd (bind m (fun _ => k) y) = (snd (m y) ++ snd (k (snd (fst (m y)))))%list.
Proof.
  unfold bind. destruct (m y) as [[u y1] out1]. cbn [fst snd].
  destruct (k y1) as [[v y2] out2]. reflexivity.
Qed.

Lemma bodyCalls_paginated (clock : Clock) (data : FactCheckResponse) :
  bodyCalls pageWidth pageHeight splitTextToSize getTextWidth percent show
            bullet clock data
  = (firstPage pageWidth splitTextToSize percent show clock data
     ++ paginate (bodyBlocks pageWidth splitTextToSize getTextWidth bullet data)
                 (summaryEnd pageWidth splitTextToSize percent show clock data))%list.
Proof.
  unfold firstPage, summaryEnd.
  destruct (detailedAnalysis_runs data
              (snd (fst (beforeChecks pageWidth splitTextToSize percent show
                                      clock data 20)))) as [<- _].
  rewrite <- calls_bind. unfold bodyCalls. f_equal.
  unfold body, beforeChecks.
  cbv beta iota zeta delta [bind header summaryBox summaryText doc advance].
  destruct (detailedAnalysis _ _ _ _ _ _ _) as [[u y1] out1]. reflexivity.
Qed.

End OnePage.

Lemma bodyBlocks_reserves (data : FactCheckResponse) :
  map reserve (bodyBlocks pageWidth splitTextToSize getTextWidth bullet data)
  = reserves data.
Proof.
  unfold bodyBlocks, reserves. cbn [map reserve sectionHeading]. f_equal.
  generalize (claims data) as cs. intros cs.
  change (seq 0 (List.length cs)) with (seq (0 + 0) (List.length cs)).
  generalize (0 + 0)%nat as start. intros start. revert start.
  induction cs as [|claim cs IH]; intros start.
  - reflexivity.
  - cbn [List.length seq combine flat_map]. rewrite map_app, IH. f_equal.
    unfold claimBlocks. rewrite thenAdvance_reserves. cbn [map snd].
    unfold claimHeader, reasoningParagraph. cbn [reserve]. do 2 f_equal.
    destruct (Nat.eqb (List.length (evidence claim)) 0); [reflexivity|].
    unfold evidenceBlocks. rewrite thenAdvance_reserves. cbn [map reserve evidenceHeading].
    f_equal. rewrite map_map. reflexivity.
Qed.

Lemma bodyBlocks_headed (data : FactCheckResponse) :
  Forall headedAtCursor
         (bodyBlocks pageWidth splitTextToSize getTextWidth bullet data).
Proof.
  assert (Hshape : forall b : Block,
             (forall y, exists c rest,
                 draw b y = c :: rest /\ top c = Some y
                 /\ Forall (fun c => isBreak c = false) (c :: rest)) ->
             headedAtCursor b).
  { intros b Hb y. destruct (Hb y) as (c & rest & Heq & Htop & Hno).
    split; [now exists c, rest | now rewrite Heq]. }
  unfold bodyBlocks. constructor.
  { apply Hshape. intros y. eexists _, _. split; [reflexivity|].
    split; [reflexivity | repeat constructor]. }
  apply Forall_flat_map, Forall_forall. intros [idx claim] _.
  unfold claimBlocks. apply thenAdvance_Forall; [exact (followedBy_headed 5)|].
  constructor; [|constructor].
  - apply Hshape. intros y. eexists _, _. split; [reflexivity|].
    split; [reflexivity | repeat constructor].
  - apply Hshape. intros y. eexists _, _. split; [reflexivity|].
    split; [reflexivity | repeat constructor].
  - cbn [snd]. destruct (Nat.eqb (List.length (evidence claim)) 0); [constructor|].
    unfold evidenceBlocks. apply thenAdvance_Forall; [exact (followedBy_headed 5)|].
    constructor.
    + apply Hshape. intros y. eexists _, _. split; [reflexivity|].
      split; [reflexivity | repeat constructor].
    + apply Forall_map, Forall_forall. intros ev _.
      apply Hshape. intros y. unfold evidenceEntry. cbn [draw].
      eexists _, _. split; [reflexivity|]. split; [reflexivity|].
      destruct (JS.truthy (quote ev)); repeat constructor.
Qed.

(** C6 (as amended).  The header, the verdict box and the executive
    summary are written without any check at fixed heights of the first
    page, and the summary leaves the cursor at 108 plus 6 for each of
    its lines.  What follows is what the paginator does on the blocks of
    the body: before the section heading, each claim header, each
    reasoning paragraph, each evidence heading and each evidence entry,
    the cursor plus the fixed reserve of the block (20, 50, 20, 30 and
    15) is compared with [pageHeight - margin], and when it exceeds it a
    new page is started, the cursor is reset to 20 and the block is the
    first content of that page.  On a page at least 118 high every call
    of the body that draws then starts at or above
    [pageHeight - margin], and every new page is opened right before a
    call drawn at 20.  The footers are stamped afterwards at
    [pageHeight - 10]. *)
Theorem body_blocks_start_within_page (clock : Clock) (data : FactCheckResponse) :
  let blocks := bodyBlocks pageWidth splitTextToSize getTextWidth bullet data in
  let start := summaryEnd pageWidth splitTextToSize percent show clock data in
  map top (firstPage pageWidth splitTextToSize percent show clock data)
  = [ Some 20; Some 30; Some 45; Some 55; Some 55; Some 65; Some 65;
      Some 90; Some 98 ]
  /\ start
     = 108 + 6 * Z.of_nat (List.length
                             (splitTextToSize {| style := normal; size := 11 |}
                                (explainable_summary data)
                                (contentWidth pageWidth)))
  /\ map reserve blocks = reserves data
  /\ Forall headedAtCursor blocks
  /\ forall pageHeight,
       let calls :=
         bodyCalls pageWidth pageHeight splitTextToSize getTextWidth percent
                   show bullet clock data in
       calls
       = (firstPage pageWidth splitTextToSize percent show clock data
          ++ paginate pageHeight blocks start)%list
       /\ (118 <= pageHeight ->
           Forall (within pageHeight) calls /\ breaksLeadBlocks calls)
       /\ exists stamps,
            generatePdfReport pageWidth pageHeight splitTextToSize getTextWidth
                              percent show bullet clock data
            = (calls ++ stamps)%list
            /\ Forall (fun c => isBreak c = false
                                /\ (top c = None \/ top c = Some (pageHeight - 10)))
                      stamps.
Proof.
  cbv zeta. split; [reflexivity|]. split.
  { cbv beta iota zeta delta
        [summaryEnd beforeChecks bind header summaryBox summaryText doc advance
         fst snd].
    unfold lines_height. lia. }
  split; [apply bodyBlocks_reserves|]. split; [apply bodyBlocks_headed|].
  intros pageHeight. split; [apply bodyCalls_paginated|]. split.
  - intros Htall.
    destruct (body_laidOut pageWidth pageHeight splitTextToSize getTextWidth
                           percent show bullet Htall clock data 20 eq_refl)
      as [[Hin Hbreaks] _].
    now split.
  - apply report_is_body_then_stamps.
Qed.

End Paginator.

(** On an A4 page, a report of four claims of two evidence entries
    each: two pages, every block starting within the page, the page
    break standing where the paginator puts it. *)
Lemma body_blocks_start_within_page_witness :
  Forall (Layout.within 297) (ReportSamples.a4Body ReportSamples.fourClaims)
  /\ Layout.breaksLeadBlocks (ReportSamples.a4Body ReportSamples.fourClaims)
  /\ ReportService.numberOfPages (ReportSamples.a4Body ReportSamples.fourClaims)
     = 2%nat
  /\ map Pagination.reserve
         (Pagination.bodyBlocks 210 ReportSamples.split ReportSamples.width "*"
                                ReportSamples.fourClaims)
     = [20; 50; 20; 30; 15; 15; 50; 20; 30; 15; 15;
        50; 20; 30; 15; 15; 50; 20; 30; 15; 15].
Proof.
  destruct (body_blocks_start_within_page 210 ReportSamples.split
              ReportSamples.width (fun _ => "90") ReportSamples.show "*"
              ReportSamples.morning ReportSamples.fourClaims)
    as (_ & _ & Hreserves & _ & Hrun).
  destruct (Hrun 297) as (_ & Hin & _).
  destruct (Hin ltac:(lia)) as [Hwithin Hbreaks].
  split; [exact Hwithin|]. split; [exact Hbreaks|]. split; [reflexivity|].
  rewrite Hreserves. reflexivity.
Defined.

(** C6, as stated, fails: the summary is written without any check.
    With forty lines it starts at 98 on the first page and needs 240
    more, which leaves the page, and no page was opened for it. *)
Lemma long_summary_runs_off_the_page :
  exists lines,
    nth_error (ReportSamples.a4Body ReportSamples.longSummary) 8
    = Some (ReportService.text lines 20 98 ReportService.left)
    /\ 98 + ReportService.lines_height lines 6 > 297 - ReportService.margin
    /\ existsb Layout.isBreak
         (firstn 8 (ReportSamples.a4Body ReportSamples.longSummary))
       = false.
Proof.
  eexists. split; [vm_compute; reflexivity|]. split; reflexivity.
Qed.

(** ** The session: history and state *)

Section Session.
Import PdfService App.

Variable extractTextFromPdf : File -> string + string.
Variable analyzeContent :
  string -> option string -> GeminiService.Mode
  -> string + Types.FactCheckResponse.
Variable readerFails : File -> bool.

Local Abbreviation handleSubmit_end :=
  (App.handleSubmit_end extractTextFromPdf analyzeContent readerFails).
Local Abbreviation analysisOutcome :=
  (App.analysisOutcome extractTextFromPdf analyzeContent readerFails).
Local Abbreviation reachable :=
  (App.reachable extractTextFromPdf analyzeContent readerFails).
Local Abbreviation step :=
  (App.step extractTextFromPdf analyzeContent readerFails).




Lemma idleState_shape : Schema.dataOnlyWhenComplete idleState.
Proof. split; [intros H; now contradiction H | discriminate]. Qed.

Lemma handler_preserves_shape (app app' : App) :
  handler app app' ->
  Schema.dataOnlyWhenComplete (state app) ->
  Schema.dataOnlyWhenComplete (state app').
Proof.
  intros Hrun Hshape.
  destruct Hrun as [ t app | m app | file app | file app | app | app
                   | app | app | app | h app _ | app ];
    try exact Hshape; try apply idleState_shape.
  unfold handlePdfSelect.
  destruct (negb (String.eqb (type file) "application/pdf")); exact Hshape.
Qed.

Lemma step_preserves_shape (s s' : Session) :
  step s s' ->
  Schema.dataOnlyWhenComplete (state (current s)) ->
  Schema.dataOnlyWhenComplete (state (current s')).
Proof.
  intros Hstep Hshape.
  destruct Hstep as [ app app' calls Hrun | app app' calls Hbegin
                    | captured clock_id clock_date app before after ];
    cbn [current] in *.
  - exact (handler_preserves_shape app app' Hrun Hshape).
  - unfold handleSubmit_begin in Hbegin.
    destruct (nothingToSubmit app); [discriminate|].
    injection Hbegin as <-. cbn [state setState].
    split; [intros H; now contradiction H | discriminate].
  - unfold App.handleSubmit_end.
    destruct (App.analysisOutcome _ _ _ captured) as [message|result];
      cbn [state setState].
    + split; [intros H; now contradiction H | discriminate].
    + split; [reflexivity | discriminate].
Qed.

(** X21.  The local storage is written by the settling of a successful
    analysis only, with the list then kept by the component, of at most
    ten entries. *)
Lemma storage_written_only_on_success (s s' : Session) :
  step s s' ->
  storage (current s') = storage (current s)
  \/ (storage (current s') = Some (history (current s'))
      /\ (List.length (history (current s')) <= 10)%nat
      /\ Types.status (state (current s')) = Types.complete).
Proof.
  intros Hstep.
  destruct Hstep as [ app app' calls Hrun | app app' calls Hbegin
                    | captured clock_id clock_date app before after ];
    cbn [current].
  - left.
    destruct Hrun as [ t app | m app | file app | file app | app | app
                     | app | app | app | h app _ | app ];
      try reflexivity.
    unfold handlePdfSelect.
    destruct (negb (String.eqb (type file) "application/pdf")); reflexivity.
  - left. unfold handleSubmit_begin in Hbegin.
    destruct (nothingToSubmit app); [discriminate|]. now injection Hbegin as <-.
  - unfold App.handleSubmit_end.
    destruct (App.analysisOutcome _ _ _ captured) as [message|result].
    + left. reflexivity.
    + right. split; [reflexivity|]. split; [|reflexivity].
      cbn [setState addToHistory setStorage setHistory history].
      rewrite length_firstn. lia.
Qed.

(** C10.  In every state the session reaches, [data] is set exactly
    when the status is [complete]; and every event from such a state
    that leaves the session idle, analyzing or in error leaves it
    without a result. *)
Theorem data_only_when_complete (s : Session) :
  reachable s ->
  (Types.data (state (current s)) <> None
   <-> Types.status (state (current s)) = Types.complete)
  /\ (forall s',
        step s s' ->
        Types.status (state (current s')) <> Types.complete ->
        Types.data (state (current s')) = None).
Proof.
  intros Hreach.
  assert (Hshape : Schema.dataOnlyWhenComplete (state (current s))).
  { induction Hreach as [stored | s s' _ IH Hstep].
    - apply idleState_shape.
    - exact (step_preserves_shape s s' Hstep IH). }
  split; [exact Hshape|].
  intros s' Hstep Hstatus.
  destruct (step_preserves_shape s s' Hstep Hshape) as [Hdata _].
  destruct (Types.data (state (current s'))) as [result|]; [|reflexivity].
  exfalso. apply Hstatus, Hdata. discriminate.
Qed.

End Session.

(** C8 at a PNG file.  The file's type is [image/png]; [handleSubmit]
    hands its bytes alone to [analyzeContent], which tags them
    [image/jpeg]. *)
Lemma png_is_sent_as_jpeg :
  PdfService.type Samples.pngFile = "image/png"
  /\ App.analysisArguments SessionSamples.pdfText SessionSamples.readerWorks
       Samples.pngSubmission
     = inr ("", Some "iVBORw0KGgo=", GeminiService.standard)
  /\ GeminiService.buildParts "" (Some "iVBORw0KGgo=") GeminiService.standard
     = [ GeminiService.inlineData "iVBORw0KGgo=" "image/jpeg";
         GeminiService.text "Analyze this image. " ].
Proof. repeat split. Qed.



(** A session that typed a query, submitted it and received the answer
    is in the [complete] state and holds the result. *)
Lemma data_only_when_complete_witness :
  App.reachable SessionSamples.pdfText SessionSamples.analysis
                SessionSamples.readerWorks
                {| App.current := SessionSamples.answered; App.awaiting := [] |}
  /\ Types.status (App.state SessionSamples.answered) = Types.complete
  /\ Types.data (App.state SessionSamples.answered) <> None.
Proof.
  assert (Hreach : App.reachable SessionSamples.pdfText SessionSamples.analysis
                     SessionSamples.readerWorks
                     {| App.current := SessionSamples.answered;
                        App.awaiting := [] |}).
  { eapply App.reachable_step;
      [|apply (App.step_settle _ _ _ SessionSamples.typed _ _ _ [] [])].
    eapply App.reachable_step;
      [|apply (App.step_submit _ _ _ SessionSamples.typed); reflexivity].
    eapply App.reachable_step;
      [ apply (App.reachable_initial _ _ _ None)
      | apply App.step_handler, App.on_input ]. }
  split; [exact Hreach|]. split; [reflexivity|].
  apply (proj1 (data_only_when_complete SessionSamples.pdfText
                  SessionSamples.analysis SessionSamples.readerWorks
                  _ Hreach)).
  reflexivity.
Defined.

(* ================================================================== *)
(** * Further properties of the code *)
(* ================================================================== *)

(** ** [analyzeContent]: the prompt, the early failures, the messages *)

Section Prompt.
Import JSON GeminiService.

Lemma strip_spec (p s r : string) : strip p s = Some r <-> s = p ++ r.
Proof.
  revert s. induction p as [|a p IH]; intros s; cbn [strip append].
  - split; [now intros [= ->] | now intros ->].
  - destruct s as [|b s].
    + split; discriminate.
    + destruct (Ascii.eqb a b) eqn:Hab.
      * apply Ascii.eqb_eq in Hab as ->. rewrite IH.
        split; [now intros -> | now intros [= ->]].
      * apply Ascii.eqb_neq in Hab. split; [discriminate | intros [= -> _]].
        now contradiction Hab.
Qed.

Lemma urlBody_spec (r : string) :
  urlBody r = true
  <-> r <> "" /\ Text.occurs " " r = false /\ Text.occurs dquote r = false.
Proof.
  induction r as [|c r IH]; cbn [urlBody Text.occurs].
  - split; [discriminate | intros [H _]; now contradiction H].
  - destruct (Ascii.eqb c " ") eqn:Hspace; cbn [negb andb orb].
    { split; [discriminate | intros (_ & H & _); discriminate H]. }
    destruct (Ascii.eqb c dquote) eqn:Hquote; cbn [negb andb orb].
    { split; [discriminate | intros (_ & _ & H); discriminate H]. }
    destruct r as [|d r].
    + split; [intros _; repeat split; discriminate | reflexivity].
    + rewrite IH. split.
      * intros (_ & H1 & H2). repeat split; (discriminate || assumption).
      * intros (_ & H1 & H2). repeat split; (discriminate || assumption).
Qed.

(** X1.  The test for a bare URL accepts exactly the texts made of
    [http://] or [https://] followed, up to the end, by one or more
    characters none of which is a space or a double quote. *)
Theorem isUrl_accepts_exactly (s : string) :
  isUrl s = true
  <-> exists r,
        (s = "http://" ++ r \/ s = "https://" ++ r)
        /\ r <> "" /\ Text.occurs " " r = false /\ Text.occurs dquote r = false.
Proof.
  unfold isUrl. split.
  - destruct (strip "http://" s) as [r|] eqn:Hhttp.
    + intros Hbody. exists r. split; [left; now apply strip_spec|].
      now apply urlBody_spec.
    + destruct (strip "https://" s) as [r|] eqn:Hhttps; [|discriminate].
      intros Hbody. exists r. split; [right; now apply strip_spec|].
      now apply urlBody_spec.
  - intros (r & [-> | ->] & Hbody).
    + assert (H : strip "http://" ("http://" ++ r) = Some r) by now apply strip_spec.
      rewrite H. now apply urlBody_spec.
    + assert (H : strip "https://" ("https://" ++ r) = Some r) by now apply strip_spec.
      rewrite H. cbn. now apply urlBody_spec.
Qed.

Lemma prefix_append (t b : string) : String.prefix t (t ++ b) = true.
Proof.
  induction t as [|c t IH]; cbn [append String.prefix].
  - destruct b; reflexivity.
  - destruct (ascii_dec c c) as [_|Hne]; [exact IH | now contradiction Hne].
Qed.

Lemma indexOf_from_found (a t b : string) (i : Z) :
  0 <= i -> 0 <= JS.indexOf_from i (a ++ t ++ b) t.
Proof.
  revert i. induction a as [|c a IH]; intros i Hi.
  - cbn [append]. destruct (t ++ b) as [|d r] eqn:Htb.
    + cbn [JS.indexOf_from]. rewrite <- Htb, prefix_append. exact Hi.
    + cbn [JS.indexOf_from]. rewrite <- Htb, prefix_append. exact Hi.
  - cbn [append JS.indexOf_from].
    destruct (String.prefix t (String c (a ++ t ++ b))); [exact Hi|].
    apply IH. lia.
Qed.

(** A text includes each of its parts. *)
Lemma includes_part (a t b : string) : JS.includes (a ++ t ++ b) t = true.
Proof.
  unfold JS.includes, JS.indexOf.
  pose proof (indexOf_from_found a t b 0 (Z.le_refl 0)) as H.
  apply Bool.negb_true_iff, Z.eqb_neq. lia.
Qed.

(** X2.  The parts of the request are the image, when one that is not
    empty is given, tagged [image/jpeg], followed by exactly one text
    part; without such an image they are the text part alone.  In both
    cases the text part includes the user's text as it was typed. *)
Theorem prompt_carries_the_text (t : string) (imageBase64 : option string)
        (mode : Mode) :
  exists prompt,
    JS.includes prompt t = true
    /\ buildParts t imageBase64 mode
       = match imageBase64 with
         | Some data =>
             if JS.truthy data
             then [inlineData data "image/jpeg"; text prompt]
             else [text prompt]
         | None => [text prompt]
         end.
Proof.
  unfold buildParts.
  set (promptPrefix := match mode with deep => deepPrefix | standard => "" end).
  assert (Hplain :
            exists prompt,
              JS.includes prompt t = true
              /\ (if isUrl (JS.trim t)
                  then [ text (promptPrefix ++ "Analyze the content at this URL: "
                               ++ t ++ ". Extract claims and verify them.") ]
                  else [ text (promptPrefix ++ t) ])
                 = [text prompt]).
  { destruct (isUrl (JS.trim t)).
    - eexists. split; [|reflexivity].
      rewrite <- append_assoc. apply includes_part.
    - eexists. split; [|reflexivity].
      rewrite <- (append_empty_r t) at 1. apply includes_part. }
  destruct imageBase64 as [[|c data]|]; cbn [JS.truthy]; try exact Hplain.
  eexists. split; [|reflexivity].
  destruct t as [|d t]; cbn [JS.truthy].
  - apply (includes_part promptPrefix "" ("Analyze this image. " ++ "")).
  - replace (promptPrefix ++ "Analyze this image. " ++ "Context: " ++ String d t)
      with ((promptPrefix ++ "Analyze this image. " ++ "Context: ")
            ++ String d t ++ "")
      by (rewrite append_empty_r, !append_assoc; reflexivity).
    apply includes_part.
Qed.

End Prompt.

Section Outcome.
Import JSON GeminiService.

Variable JSON_parse : string -> option json.
Variable generateContent : Request -> string + option string.

Local Abbreviation request t imageBase64 mode :=
  {| model := modelId mode; parts := buildParts t imageBase64 mode |}.

Lemma truthy_nonempty (s : string) : JS.truthy s = true <-> s <> "".
Proof. destruct s; cbn; split; (discriminate || reflexivity || now intros H). Qed.

Lemma truthy_append_r (a b : string) : JS.truthy b = true -> JS.truthy (a ++ b) = true.
Proof. destruct a; [trivial | reflexivity]. Qed.

(** The message of the outer [catch] is never empty. *)
Lemma userMessage_truthy (message : string) : JS.truthy (userMessage message) = true.
Proof.
  unfold userMessage. destruct (JS.truthy message) eqn:Hm; [|reflexivity].
  repeat match goal with
         | |- context [if ?b then _ else _] => destruct b; try reflexivity
         end; try exact Hm.
Qed.

(** X3.  [analyzeContent] resolves to a value exactly when a key is
    configured, the service answers with a text that is not empty, and
    the extraction returns that value from the text. *)
Theorem analyzeContent_resolves_exactly
        (API_KEY : option string) (t : string) (imageBase64 : option string)
        (mode : Mode) (v : json) :
  analyzeContent JSON_parse API_KEY generateContent t imageBase64 mode = inr v
  <-> ((exists key, API_KEY = Some key /\ key <> "")
       /\ exists resultText,
            generateContent (request t imageBase64 mode) = inr (Some resultText)
            /\ resultText <> ""
            /\ extractJson JSON_parse resultText = inr v).
Proof.
  unfold analyzeContent, analyze, getAiClient, parseResponse. split.
  - destruct API_KEY as [[|k key]|]; try discriminate.
    destruct (generateContent _) as [message|[[|c resultText]|]] eqn:Hgen;
      try discriminate.
    destruct (extractJson JSON_parse (String c resultText)) as [e|w] eqn:Hex;
      [discriminate|].
    intros [= ->]. split; [exists (String k key); split; [reflexivity | discriminate]|].
    exists (String c resultText). repeat split; (assumption || discriminate).
  - intros ((key & -> & Hkey) & resultText & Hgen & Htext & Hex).
    destruct key as [|k key]; [congruence|]. rewrite Hgen.
    destruct resultText as [|c resultText]; [congruence|]. now rewrite Hex.
Qed.

(** X4.  Without a key, or with an empty key, [analyzeContent] rejects
    with the message of the configuration error, whatever the input and
    whatever the service would have answered. *)
Theorem missing_key_is_a_configuration_error
        (API_KEY : option string) (t : string) (imageBase64 : option string)
        (mode : Mode) :
  API_KEY = None \/ API_KEY = Some "" ->
  analyzeContent JSON_parse API_KEY generateContent t imageBase64 mode
  = inl "API Key configuration error. Please check your environment.".
Proof. intros [-> | ->]; reflexivity. Qed.

(** X5.  With a key, a response without text, or with an empty text,
    makes [analyzeContent] reject with the message of the empty
    response, which the outer [catch] hands on unchanged. *)
Theorem empty_response_is_reported
        (key : string) (t : string) (imageBase64 : option string) (mode : Mode) :
  key <> "" ->
  generateContent (request t imageBase64 mode) = inr None
  \/ generateContent (request t imageBase64 mode) = inr (Some "") ->
  analyzeContent JSON_parse (Some key) generateContent t imageBase64 mode
  = inl "Received empty response from the model.".
Proof.
  intros Hkey Hgen. unfold analyzeContent, analyze, getAiClient.
  destruct key as [|k key]; [congruence|].
  destruct Hgen as [-> | ->]; reflexivity.
Qed.

(** X6.  The error [analyzeContent] rejects with always has a message:
    a failure never reaches the caller with an empty text. *)
Theorem rejection_has_a_message
        (API_KEY : option string) (t : string) (imageBase64 : option string)
        (mode : Mode) (message : string) :
  analyzeContent JSON_parse API_KEY generateContent t imageBase64 mode
  = inl message ->
  message <> "".
Proof.
  unfold analyzeContent.
  destruct (analyze _ _ _ _ _ _) as [caught|v]; [|discriminate].
  intros [= <-]. apply truthy_nonempty, userMessage_truthy.
Qed.

End Outcome.

Lemma missing_key_is_a_configuration_error_witness :
  GeminiService.analyzeContent JSON.parse None
    (fun _ => inr (Some Samples.answerText)) "Is the moon landing fake?" None
    GeminiService.standard
  = inl "API Key configuration error. Please check your environment.".
Proof.
  apply (missing_key_is_a_configuration_error JSON.parse).
  left. reflexivity.
Defined.

Lemma empty_response_is_reported_witness :
  GeminiService.analyzeContent JSON.parse (Some "key") (fun _ => inr None)
    "Is the moon landing fake?" None GeminiService.deep
  = inl "Received empty response from the model.".
Proof.
  apply (empty_response_is_reported JSON.parse); [discriminate | now left].
Defined.

Lemma rejection_has_a_message_witness :
  GeminiService.analyzeContent JSON.parse (Some "key")
    (fun _ => inl "[429] quota exceeded") "Is the moon landing fake?" None
    GeminiService.standard
  = inl "Too many requests. Please wait a moment."
  /\ "Too many requests. Please wait a moment." <> "".
Proof.
  split; [reflexivity|].
  apply (rejection_has_a_message JSON.parse (fun _ => inl "[429] quota exceeded")
           (Some "key") "Is the moon landing fake?" None GeminiService.standard).
  reflexivity.
Defined.

(** The masking of the errors of the [try] body, at an answer that lacks
    the verdict. *)
Lemma extraction_failures_share_one_message_witness :
  GeminiService.extractJson JSON.parse (JSON.text "{'claims':[]}")
  = inl (GeminiService.Error GeminiService.missingFieldsMessage)
  /\ GeminiService.analyzeContent JSON.parse (Some "key")
       (fun _ => inr (Some (JSON.text "{'claims':[]}")))
       "Is the moon landing fake?" None GeminiService.standard
     = inl GeminiService.parseFailureMessage.
Proof.
  split; [reflexivity|].
  apply (extraction_failures_share_one_message JSON.parse "key"
           (fun _ => inr (Some (JSON.text "{'claims':[]}")))
           "Is the moon landing fake?" None GeminiService.standard
           (JSON.text "{'claims':[]}")
           (GeminiService.Error GeminiService.missingFieldsMessage));
    (discriminate || reflexivity).
Defined.

(** ** [extractTextFromPdf]: when it resolves and how it fails *)

Section PdfOutcome.
Import PdfService.

Variable arrayBuffer : File -> string + string.
Variable getDocument : string -> string + PDFDocument.

(** X8.  [extractTextFromPdf] resolves exactly when the bytes of the
    file can be read, the library is loaded, the bytes load as a
    document, the document has a page and each of its first ten pages
    can be read; the text is then the blocks of these pages in order,
    followed by the notice when the document has more than ten. *)
Theorem extractTextFromPdf_resolves_exactly
        (hasGetDocument : bool) (file : File) (fullText : string) :
  extractTextFromPdf arrayBuffer hasGetDocument getDocument file = inr fullText
  <-> exists bytes pdf ps,
        arrayBuffer file = inr bytes
        /\ hasGetDocument = true
        /\ getDocument bytes = inr pdf
        /\ (0 < numPages pdf)%nat
        /\ Forall2 (Text.reads pdf) (seq 1 (Nat.min (numPages pdf) 10)) ps
        /\ fullText
           = Text.pagesText 1 ps
             ++ (if Nat.ltb 10 (numPages pdf) then Text.truncated else "").
Proof.
  unfold extractTextFromPdf. split.
  - destruct (arrayBuffer file) as [cause|bytes] eqn:Hbytes; [discriminate|].
    destruct hasGetDocument; cbn [negb]; [|discriminate].
    destruct (getDocument bytes) as [cause|pdf] eqn:Hload; [discriminate|].
    destruct (documentText pdf) as [cause|t] eqn:Htext; [discriminate|].
    intros [= <-]. apply documentText_resolves in Htext.
    destruct Htext as (Hpos & ps & Hall & ->).
    exists bytes, pdf, ps. repeat split; assumption.
  - intros (bytes & pdf & ps & -> & -> & Hload & Hpos & Hall & ->).
    cbn [negb]. rewrite Hload.
    assert (Htext : documentText pdf
                    = inr (Text.pagesText 1 ps
                           ++ (if Nat.ltb 10 (numPages pdf)
                               then Text.truncated else ""))).
    { apply documentText_resolves. split; [exact Hpos|]. now exists ps. }
    now rewrite Htext.
Qed.

(** X9.  A document of one to ten pages, each of which can be read, is
    extracted whole: the blocks of all its pages in page order, and no
    truncation notice. *)
Theorem short_document_is_extracted_whole
        (file : File) (bytes : string) (pdf : PDFDocument)
        (ps : list (list string)) :
  arrayBuffer file = inr bytes ->
  getDocument bytes = inr pdf ->
  (0 < numPages pdf <= 10)%nat ->
  Forall2 (Text.reads pdf) (seq 1 (numPages pdf)) ps ->
  extractTextFromPdf arrayBuffer true getDocument file
  = inr (Text.pagesText 1 ps).
Proof.
  intros Hbytes Hload [Hpos Hmax] Hall. unfold extractTextFromPdf.
  rewrite Hbytes. cbn [negb]. rewrite Hload.
  assert (Htext : documentText pdf
                  = inr (Text.pagesText 1 ps
                         ++ (if Nat.ltb 10 (numPages pdf)
                             then Text.truncated else ""))).
  { apply documentText_resolves. split; [exact Hpos|]. exists ps.
    replace (Nat.min (numPages pdf) 10) with (numPages pdf) by lia.
    now split. }
  rewrite Htext.
  assert (Hlt : Nat.ltb 10 (numPages pdf) = false) by (apply Nat.ltb_ge; exact Hmax).
  now rewrite Hlt, append_empty_r.
Qed.

(** X10.  [extractTextFromPdf] rejects in five cases only: the bytes of
    the file cannot be read; the library is not loaded; the bytes do
    not load as a document; the document has no page; one of its first
    ten pages cannot be read, the pages before it having been read.
    The message is the one of the failure met, or the generic one when
    that failure has none. *)
Theorem extractTextFromPdf_rejects_exactly
        (hasGetDocument : bool) (file : File) (message : string) :
  extractTextFromPdf arrayBuffer hasGetDocument getDocument file = inl message
  <-> exists cause,
        message = (if JS.truthy cause then cause else invalidPdfMessage)
        /\ (arrayBuffer file = inl cause
            \/ exists bytes,
                 arrayBuffer file = inr bytes
                 /\ ((hasGetDocument = false /\ cause = notLoadedMessage)
                     \/ (hasGetDocument = true /\ getDocument bytes = inl cause)
                     \/ (hasGetDocument = true
                         /\ exists pdf,
                              getDocument bytes = inr pdf
                              /\ ((numPages pdf = 0%nat /\ cause = noTextMessage)
                                  \/ exists k ps,
                                       (k < Nat.min (numPages pdf) 10)%nat
                                       /\ Forall2 (Text.reads pdf) (seq 1 k) ps
                                       /\ Text.fails pdf (S k) cause)))).
Proof.
  unfold extractTextFromPdf. split.
  - destruct (arrayBuffer file) as [cause|bytes] eqn:Hbytes.
    { intros [= <-]. exists cause. split; [reflexivity | now left]. }
    destruct hasGetDocument; cbn [negb].
    + destruct (getDocument bytes) as [cause|pdf] eqn:Hload.
      { intros [= <-]. exists cause. split; [reflexivity|]. right.
        exists bytes. split; [reflexivity|]. right. left. now split. }
      destruct (documentText pdf) as [cause|t] eqn:Htext; [|discriminate].
      intros [= <-]. exists cause. split; [reflexivity|]. right.
      exists bytes. split; [reflexivity|]. right. right.
      split; [reflexivity|]. exists pdf. split; [exact Hload|].
      now apply documentText_rejects.
    + intros [= <-]. exists notLoadedMessage. split; [reflexivity|]. right.
      exists bytes. split; [reflexivity|]. left. now split.
  - intros (cause & -> & [-> | (bytes & -> & Hcase)]); [reflexivity|].
    destruct Hcase as [(-> & ->) | [(-> & ->) | (-> & pdf & -> & Hpages)]];
      cbn [negb]; try reflexivity.
    apply documentText_rejects in Hpages. now rewrite Hpages.
Qed.

End PdfOutcome.

(** Three pages whose second page loads but has no readable text
    content: the service rejects with the message of that failure. *)
Lemma extractTextFromPdf_rejects_exactly_witness :
  PdfService.extractTextFromPdf Samples.bytes true
    (fun _ => inr Samples.brokenSecondPage) Samples.scanFile
  = inl "Bad XRef entry.".
Proof.
  apply (proj2 (extractTextFromPdf_rejects_exactly Samples.bytes
                  (fun _ => inr Samples.brokenSecondPage) true
                  Samples.scanFile "Bad XRef entry.")).
  exists "Bad XRef entry.". split; [reflexivity|]. right.
  exists (PdfService.data Samples.scanFile). split; [reflexivity|].
  right. right. split; [reflexivity|].
  exists Samples.brokenSecondPage. split; [reflexivity|]. right.
  exists 1%nat, [["Title"]]. split; [cbn; lia|]. split.
  - constructor; [eexists; split; reflexivity | constructor].
  - right. eexists. split; reflexivity.
Defined.

(** Three pages, the second of several items. *)
Lemma short_document_is_extracted_whole_witness :
  PdfService.extractTextFromPdf Samples.bytes true
    (fun _ => inr Samples.threePages) Samples.scanFile
  = inr ("[Page 1] Title" ++ Text.newline
         ++ "[Page 2] Dear reader, welcome." ++ Text.newline
         ++ "[Page 3] The end" ++ Text.newline).
Proof.
  apply (short_document_is_extracted_whole Samples.bytes
           (fun _ => inr Samples.threePages) Samples.scanFile
           (PdfService.data Samples.scanFile) Samples.threePages
           [ ["Title"]; ["Dear"; "reader,"; "welcome."]; ["The"; "end"] ]
           eq_refl eq_refl).
  - cbn. lia.
  - repeat (constructor; [eexists; split; reflexivity|]). constructor.
Defined.

(** ** [generatePdfReport]: links, footers, quotes, content *)

Section TraceRules.
Import ReportService Trace.

Lemma snd_bind {A B : Type} (m : M A) (k : A -> M B) (y : Z) :
  snd (bind m k y)
  = (snd (m y) ++ snd (k (fst (fst (m y))) (snd (fst (m y)))))%list.
Proof.
  unfold bind. destruct (m y) as [[a y1] out1]. cbn [fst snd].
  destruct (k a y1) as [[b y2] out2]. reflexivity.
Qed.

Lemma cursor_bind {A B : Type} (m : M A) (k : A -> M B) (y : Z) :
  snd (fst (bind m k y))
  = snd (fst (k (fst (fst (m y))) (snd (fst (m y))))).
Proof.
  unfold bind. destruct (m y) as [[a y1] out1]. cbn [fst snd].
  destruct (k a y1) as [[b y2] out2]. reflexivity.
Qed.

Context {X : Type} (f : Call -> list X).

Lemma yields_eq {A : Type} (m : M A) (l l' : list X) :
  yields f m l' -> l' = l -> yields f m l.
Proof. now intros H <-. Qed.

Lemma yields_ret {A : Type} (a : A) : yields f (ret a) [].
Proof. intros y. reflexivity. Qed.

Lemma yields_bind {A B : Type} (m : M A) (k : A -> M B) (l1 l2 : list X) :
  yields f m l1 -> (forall a, yields f (k a) l2) ->
  yields f (bind m k) (l1 ++ l2).
Proof.
  intros Hm Hk y. rewrite snd_bind, flat_map_app, Hm, Hk. reflexivity.
Qed.

Lemma yields_advance (dy : Z) : yields f (advance dy) [].
Proof. intros y. reflexivity. Qed.

Lemma yields_doc (c : Z -> Call) (l : list X) :
  (forall y, f (c y) = l) -> yields f (doc c) l.
Proof. intros Hc y. cbn. now rewrite Hc, app_nil_r. Qed.

Lemma yields_check (pageHeight heightNeeded : Z) :
  f addPage = [] -> yields f (checkPageBreak pageHeight heightNeeded) [].
Proof.
  intros Hbreak y. unfold checkPageBreak.
  destruct (y + heightNeeded >? pageHeight - margin); cbn; [now rewrite Hbreak|].
  reflexivity.
Qed.

Lemma yields_when (b : bool) (m : M unit) (l : list X) :
  yields f m l -> yields f (when b m) (if b then l else []).
Proof. intros Hm. destruct b; [exact Hm | apply yields_ret]. Qed.

Lemma yields_forEach {A : Type} (g : A -> M unit) (h : A -> list X) (l : list A) :
  (forall a, yields f (g a) (h a)) -> yields f (forEach g l) (flat_map h l).
Proof.
  intros Hg. induction l as [|a l IH]; cbn [forEach flat_map].
  - apply yields_ret.
  - apply yields_bind; [apply Hg | intros _; exact IH].
Qed.

Lemma alike_ret {A B : Type} (a : A) (b : B) : alike f (ret a) (ret b).
Proof. intros y1 y2. reflexivity. Qed.

Lemma alike_bind {A B A' B' : Type} (m1 : M A) (k1 : A -> M B)
      (m2 : M A') (k2 : A' -> M B') :
  alike f m1 m2 -> (forall a a', alike f (k1 a) (k2 a')) ->
  alike f (bind m1 k1) (bind m2 k2).
Proof.
  intros Hm Hk y1 y2. rewrite !snd_bind, !flat_map_app.
  rewrite (Hm y1 y2). f_equal. apply Hk.
Qed.

Lemma alike_advance (dy : Z) : alike f (advance dy) (advance dy).
Proof. intros y1 y2. reflexivity. Qed.

Lemma alike_doc (c : Z -> Call) :
  (forall y1 y2, f (c y1) = f (c y2)) -> alike f (doc c) (doc c).
Proof. intros Hc y1 y2. cbn. now rewrite (Hc y1 y2). Qed.

Lemma alike_check (pageHeight1 pageHeight2 heightNeeded : Z) :
  f addPage = [] ->
  alike f (checkPageBreak pageHeight1 heightNeeded)
          (checkPageBreak pageHeight2 heightNeeded).
Proof.
  intros Hbreak y1 y2. unfold checkPageBreak.
  destruct (y1 + heightNeeded >? pageHeight1 - margin);
    destruct (y2 + heightNeeded >? pageHeight2 - margin);
    cbn; rewrite ?Hbreak; reflexivity.
Qed.

Lemma alike_when (b : bool) (m1 m2 : M unit) :
  alike f m1 m2 -> alike f (when b m1) (when b m2).
Proof. intros Hm. destruct b; [exact Hm | apply alike_ret]. Qed.

Lemma alike_forEach {A : Type} (g1 g2 : A -> M unit) (l : list A) :
  (forall a, alike f (g1 a) (g2 a)) -> alike f (forEach g1 l) (forEach g2 l).
Proof.
  intros Hg. induction l as [|a l IH]; cbn [forEach].
  - apply alike_ret.
  - apply alike_bind; [apply Hg | intros _ _; exact IH].
Qed.

End TraceRules.

Section KeepsRules.
Import ReportService Trace.

Variable G : Call -> Prop.

Lemma keeps_ret {A : Type} (a : A) : keeps G (ret a).
Proof. intros y Hy. split; [constructor | exact Hy]. Qed.

Lemma keeps_bind {A B : Type} (m : M A) (k : A -> M B) :
  keeps G m -> (forall a, keeps G (k a)) -> keeps G (bind m k).
Proof.
  intros Hm Hk y Hy. rewrite snd_bind, cursor_bind.
  destruct (Hm y Hy) as [Hout1 Hy1].
  destruct (Hk (fst (fst (m y))) _ Hy1) as [Hout2 Hy2].
  split; [apply Forall_app; now split | exact Hy2].
Qed.

Lemma keeps_advance (dy : Z) : 0 <= dy -> keeps G (advance dy).
Proof. intros Hdy y Hy. split; [constructor | cbn; lia]. Qed.

Lemma keeps_doc (c : Z -> Call) :
  (forall y, 20 <= y -> G (c y)) -> keeps G (doc c).
Proof. intros Hc y Hy. split; [repeat constructor; now apply Hc | exact Hy]. Qed.

Lemma keeps_check (pageHeight heightNeeded : Z) :
  G addPage -> keeps G (checkPageBreak pageHeight heightNeeded).
Proof.
  intros Hbreak y Hy. unfold checkPageBreak.
  destruct (y + heightNeeded >? pageHeight - margin); cbn [fst snd].
  - split; [now repeat constructor | lia].
  - split; [constructor | exact Hy].
Qed.

Lemma keeps_when (b : bool) (m : M unit) : keeps G m -> keeps G (when b m).
Proof. intros Hm. destruct b; [exact Hm | apply keeps_ret]. Qed.

Lemma keeps_forEach {A : Type} (g : A -> M unit) (l : list A) :
  (forall a, keeps G (g a)) -> keeps G (forEach g l).
Proof.
  intros Hg. induction l as [|a l IH]; cbn [forEach].
  - apply keeps_ret.
  - apply keeps_bind; [apply Hg | intros _; exact IH].
Qed.

End KeepsRules.

Section ReportTrace.
Import Types ReportService Trace.

Variable pageWidth : Z.
Variable splitTextToSize : Font -> string -> Z -> list string.
Variable getTextWidth : Font -> string -> Z.
Variable percent show : number -> string.
Variable bullet : string.

Ltac reading :=
  repeat first
    [ eapply yields_bind; [ apply yields_check; reflexivity | intros _ ]
    | eapply yields_bind; [ apply yields_advance | intros _ ]
    | eapply yields_bind; [ apply yields_doc; intros; cbn; reflexivity | intros _ ] ].

Lemma flat_map_numbered {A X : Type} (h : A -> list X) (l : list A) (start : nat) :
  flat_map (fun entry : nat * A => h (snd entry))
           (combine (seq start (List.length l)) l)
  = flat_map h l.
Proof.
  revert start. induction l as [|a l IH]; intros start; [reflexivity|].
  cbn [List.length seq combine flat_map snd]. now rewrite IH.
Qed.

Lemma flat_map_singleton {A X : Type} (h : A -> X) (l : list A) :
  flat_map (fun a => [h a]) l = map h l.
Proof. induction l as [|a l IH]; [reflexivity|]. cbn. now rewrite IH. Qed.

Section OneHeight.

Variable pageHeight : Z.

Local Abbreviation theBody :=
  (body pageWidth pageHeight splitTextToSize getTextWidth percent show bullet).
Local Abbreviation theReport :=
  (generatePdfReport pageWidth pageHeight splitTextToSize getTextWidth
                     percent show bullet).

Lemma evidenceLine_links (ev : Evidence) :
  yields linkTarget (evidenceLine pageHeight getTextWidth bullet ev)
         [source_url ev].
Proof.
  unfold evidenceLine. cbv zeta. eapply yields_eq.
  - reading. apply yields_when. reading. apply yields_advance.
  - cbn [app]. now destruct (JS.truthy (quote ev)).
Qed.

Lemma claimBlock_links (entry : nat * Claim) :
  yields linkTarget
         (claimBlock pageWidth pageHeight splitTextToSize getTextWidth bullet entry)
         (map source_url (evidence (snd entry))).
Proof.
  destruct entry as [idx claim]. unfold claimBlock, evidenceBlock. cbv zeta.
  eapply yields_eq.
  - reading. eapply yields_bind; [|intros _; apply yields_advance].
    apply yields_when. reading.
    eapply yields_bind; [|intros _; apply yields_advance].
    apply yields_forEach. exact evidenceLine_links.
  - cbn [app snd]. rewrite !app_nil_r, flat_map_singleton.
    now destruct (evidence claim).
Qed.

Lemma body_links (clock : Clock) (data : FactCheckResponse) :
  yields linkTarget (theBody clock data)
         (flat_map (fun claim => map source_url (evidence claim)) (claims data)).
Proof.
  unfold body, header, summaryBox, summaryText, detailedAnalysis. cbv zeta.
  eapply yields_eq.
  - eapply yields_bind; [reading; apply yields_advance | intros _].
    eapply yields_bind; [reading; apply yields_advance | intros _].
    eapply yields_bind; [reading; apply yields_advance | intros _].
    reading. apply yields_forEach. exact claimBlock_links.
  - cbn [app].
    apply (flat_map_numbered (fun claim => map source_url (evidence claim))).
Qed.

Lemma body_stays_on_pages (clock : Clock) (data : FactCheckResponse) :
  yields pageTarget (theBody clock data) [].
Proof.
  assert (Hline : forall ev,
             yields pageTarget (evidenceLine pageHeight getTextWidth bullet ev) []).
  { intros ev. unfold evidenceLine. cbv zeta. eapply yields_eq.
    - reading. apply yields_when. reading. apply yields_advance.
    - cbn [app]. now destruct (JS.truthy (quote ev)). }
  assert (Hclaim : forall entry,
             yields pageTarget
                    (claimBlock pageWidth pageHeight splitTextToSize getTextWidth
                                bullet entry) []).
  { intros [idx claim]. unfold claimBlock, evidenceBlock. cbv zeta.
    eapply yields_eq.
    - reading. eapply yields_bind; [|intros _; apply yields_advance].
      apply yields_when. reading.
      eapply yields_bind; [|intros _; apply yields_advance].
      apply yields_forEach with (h := fun _ => []). exact Hline.
    - cbn [app]. rewrite !app_nil_r.
      destruct (negb _); [|reflexivity].
      induction (evidence claim) as [|e l IH]; [reflexivity | exact IH]. }
  unfold body, header, summaryBox, summaryText, detailedAnalysis. cbv zeta.
  eapply yields_eq.
  - eapply yields_bind; [reading; apply yields_advance | intros _].
    eapply yields_bind; [reading; apply yields_advance | intros _].
    eapply yields_bind; [reading; apply yields_advance | intros _].
    reading. apply yields_forEach with (h := fun _ => []). exact Hclaim.
  - cbn [app].
    induction (combine _ _) as [|e l IH]; [reflexivity | exact IH].
Qed.

Lemma stamps_links (n : nat) (l : list nat) :
  flat_map linkTarget (flat_map (footer pageWidth pageHeight n) l) = [].
Proof. induction l as [|i l IH]; [reflexivity | exact IH]. Qed.

Lemma stamps_pages (n : nat) (l : list nat) :
  flat_map pageTarget (flat_map (footer pageWidth pageHeight n) l) = l.
Proof. induction l as [|i l IH]; [reflexivity|]. cbn. now rewrite IH. Qed.

Lemma stamps_open_no_page (n : nat) (l : list nat) :
  filter (fun c => match c with addPage => true | _ => false end)
         (flat_map (footer pageWidth pageHeight n) l) = [].
Proof. induction l as [|i l IH]; [reflexivity | exact IH]. Qed.

(** X11.  The report registers one link per evidence item and no other:
    the targets of its links are the source URLs of the evidence of the
    claims, claim after claim, in the order of the result. *)
Theorem links_are_the_evidence_urls (clock : Clock) (data : FactCheckResponse) :
  flat_map linkTarget (theReport clock data)
  = flat_map (fun claim => map source_url (evidence claim)) (claims data).
Proof.
  unfold generatePdfReport, bodyCalls. cbv zeta.
  rewrite !flat_map_app, (body_links clock data 20), stamps_links.
  cbn. now rewrite app_nil_r.
Qed.

(** X12.  The calls of [setPage] in the report go to the pages 1, 2,
    ... up to the number of pages of the finished document, once each
    and in this order, and what follows the body is, for each page, the
    stamp of its number and of that final number of pages, then the
    save. *)
Theorem footers_number_every_page (clock : Clock) (data : FactCheckResponse) :
  let report := theReport clock data in
  let total := numberOfPages report in
  flat_map pageTarget report = seq 1 total
  /\ report
     = (bodyCalls pageWidth pageHeight splitTextToSize getTextWidth percent show
                  bullet clock data
        ++ flat_map (footer pageWidth pageHeight total) (seq 1 total)
        ++ [save ("FactCheck-Report-" ++ JS.string_of_Z (now clock) ++ ".pdf")])%list.
Proof.
  cbv zeta.
  assert (Htotal : numberOfPages (theReport clock data)
                   = numberOfPages
                       (bodyCalls pageWidth pageHeight splitTextToSize getTextWidth
                                  percent show bullet clock data)).
  { unfold generatePdfReport, numberOfPages. cbv zeta.
    rewrite !filter_app, stamps_open_no_page. cbn [filter].
    now rewrite !app_nil_r. }
  rewrite Htotal. split; [|reflexivity].
  unfold generatePdfReport, bodyCalls. cbv zeta.
  rewrite !flat_map_app, (body_stays_on_pages clock data 20), stamps_pages.
  cbn. now rewrite app_nil_r.
Qed.

End OneHeight.
End ReportTrace.

Section QuoteLine.
Import ReportService.

Lemma substring_head_all (n : nat) (s : string) :
  (String.length s <= n)%nat -> String.substring 0 n s = s.
Proof.
  revert n. induction s as [|c s IH]; intros n Hn.
  - destruct n; reflexivity.
  - destruct n as [|n]; cbn [String.length] in Hn; [lia|].
    cbn [String.substring]. rewrite IH by lia. reflexivity.
Qed.

Lemma substring_head_cut (n : nat) (s : string) :
  (n <= String.length s)%nat -> String.length (String.substring 0 n s) = n.
Proof.
  revert s. induction n as [|n IH]; intros s Hn.
  - destruct s; reflexivity.
  - destruct s as [|c s]; cbn [String.length] in Hn; [lia|].
    cbn [String.substring String.length]. now rewrite IH by lia.
Qed.

Lemma JS_substring_head (s : string) (n : Z) :
  0 <= n ->
  JS.substring s 0 n = String.substring 0 (Z.to_nat (Z.min n (JS.len s))) s.
Proof.
  intros Hn. unfold JS.substring, JS.len.
  replace (Z.to_nat (Z.min _ _)) with 0%nat by lia.
  f_equal. lia.
Qed.

(** X13.  The line printed for a quote is the quote between double
    quotes after two spaces when the quote has at most 100 characters;
    a longer quote is cut to its first 100 characters followed by three
    dots, so that the line never has more than 107 characters. *)
Theorem quoteLine_is_bounded (q : string) :
  JS.len (quoteLine q) <= 107
  /\ (JS.len q <= 100 ->
      quoteLine q = "  " ++ String JSON.dquote q ++ String JSON.dquote "")
  /\ (100 < JS.len q ->
      quoteLine q
      = "  " ++ String JSON.dquote (String.substring 0 100 q)
             ++ "..." ++ String JSON.dquote ""
      /\ JS.len (quoteLine q) = 107).
Proof.
  unfold quoteLine. rewrite JS_substring_head by lia.
  destruct (JS.len q >? 100) eqn:Hlong.
  - rewrite Z.gtb_ltb in Hlong. apply Z.ltb_lt in Hlong.
    replace (Z.to_nat (Z.min 100 (JS.len q))) with 100%nat by lia.
    assert (Hlen : JS.len ("  " ++ String JSON.dquote (String.substring 0 100 q)
                           ++ "..." ++ String JSON.dquote "") = 107).
    { unfold JS.len in *. cbn [append String.length].
      rewrite length_append, substring_head_cut by lia. cbn [String.length]. lia. }
    split; [lia|]. split; [lia|]. intros _. split; [reflexivity | exact Hlen].
  - rewrite Z.gtb_ltb in Hlong. apply Z.ltb_ge in Hlong.
    assert (Hall : String.substring 0 (Z.to_nat (Z.min 100 (JS.len q))) q = q).
    { apply substring_head_all. unfold JS.len in *. lia. }
    rewrite Hall. split; [|split; [reflexivity | lia]].
    unfold JS.len in *. cbn [append String.length].
    rewrite length_append. cbn [String.length]. lia.
Qed.

End QuoteLine.

Section ReportBounds.
Import Types ReportService Trace.

Variable pageWidth : Z.
Variable splitTextToSize : Font -> string -> Z -> list string.
Variable getTextWidth : Font -> string -> Z.
Variable percent show : number -> string.
Variable bullet : string.

Lemma lines_height_nonneg (ls : list string) (pitch : Z) :
  0 <= pitch -> 0 <= lines_height ls pitch.
Proof. intros Hp. unfold lines_height. nia. Qed.

Ltac staying :=
  repeat first
    [ eapply keeps_bind; [ apply keeps_check; exact I | intros _ ]
    | eapply keeps_bind;
      [ apply keeps_advance;
        first [ lia
              | match goal with
                | |- context [lines_height ?ls ?pitch] =>
                    pose proof (lines_height_nonneg ls pitch); lia
                end ]
      | intros _ ]
    | eapply keeps_bind;
      [ apply keeps_doc; intros; cbn [belowTop]; unfold margin; lia
      | intros _ ] ].

Lemma evidenceLine_belowTop (pageHeight : Z) (ev : Evidence) :
  keeps belowTop (evidenceLine pageHeight getTextWidth bullet ev).
Proof.
  unfold evidenceLine. cbv zeta. staying.
  apply keeps_when. staying. apply keeps_advance. lia.
Qed.

Lemma claimBlock_belowTop (pageHeight : Z) (entry : nat * Claim) :
  keeps belowTop
        (claimBlock pageWidth pageHeight splitTextToSize getTextWidth bullet entry).
Proof.
  destruct entry as [idx claim]. unfold claimBlock, evidenceBlock. cbv zeta.
  staying. eapply keeps_bind; [|intros _; apply keeps_advance; lia].
  apply keeps_when. staying.
  eapply keeps_bind; [|intros _; apply keeps_advance; lia].
  apply keeps_forEach. apply evidenceLine_belowTop.
Qed.

(** X14.  Whatever the page geometry and the result, every call of the
    body draws at or below the top margin: texts, lines and the box at
    a height of at least 20, the rectangle of a link 4 above the line of
    its text. *)
Theorem body_draws_below_the_top_margin
        (pageHeight : Z) (clock : Clock) (data : FactCheckResponse) :
  Forall belowTop
         (bodyCalls pageWidth pageHeight splitTextToSize getTextWidth percent
                    show bullet clock data).
Proof.
  unfold bodyCalls.
  assert (Hbody : keeps belowTop
                        (body pageWidth pageHeight splitTextToSize getTextWidth
                              percent show bullet clock data)).
  { unfold body, header, summaryBox, summaryText, detailedAnalysis. cbv zeta.
    eapply keeps_bind; [staying; apply keeps_advance; lia | intros _].
    eapply keeps_bind; [staying; apply keeps_advance; lia | intros _].
    eapply keeps_bind;
      [ staying; apply keeps_advance;
        pose proof (lines_height_nonneg
                      (splitTextToSize {| style := normal; size := 11 |}
                         (explainable_summary data) (contentWidth pageWidth)) 6);
        lia
      | intros _ ].
    staying. apply keeps_forEach. apply claimBlock_belowTop. }
  apply (Hbody 20). lia.
Qed.

Ltac matching :=
  repeat first
    [ eapply alike_bind; [ apply alike_check; reflexivity | intros _ _ ]
    | eapply alike_bind; [ apply alike_advance | intros _ _ ]
    | eapply alike_bind; [ apply alike_doc; intros; reflexivity | intros _ _ ] ].

(** X15.  The page height decides where the pages break and nothing
    else: under any two page heights the body issues the same calls in
    the same order, up to their vertical positions and to the page
    breaks between them.  No block is dropped, repeated or reordered by
    the pagination. *)
Theorem pagination_keeps_the_content
        (pageHeight1 pageHeight2 : Z) (clock : Clock) (data : FactCheckResponse) :
  flat_map unplaced
           (bodyCalls pageWidth pageHeight1 splitTextToSize getTextWidth percent
                      show bullet clock data)
  = flat_map unplaced
             (bodyCalls pageWidth pageHeight2 splitTextToSize getTextWidth percent
                        show bullet clock data).
Proof.
  assert (Hline : forall ev,
             alike unplaced (evidenceLine pageHeight1 getTextWidth bullet ev)
                            (evidenceLine pageHeight2 getTextWidth bullet ev)).
  { intros ev. unfold evidenceLine. cbv zeta. matching.
    apply alike_when. matching. apply alike_advance. }
  assert (Hclaim : forall entry,
             alike unplaced
                   (claimBlock pageWidth pageHeight1 splitTextToSize getTextWidth
                               bullet entry)
                   (claimBlock pageWidth pageHeight2 splitTextToSize getTextWidth
                               bullet entry)).
  { intros [idx claim]. unfold claimBlock, evidenceBlock. cbv zeta. matching.
    eapply alike_bind; [|intros _ _; apply alike_advance].
    apply alike_when. matching.
    eapply alike_bind; [|intros _ _; apply alike_advance].
    apply alike_forEach. exact Hline. }
  assert (Hbody : alike unplaced
     (body pageWidth pageHeight1 splitTextToSize getTextWidth percent show
           bullet clock data)
     (body pageWidth pageHeight2 splitTextToSize getTextWidth percent show
           bullet clock data)).
  { unfold body, header, summaryBox, summaryText, detailedAnalysis. cbv zeta.
    eapply alike_bind; [matching; apply alike_advance | intros _ _].
    eapply alike_bind; [matching; apply alike_advance | intros _ _].
    eapply alike_bind; [matching; apply alike_advance | intros _ _].
    matching. apply alike_forEach. exact Hclaim. }
  exact (Hbody 20 20).
Qed.

End ReportBounds.

(** ** The component: attachments, submissions, history *)

Section Attachments.
Import PdfService App AppEvents.

Variable extractTextFromPdf : File -> string + string.
Variable analyzeContent :
  string -> option string -> GeminiService.Mode
  -> string + Types.FactCheckResponse.
Variable readerFails : File -> bool.

Local Abbreviation handleSubmit_end :=
  (App.handleSubmit_end extractTextFromPdf analyzeContent readerFails).
Local Abbreviation reachable :=
  (App.reachable extractTextFromPdf analyzeContent readerFails).
Local Abbreviation step :=
  (App.step extractTextFromPdf analyzeContent readerFails).

Lemma handlePdfSelect_cases (file : File) (app : App) :
  (type file = "application/pdf"
   /\ handlePdfSelect file app = setMedia None (Some file) app)
  \/ (type file <> "application/pdf" /\ handlePdfSelect file app = app).
Proof.
  unfold handlePdfSelect.
  destruct (String.eqb_spec (type file) "application/pdf") as [Hpdf|Hother];
    cbn [negb]; [left | right]; split; auto.
Qed.

Lemma handler_keeps_attachment (app app' : App) :
  handler app app' -> oneAttachment app -> oneAttachment app'.
Proof.
  intros Hrun Hone.
  destruct Hrun as [ t app | m app | file app | file app | app | app
                   | app | app | app | h app _ | app ];
    try exact Hone.
  - split; [right; reflexivity | discriminate].
  - destruct (handlePdfSelect_cases file app) as [[Hpdf ->]|[_ ->]];
      [|exact Hone].
    split; [left; reflexivity|]. cbn [selectedPdf setMedia].
    intros pdf [= <-]. exact Hpdf.
  - split; [left; reflexivity | discriminate].
  - split; [left; reflexivity | discriminate].
Qed.

Lemma handleSubmit_end_media (captured app : App) (clock_id clock_date : Z) :
  selectedImage (handleSubmit_end captured clock_id clock_date app)
  = selectedImage app
  /\ selectedPdf (handleSubmit_end captured clock_id clock_date app)
     = selectedPdf app.
Proof.
  unfold App.handleSubmit_end.
  destruct (App.analysisOutcome _ _ _ captured); split; reflexivity.
Qed.

(** X16.  In every state the session reaches, the component and every
    submission that is still awaited hold at most one attached file,
    image or PDF, and a PDF that is attached has the type
    [application/pdf]: the PDF service is never handed a file of
    another type, and no submission carries both an image and a PDF. *)
Theorem one_attachment_at_most (s : Session) :
  reachable s ->
  oneAttachment (current s) /\ Forall oneAttachment (awaiting s).
Proof.
  intros Hreach. induction Hreach as [stored | s s' _ [Hcur Hcalls] Hstep].
  - split; [|constructor]. split; [left; reflexivity | discriminate].
  - destruct Hstep as [ app app' calls Hrun | app app' calls Hbegin
                      | captured clock_id clock_date app before after ];
      cbn [current awaiting] in *.
    + split; [|exact Hcalls]. exact (handler_keeps_attachment _ _ Hrun Hcur).
    + unfold handleSubmit_begin in Hbegin.
      destruct (nothingToSubmit app); [discriminate|]. injection Hbegin as <-.
      split; [exact Hcur|]. constructor; assumption.
    + split.
      * destruct (handleSubmit_end_media captured app clock_id clock_date)
          as [Himage Hpdf].
        unfold oneAttachment. rewrite Himage, Hpdf. exact Hcur.
      * apply Forall_app in Hcalls. destruct Hcalls as [Hbefore Hafter].
        apply Forall_app. split; [exact Hbefore|]. now inversion Hafter.
Qed.

(** X23.  A drop attaches the first file of the transfer when it is an
    image or a PDF, and else takes the dropped text when there is one;
    it never leaves two files attached, and it touches neither the
    analysis shown, nor the mode, nor the history, nor the storage. *)
Theorem drop_keeps_one_attachment
        (files : list File) (droppedText : string) (app : App) :
  let app' := handleDrop files droppedText app in
  (oneAttachment app -> oneAttachment app')
  /\ (inputText app' = inputText app
      \/ (inputText app' = droppedText
          /\ selectedImage app' = selectedImage app
          /\ selectedPdf app' = selectedPdf app))
  /\ state app' = state app
  /\ analysisMode app' = analysisMode app
  /\ history app' = history app
  /\ storage app' = storage app.
Proof.
  cbv zeta.
  assert (Hrun : handleDrop files droppedText app = app
                 \/ handler app (handleDrop files droppedText app)).
  { unfold handleDrop.
    assert (Htext : (if JS.truthy droppedText
                     then setInputText droppedText app else app) = app
                    \/ handler app (if JS.truthy droppedText
                                    then setInputText droppedText app else app)).
    { destruct (JS.truthy droppedText); [right; constructor | left; reflexivity]. }
    destruct files as [|file rest]; [exact Htext|].
    destruct (String.prefix "image/" (type file)); [right; constructor|].
    destruct (String.eqb (type file) "application/pdf");
      [right; constructor | exact Htext]. }
  split.
  { intros Hone. destruct Hrun as [-> | Hrun]; [exact Hone|].
    exact (handler_keeps_attachment _ _ Hrun Hone). }
  unfold handleDrop.
  assert (Htext : forall app0,
             app0 = (if JS.truthy droppedText
                     then setInputText droppedText app else app) ->
             (inputText app0 = inputText app
              \/ (inputText app0 = droppedText
                  /\ selectedImage app0 = selectedImage app
                  /\ selectedPdf app0 = selectedPdf app))
             /\ state app0 = state app
             /\ analysisMode app0 = analysisMode app
             /\ history app0 = history app
             /\ storage app0 = storage app).
  { intros app0 ->. destruct (JS.truthy droppedText);
      (split; [|repeat split]); [right; repeat split | left; reflexivity]. }
  destruct files as [|file rest]; [apply Htext; reflexivity|].
  destruct (String.prefix "image/" (type file)).
  { split; [left; reflexivity | repeat split]. }
  destruct (String.eqb (type file) "application/pdf"); [|apply Htext; reflexivity].
  destruct (handlePdfSelect_cases file app) as [[_ ->]|[_ ->]];
    (split; [left; reflexivity | repeat split]).
Qed.

(** X20.  When the PDF service rejects the attached PDF, the submission
    ends in the error state with the message of the service after
    [Failed to read PDF file: ]; this holds whatever the analysis
    service would answer and whatever the reader does, and the history
    and the storage are as before. *)
Theorem unreadable_pdf_is_reported
        (captured app : App) (clock_id clock_date : Z)
        (pdf : File) (message : string) :
  selectedPdf captured = Some pdf ->
  extractTextFromPdf pdf = inl message ->
  handleSubmit_end captured clock_id clock_date app
  = setState (errorState ("Failed to read PDF file: " ++ message)) app.
Proof.
  intros Hpdf Hfail.
  unfold App.handleSubmit_end, App.analysisOutcome, App.analysisArguments.
  cbv zeta. rewrite Hpdf, Hfail. reflexivity.
Qed.

(** X27.  In every state the session reaches, the history shown has at
    most ten entries unless it is the stored list, loaded as it was. *)
Theorem history_is_kept_within_ten (s : Session) :
  reachable s -> historyKept (current s).
Proof.
  intros Hreach. induction Hreach as [stored | s s' _ IH Hstep].
  - left. cbn. lia.
  - destruct Hstep as [ app app' calls Hrun | app app' calls Hbegin
                      | captured clock_id clock_date app before after ];
      cbn [current] in *.
    + destruct Hrun as [ t app | m app | file app | file app | app | app
                       | app | app | app | h app Hstored | app ];
        try exact IH.
      * destruct (handlePdfSelect_cases file app) as [[_ ->]|[_ ->]]; exact IH.
      * right. exact Hstored.
      * left. cbn. lia.
    + unfold handleSubmit_begin in Hbegin.
      destruct (nothingToSubmit app); [discriminate|]. injection Hbegin as <-.
      exact IH.
    + unfold App.handleSubmit_end.
      destruct (App.analysisOutcome _ _ _ captured) as [message|result].
      * exact IH.
      * right. reflexivity.
Qed.

Lemma In_firstn {A : Type} (n : nat) (l : list A) (a : A) :
  In a (firstn n l) -> In a l.
Proof.
  intros Hin. rewrite <- (firstn_skipn n l). apply in_or_app. now left.
Qed.

(** X28.  The list written when a successful submission settles is
    built from the history that the submission saw when it started, not
    from the history at the time it settles: the list kept and the list
    persisted become the new entry followed by that earlier history,
    cut at ten, and an entry that another submission added in between
    is in neither of them. *)
Theorem settling_drops_entries_added_meanwhile
        (captured app : App) (clock_id clock_date : Z)
        (result : Types.FactCheckResponse) :
  App.analysisOutcome extractTextFromPdf analyzeContent readerFails captured
  = inr result ->
  let entry := newItem clock_id clock_date (historyLabel captured) result in
  let app' := handleSubmit_end captured clock_id clock_date app in
  history app' = firstn 10 (entry :: history captured)
  /\ storage app' = Some (history app')
  /\ forall item,
       In item (history app) ->
       ~ In item (history captured) -> item <> entry ->
       ~ In item (history app').
Proof.
  intros Hout. cbv zeta. unfold App.handleSubmit_end. rewrite Hout.
  cbn [setState addToHistory setStorage setHistory history storage].
  split; [reflexivity|]. split; [reflexivity|].
  intros item _ Hnew Hother Hin. apply In_firstn in Hin.
  destruct Hin as [Heq | Hin]; [now apply Hother | now apply Hnew].
Qed.

End Attachments.

Lemma one_attachment_at_most_witness :
  App.reachable SessionSamples.pdfText SessionSamples.analysis
                SessionSamples.readerWorks
                {| App.current := Samples.pngSubmission; App.awaiting := [] |}
  /\ AppEvents.oneAttachment Samples.pngSubmission.
Proof.
  assert (Hreach : App.reachable SessionSamples.pdfText SessionSamples.analysis
                     SessionSamples.readerWorks
                     {| App.current := Samples.pngSubmission;
                        App.awaiting := [] |}).
  { eapply App.reachable_step;
      [ apply (App.reachable_initial _ _ _ None)
      | apply App.step_handler, App.on_image ]. }
  split; [exact Hreach|].
  exact (proj1 (one_attachment_at_most SessionSamples.pdfText
                  SessionSamples.analysis SessionSamples.readerWorks
                  _ Hreach)).
Defined.

(** A component that loaded a stored history of eleven entries shows
    all eleven, the stored list as it is; once a query is answered on a
    loaded history, the list shown has ten. *)
Lemma history_is_kept_within_ten_witness :
  List.length (App.history (SessionSamples.loaded SessionSamples.elevenEntries))
  = 11%nat
  /\ AppEvents.historyKept (SessionSamples.loaded SessionSamples.elevenEntries)
  /\ List.length (App.history SessionSamples.askedAnswered) = 10%nat
  /\ AppEvents.historyKept SessionSamples.askedAnswered.
Proof.
  assert (Hloaded : forall stored,
             App.reachable SessionSamples.pdfText SessionSamples.analysis
               SessionSamples.readerWorks
               {| App.current := SessionSamples.loaded stored;
                  App.awaiting := [] |}).
  { intros stored. eapply App.reachable_step;
      [ apply (App.reachable_initial _ _ _ (Some stored))
      | apply App.step_handler, App.on_loadHistory; reflexivity ]. }
  assert (Hanswered :
            App.reachable SessionSamples.pdfText SessionSamples.analysis
              SessionSamples.readerWorks
              {| App.current := SessionSamples.askedAnswered;
                 App.awaiting := [] |}).
  { eapply App.reachable_step;
      [|apply (App.step_settle _ _ _ SessionSamples.asked _ _ _ [] [])].
    eapply App.reachable_step;
      [|apply (App.step_submit _ _ _ SessionSamples.asked); reflexivity].
    eapply App.reachable_step;
      [ apply (Hloaded SessionSamples.tenEntries)
      | apply App.step_handler, App.on_input ]. }
  split; [reflexivity|]. split.
  - exact (history_is_kept_within_ten SessionSamples.pdfText
             SessionSamples.analysis SessionSamples.readerWorks _
             (Hloaded SessionSamples.elevenEntries)).
  - split; [reflexivity|].
    exact (history_is_kept_within_ten SessionSamples.pdfText
             SessionSamples.analysis SessionSamples.readerWorks _ Hanswered).
Defined.

(** Two submissions that overlap, both answered: the session is one
    the component can reach; the entry of the first answer was kept and
    persisted, and the second answer wrote over it. *)
Lemma settling_drops_entries_added_meanwhile_witness :
  App.reachable SessionSamples.pdfText SessionSamples.analysis
                SessionSamples.readerWorks
                {| App.current := SessionSamples.bothAnswered;
                   App.awaiting := [] |}
  /\ map App.query
         (App.history
            (App.handleSubmit_end SessionSamples.pdfText SessionSamples.analysis
               SessionSamples.readerWorks SessionSamples.first 1 2
               (App.setState App.analyzingState SessionSamples.second)))
     = ["first"]
  /\ map App.query (App.history SessionSamples.bothAnswered) = ["second"]
  /\ App.storage SessionSamples.bothAnswered
     = Some (App.history SessionSamples.bothAnswered).
Proof.
  split.
  { eapply App.reachable_step;
      [|apply (App.step_settle _ _ _ SessionSamples.second _ _ _ [] [])].
    eapply App.reachable_step;
      [|apply (App.step_settle _ _ _ SessionSamples.first _ _ _
                 [SessionSamples.second] [])].
    eapply App.reachable_step;
      [|apply (App.step_submit _ _ _ SessionSamples.second); reflexivity].
    eapply App.reachable_step; [|apply App.step_handler, App.on_input].
    eapply App.reachable_step; [|apply App.step_handler, App.on_logo].
    eapply App.reachable_step;
      [|apply (App.step_submit _ _ _ SessionSamples.first); reflexivity].
    eapply App.reachable_step;
      [ apply (App.reachable_initial _ _ _ None)
      | apply App.step_handler, App.on_input ]. }
  destruct (settling_drops_entries_added_meanwhile SessionSamples.pdfText
              SessionSamples.analysis SessionSamples.readerWorks
              SessionSamples.second
              (App.handleSubmit_end SessionSamples.pdfText
                 SessionSamples.analysis SessionSamples.readerWorks
                 SessionSamples.first 1 2
                 (App.setState App.analyzingState SessionSamples.second))
              3 4 ReportSamples.fourClaims eq_refl)
    as (Hkept & Hstored & _).
  split; [reflexivity|]. split.
  - unfold SessionSamples.bothAnswered. rewrite Hkept. reflexivity.
  - exact Hstored.
Defined.

Lemma unreadable_pdf_is_reported_witness :
  let failing (_ : PdfService.File) : string + string :=
    inl PdfService.noTextMessage in
  let captured := App.handlePdfSelect Samples.scanFile (App.initial None) in
  App.selectedPdf captured = Some Samples.scanFile
  /\ Types.error_message
       (App.state
          (App.handleSubmit_end failing SessionSamples.analysis
             SessionSamples.readerWorks captured 0 0
             (App.setState App.analyzingState captured)))
     = Some ("Failed to read PDF file: " ++ PdfService.noTextMessage).
Proof.
  cbv zeta. split; [reflexivity|].
  rewrite (unreadable_pdf_is_reported
             (fun _ => inl PdfService.noTextMessage)
             SessionSamples.analysis SessionSamples.readerWorks
             (App.handlePdfSelect Samples.scanFile (App.initial None))
             (App.setState App.analyzingState
                (App.handlePdfSelect Samples.scanFile (App.initial None)))
             0 0 Samples.scanFile PdfService.noTextMessage
             eq_refl eq_refl).
  reflexivity.
Defined.

Section Reader.
Import PdfService App.

Variable readerFails : File -> bool.

Lemma occurs_append (c : ascii) (a b : string) :
  Text.occurs c (a ++ b) = (Text.occurs c a || Text.occurs c b)%bool.
Proof.
  induction a as [|x a IH]; [reflexivity|].
  cbn [append Text.occurs]. now rewrite IH, orb_assoc.
Qed.

Lemma split_without (c : ascii) (s : string) :
  Text.occurs c s = false -> split c s = [s].
Proof.
  induction s as [|x s IH]; [reflexivity|].
  cbn [Text.occurs split]. intros Hno. apply orb_false_iff in Hno.
  destruct Hno as [Hx Hs]. now rewrite Hx, IH.
Qed.

Lemma split_at_first (c : ascii) (a b : string) :
  Text.occurs c a = false -> split c (a ++ String c b) = a :: split c b.
Proof.
  induction a as [|x a IH].
  - intros _. cbn [append split]. now rewrite Ascii.eqb_refl.
  - cbn [Text.occurs append split]. intros Hno. apply orb_false_iff in Hno.
    destruct Hno as [Hx Ha]. now rewrite Hx, IH.
Qed.

(** X17.  [fileToBase64] gives back the bytes of the file: when the
    reader works and neither the type of the file nor its base64 text
    holds a comma, the part of the data URL after its first comma is
    the base64 text itself. *)
Theorem fileToBase64_gives_the_bytes (file : File) :
  readerFails file = false ->
  Text.occurs "," (type file) = false ->
  Text.occurs "," (data file) = false ->
  fileToBase64 readerFails file = inr (Some (data file)).
Proof.
  intros Hreads Htype Hdata. unfold fileToBase64, dataURL. rewrite Hreads.
  replace ("data:" ++ type file ++ ";base64," ++ data file)
    with (("data:" ++ type file ++ ";base64") ++ String "," (data file)).
  - rewrite split_at_first, split_without by
        (try exact Hdata; rewrite !occurs_append, Htype; reflexivity).
    reflexivity.
  - rewrite !append_assoc. reflexivity.
Qed.

End Reader.

Lemma fileToBase64_gives_the_bytes_witness :
  App.fileToBase64 SessionSamples.readerWorks Samples.pngFile
  = inr (Some "iVBORw0KGgo=").
Proof.
  apply (fileToBase64_gives_the_bytes SessionSamples.readerWorks Samples.pngFile);
    reflexivity.
Defined.

Section Submission.
Import PdfService App AppEvents.

Lemma trimEnd_blank (s : string) :
  JS.trimEnd s = "" <-> blank s = true.
Proof.
  induction s as [|c s IH]; [split; reflexivity|].
  cbn [JS.trimEnd blank]. rewrite andb_true_iff, <- IH.
  destruct (JS.trimEnd s) as [|x t].
  - destruct (JS.isWhiteSpace c); split.
    + intros _. split; reflexivity.
    + reflexivity.
    + discriminate.
    + intros [Hc _]. discriminate Hc.
  - split; [discriminate | intros [_ Hrest]; discriminate Hrest].
Qed.

Lemma trimStart_blank (s : string) :
  blank (JS.trimStart s) = blank s.
Proof.
  induction s as [|c s IH]; [reflexivity|].
  cbn [JS.trimStart]. destruct (JS.isWhiteSpace c) eqn:Hc; [|reflexivity].
  cbn [blank]. now rewrite Hc, IH.
Qed.

Lemma trim_blank (s : string) :
  JS.truthy (JS.trim s) = false <-> blank s = true.
Proof.
  unfold JS.trim. rewrite <- trimStart_blank, <- trimEnd_blank.
  destruct (JS.trimEnd (JS.trimStart s)); split; try reflexivity; discriminate.
Qed.

(** X19.  [handleSubmit] returns at once, leaving the component as it
    is, exactly when nothing is attached and the input is empty or made
    of white space only; in every other case the component goes to the
    analyzing state, with everything else unchanged. *)
Theorem blank_submission_is_ignored (app : App) :
  (handleSubmit_begin app = None
   <-> blank (inputText app) = true
       /\ selectedImage app = None /\ selectedPdf app = None)
  /\ (handleSubmit_begin app <> None ->
      handleSubmit_begin app = Some (setState analyzingState app)).
Proof.
  unfold handleSubmit_begin, nothingToSubmit. split.
  - rewrite <- trim_blank.
    destruct (JS.truthy (JS.trim (inputText app))),
             (selectedImage app), (selectedPdf app);
      cbn [negb andb]; split; try discriminate; try reflexivity;
      try (intros (H1 & H2 & H3); discriminate); auto.
  - destruct (_ && _ && _)%bool; [intros H; now contradiction H | reflexivity].
Qed.

Lemma firstn_app_firstn {A : Type} (n : nat) (a b : list A) :
  firstn n (a ++ firstn n b) = firstn n (a ++ b).
Proof.
  rewrite !firstn_app, firstn_firstn. f_equal. f_equal. lia.
Qed.

Lemma recordAll_history
      (entries : list (Z * Z * string * Types.FactCheckResponse)) (app : App) :
  history (recordAll entries app)
  = firstn 10 (rev (map itemOf entries) ++ history app)
    \/ (entries = [] /\ recordAll entries app = app).
Proof.
  revert app. induction entries as [|[[[clock_id clock_date] q] result] rest IH];
    intros app; [right; split; reflexivity | left].
  cbn [recordAll map rev itemOf].
  destruct (IH (addToHistory (history app) clock_id clock_date q result app))
    as [Hrest | [-> Hsame]].
  - rewrite Hrest. cbn [addToHistory setStorage setHistory history].
    rewrite firstn_app_firstn, <- app_assoc. reflexivity.
  - cbn [recordAll map rev List.app]. cbn [addToHistory setStorage setHistory history].
    reflexivity.
Qed.

(** X18.  After any number of analyses that succeeded one after the
    other, the history is the entries of these analyses, the latest
    first, followed by the entries there were before, the whole cut at
    ten; from the first success on, the storage holds this very list. *)
Theorem history_holds_the_latest_ten
        (entries : list (Z * Z * string * Types.FactCheckResponse)) (app : App) :
  (List.length (history app) <= 10)%nat ->
  history (recordAll entries app)
  = firstn 10 (rev (map itemOf entries) ++ history app)
  /\ (entries <> [] ->
      storage (recordAll entries app) = Some (history (recordAll entries app))).
Proof.
  intros Hten. split.
  - destruct (recordAll_history entries app) as [Hall | [-> Hsame]];
      [exact Hall|].
    cbn [recordAll map rev List.app]. now rewrite firstn_all2.
  - revert app Hten.
    induction entries as [|[[[clock_id clock_date] q] result] rest IH];
      intros app Hten Hsome; [now contradiction Hsome|].
    cbn [recordAll]. destruct rest as [|next rest'].
    + reflexivity.
    + apply IH; [|discriminate].
      cbn [addToHistory setStorage setHistory history].
      rewrite length_firstn. lia.
Qed.

Lemma join_after_head (sep p t : string) (rest : list string) :
  JS.join sep ((p ++ sep ++ t) :: rest) = p ++ sep ++ JS.join sep (t :: rest).
Proof.
  destruct rest as [|r rs]; [reflexivity|].
  cbn [JS.join]. now rewrite !append_assoc.
Qed.

(** X22.  Dictation appends: after the transcripts of several
    recognitions, none of them empty, the input is what it was before
    and the transcripts in order, all joined by single spaces; from an
    empty input it is the transcripts alone. *)
Theorem dictation_joins_with_spaces (ts : list string) (app : App) :
  Forall (fun transcript => JS.truthy transcript = true) ts ->
  inputText (dictate ts app)
  = JS.join " " (if JS.truthy (inputText app)
                 then inputText app :: ts else ts).
Proof.
  intros Hall. revert app.
  induction Hall as [|transcript rest Hfull _ IH]; intros app.
  - cbn [dictate]. destruct (inputText app); reflexivity.
  - cbn [dictate]. rewrite IH. unfold onresult. cbn [inputText setInputText].
    destruct (inputText app) as [|c prev] eqn:Hprev.
    + cbn [JS.truthy append]. now rewrite Hfull.
    + cbn [JS.truthy].
      replace (JS.truthy (String c prev ++ " " ++ transcript)) with true
        by reflexivity.
      now rewrite join_after_head.
Qed.

Lemma loadingStepAfter_min (n : nat) : loadingStepAfter n = Nat.min n 4.
Proof.
  induction n as [|n IH]; [reflexivity|].
  cbn [loadingStepAfter]. rewrite IH. unfold nextLoadingStep.
  change (List.length LOADING_STEPS - 1)%nat with 4%nat.
  destruct (Nat.ltb_spec (Nat.min n 4) 4); lia.
Qed.

(** X24.  The loading indicator advances by one step at each tick and
    stays on the last of its five steps: after [n] ticks it is on the
    step [min n 4], the steps before are shown completed, the steps
    after pending, and exactly one step is shown active. *)
Theorem loading_steps_advance_and_stop (n : nat) :
  loadingStepAfter n = Nat.min n 4
  /\ stepLooks (loadingStepAfter n)
     = (List.repeat isCompleted (Nat.min n 4)
        ++ [isActive]
        ++ List.repeat isPending (4 - Nat.min n 4))%list.
Proof.
  split; [apply loadingStepAfter_min|]. rewrite loadingStepAfter_min.
  assert (Hcases : (Nat.min n 4 = 0 \/ Nat.min n 4 = 1 \/ Nat.min n 4 = 2
                    \/ Nat.min n 4 = 3 \/ Nat.min n 4 = 4)%nat) by lia.
  destruct Hcases as [-> | [-> | [-> | [-> | ->]]]]; reflexivity.
Qed.

End Submission.

Lemma history_holds_the_latest_ten_witness :
  map App.query
      (App.history
         (AppEvents.recordAll
            [ (1, 1, "first", ReportSamples.fourClaims);
              (2, 2, "second", ReportSamples.fourClaims) ]
            (App.initial None)))
  = ["second"; "first"].
Proof.
  rewrite (proj1 (history_holds_the_latest_ten
                    [ (1, 1, "first", ReportSamples.fourClaims);
                      (2, 2, "second", ReportSamples.fourClaims) ]
                    (App.initial None) (Nat.le_0_l 10))).
  reflexivity.
Defined.

Lemma dictation_joins_with_spaces_witness :
  App.inputText (AppEvents.dictate ["is"; "it"; "true"] (App.initial None))
  = "is it true".
Proof.
  rewrite (dictation_joins_with_spaces ["is"; "it"; "true"] (App.initial None)).
  - reflexivity.
  - repeat constructor.
Defined.

(** ** The display: verdict badges and action labels *)

Section Badge.
Import Components.

Variable inherited : string -> bool.

Lemma spaced_length (action : string) :
  String.length (spaced action) = String.length action.
Proof.
  induction action as [|c r IH]; [reflexivity|].
  cbn [spaced String.length]. now rewrite IH.
Qed.

(** X26.  The label of a recommended action has every underscore of the
    action replaced by a space, not the first one only: no underscore is
    left, the length is the same, and an action without underscore is
    shown as it is. *)
Theorem spaced_replaces_every_underscore (action : string) :
  Text.occurs "_" (spaced action) = false
  /\ JS.len (spaced action) = JS.len action
  /\ Text.count " " (spaced action)
     = (Text.count " " action + Text.count "_" action)%nat
  /\ (Text.occurs "_" action = false -> spaced action = action).
Proof.
  unfold JS.len. rewrite spaced_length. repeat split.
  - induction action as [|c r IH]; [reflexivity|].
    cbn [spaced Text.occurs]. rewrite IH.
    destruct (Ascii.eqb c "_") eqn:Hc; [reflexivity|]. now rewrite Hc.
  - induction action as [|c r IH]; [reflexivity|].
    cbn [spaced Text.count]. rewrite IH.
    destruct (Ascii.eqb c "_") eqn:Hc.
    + apply Ascii.eqb_eq in Hc. subst c.
      change (Ascii.eqb " " " ") with true.
      change (Ascii.eqb "_" " ") with false. cbv iota. lia.
    + destruct (Ascii.eqb c " "); lia.
  - induction action as [|c r IH]; [reflexivity|].
    cbn [spaced Text.occurs]. intros Hno. apply orb_false_iff in Hno.
    destruct Hno as [Hc Hr]. now rewrite Hc, IH.
Qed.

(** X25.  The badge of a verdict that is none of the six names of the
    schema, and no name that every object inherits, is the gray badge
    of [unknown] with the question-mark icon, but with the label
    [Unknown], where the verdict [unknown] itself is labelled
    [Unverified]. *)
Theorem unexpected_verdict_is_shown_unknown (verdict : string) :
  ownMember VERDICT_LABELS verdict = None ->
  inherited verdict = false ->
  colorClass inherited verdict = colorClass inherited "unknown"
  /\ colorClass inherited verdict = own "bg-gray-100 text-gray-800 border-gray-200"
  /\ icon verdict = icon "unknown"
  /\ icon verdict = HelpCircle
  /\ label inherited verdict = own "Unknown"
  /\ label inherited "unknown" = own "Unverified".
Proof.
  intros Hnone Hplain.
  assert (Hnames : String.eqb "true" verdict = false
                   /\ String.eqb "false" verdict = false
                   /\ String.eqb "misleading" verdict = false
                   /\ String.eqb "out_of_context" verdict = false
                   /\ String.eqb "ai_generated" verdict = false
                   /\ String.eqb "unknown" verdict = false).
  { unfold VERDICT_LABELS in Hnone. cbn [ownMember] in Hnone.
    repeat match type of Hnone with
           | (if ?b then _ else _) = None =>
               destruct b; [discriminate Hnone|]
           end.
    repeat split. }
  destruct Hnames as (H1 & H2 & H3 & H4 & H5 & H6).
  unfold colorClass, label, member, icon, VERDICT_COLORS, VERDICT_LABELS.
  cbn [ownMember].
  rewrite !(String.eqb_sym verdict).
  rewrite H1, H2, H3, H4, H5, H6, Hplain.
  repeat split.
Qed.

End Badge.

Lemma unexpected_verdict_is_shown_unknown_witness :
  Components.label (fun _ => false) "satire" = Components.own "Unknown"
  /\ Components.icon "satire" = Components.HelpCircle.
Proof.
  pose proof (unexpected_verdict_is_shown_unknown (fun _ => false) "satire"
                eq_refl eq_refl) as (_ & _ & _ & Hicon & Hlabel & _).
  split; [exact Hlabel | exact Hicon].
Defined.

(** The settling of the answered query wrote the storage. *)
Lemma storage_written_only_on_success_witness :
  App.storage (App.setState App.analyzingState SessionSamples.typed) = None
  /\ (App.storage SessionSamples.answered
      = App.storage (App.setState App.analyzingState SessionSamples.typed)
      \/ (App.storage SessionSamples.answered
          = Some (App.history SessionSamples.answered)
          /\ (List.length (App.history SessionSamples.answered) <= 10)%nat
          /\ Types.status (App.state SessionSamples.answered) = Types.complete)).
Proof.
  split; [reflexivity|].
  apply (storage_written_only_on_success SessionSamples.pdfText
           SessionSamples.analysis SessionSamples.readerWorks
           {| App.current := App.setState App.analyzingState SessionSamples.typed;
              App.awaiting := [SessionSamples.typed] |}
           {| App.current := SessionSamples.answered; App.awaiting := [] |}).
  apply (App.step_settle _ _ _ SessionSamples.typed _ _ _ [] []).
Defined.
